(** * Credential and session lifecycle of the UniApply Hub backend

    A shallow embedding of the password service, the token service, the
    user model's session methods, the request gate and the auth routes,
    with the properties of the credential/session specification stated
    and proved over it.

    Conventions.
    - A JavaScript string is a Rocq [string]: a sequence of one-byte code
      units.  For such strings code units and code points coincide, so
      [String.length] is [.length] and the character set of a string is
      the set of its code units.
    - A promise that resolves is [Returned], a rejection or a [throw] is
      [Thrown]; [await] is sequencing.
    - Third-party libraries (bcryptjs, jsonwebtoken, express-validator)
      are not part of the repository: they are fields of a [Library]
      record over which every definition is parametrised.
    - The database is not part of the repository either.  The stored
      documents are a [Store]; whether the database rejects a query or a
      write (an identifier it cannot cast, a validation or index error,
      a lost connection) is a [Database] record given to every
      operation that reaches it.
    - Randomness and the clock are explicit inputs. *)

From Stdlib Require Import ZArith Ascii String List Permutation.
From stdpp Require Import gmap strings list fin_maps.

Local Open Scope string_scope.
Local Open Scope Z_scope.

(* ===================================================================== *)
(** ** JavaScript values, errors and outcomes *)
(* ===================================================================== *)

(** The values a caller can pass where the code expects a string.
    [JsObject] stands for every other truthy value that is not a string
    (objects, arrays, functions). *)
Inductive JsValue : Type :=
  | JsUndefined
  | JsNull
  | JsBool (b : bool)
  | JsNumber (n : Z)
  | JsNaN
  | JsString (s : string)
  | JsObject (tag : string).

(** [!v] is [negb (truthy v)]. *)
Definition truthy (v : JsValue) : bool :=
  match v with
  | JsUndefined | JsNull | JsNaN => false
  | JsBool b => b
  | JsNumber n => negb (n =? 0)
  | JsString s => negb (String.eqb s "")
  | JsObject _ => true
  end.

(** [typeof v === 'string'] *)
Definition isString (v : JsValue) : bool :=
  match v with JsString _ => true | _ => false end.

Inductive ErrCode : Type :=
  | CodeStr (s : string)
  | CodeNum (n : Z).

(** An [Error] object: the properties read anywhere in the services. *)
#[local] Set Warnings "-register-all".
Inductive JsError : Type := mkError {
  err_name : string;
  err_message : string;
  err_code : option ErrCode;
  err_validationErrors : option (list string);
  err_originalError : option JsError
}.

(** [new Error(msg)] *)
Definition Error (msg : string) : JsError :=
  mkError "Error" msg None None None.

Inductive outcome (A : Type) : Type :=
  | Returned (a : A)
  | Thrown (e : JsError).
Arguments Returned {A} a.
Arguments Thrown {A} e.

(* ===================================================================== *)
(** ** Strings: the String.prototype methods the code uses *)
(* ===================================================================== *)

Definition chars (s : string) : list ascii := list_ascii_of_string s.
Definition join (l : list ascii) : string := string_of_list_ascii l.

Definition code (c : ascii) : nat := nat_of_ascii c.

Definition inRange (lo hi : nat) (c : ascii) : bool :=
  (Nat.leb lo (code c)) && (Nat.leb (code c) hi).

(** Character classes of the regular expressions. *)
Definition isUpper (c : ascii) : bool := inRange 65 90 c.   (* [A-Z] *)
Definition isLower (c : ascii) : bool := inRange 97 122 c.  (* [a-z] *)
Definition isDigit (c : ascii) : bool := inRange 48 57 c.   (* \d *)

Definition ascii_eqb (a b : ascii) : bool := Ascii.eqb a b.

(** The special-character class of the scoring rules: the punctuation
    below and the double quote (code 34). *)
Definition specialClass : list ascii :=
  chars "!@#$%^&*(),.?:{}|<>" ++ [ascii_of_nat 34].

Definition isSpecial (c : ascii) : bool :=
  existsb (ascii_eqb c) specialClass.

(** [.] of a (non-dotAll) regular expression: anything but a line
    terminator. *)
Definition isLineTerminator (c : ascii) : bool :=
  Nat.eqb (code c) 10 || Nat.eqb (code c) 13.

(** [String.prototype.toLowerCase] on one-byte code units. *)
Definition lowerChar (c : ascii) : ascii :=
  let n := code c in
  if inRange 65 90 c then ascii_of_nat (n + 32)
  else if inRange 192 222 c && negb (Nat.eqb n 215) then ascii_of_nat (n + 32)
  else c.

Definition toLowerCase (s : string) : string := join (map lowerChar (chars s)).

(** Case-insensitive comparison of the [/i] flag: only ASCII letters are
    folded onto ASCII letters. *)
Definition foldAscii (c : ascii) : ascii :=
  if isUpper c then ascii_of_nat (code c + 32) else c.

Fixpoint isPrefixOf (p l : list ascii) : bool :=
  match p, l with
  | [], _ => true
  | _ :: _, [] => false
  | a :: p', b :: l' => ascii_eqb a b && isPrefixOf p' l'
  end.

Fixpoint isInfixOf (p l : list ascii) : bool :=
  isPrefixOf p l ||
  match l with
  | [] => false
  | _ :: l' => isInfixOf p l'
  end.

(** [s.includes(needle)] *)
Definition includes (s needle : string) : bool :=
  isInfixOf (chars needle) (chars s).

(** [s.startsWith(p)] *)
Definition startsWith (s p : string) : bool :=
  isPrefixOf (chars p) (chars s).

(** [s.substring(n)] for [0 <= n] *)
Definition substringFrom (n : nat) (s : string) : string :=
  join (drop n (chars s)).

(** [s.split(sep)[0]]: the part before the first separator. *)
Fixpoint takeUntil (sep : ascii) (l : list ascii) : list ascii :=
  match l with
  | [] => []
  | c :: l' => if ascii_eqb c sep then [] else c :: takeUntil sep l'
  end.

Definition splitHead (sep : ascii) (s : string) : string :=
  join (takeUntil sep (chars s)).

(** White space removed by [trim], among one-byte code units. *)
Definition isWhiteSpace (c : ascii) : bool :=
  let n := code c in
  inRange 9 13 c || Nat.eqb n 32 || Nat.eqb n 160.

Fixpoint dropWhileWs (l : list ascii) : list ascii :=
  match l with
  | [] => []
  | c :: l' => if isWhiteSpace c then dropWhileWs l' else l
  end.

Definition trim (s : string) : string :=
  join (rev (dropWhileWs (rev (dropWhileWs (chars s))))).

(** [new Set(s).size] *)
Fixpoint dedup (l : list ascii) : list ascii :=
  match l with
  | [] => []
  | c :: l' => if existsb (ascii_eqb c) l' then dedup l' else c :: dedup l'
  end.

Definition uniqueCount (s : string) : nat := List.length (dedup (chars s)).

(** [parseInt(s)] without a radix; [None] is NaN. *)
Definition digitValue (radix : nat) (c : ascii) : option nat :=
  let v := if isDigit c then Some (code c - 48)%nat
           else if inRange 97 102 c then Some (code c - 87)%nat
           else if inRange 65 70 c then Some (code c - 55)%nat
           else None in
  match v with
  | Some d => if Nat.ltb d radix then Some d else None
  | None => None
  end.

Fixpoint parseDigits (radix : nat) (l : list ascii) (acc : option Z) : option Z :=
  match l with
  | [] => acc
  | c :: l' =>
      match digitValue radix c with
      | Some d =>
          parseDigits radix l'
            (Some (Z.of_nat radix * default 0 acc + Z.of_nat d))
      | None => acc
      end
  end.

Definition parseInt (s : string) : option Z :=
  let l := dropWhileWs (chars s) in
  let '(neg, l) :=
    match l with
    | c :: l' => if ascii_eqb c "-" then (true, l')
                 else if ascii_eqb c "+" then (false, l') else (false, l)
    | [] => (false, l)
    end in
  let '(radix, l) :=
    match l with
    | z :: x :: l' =>
        if ascii_eqb z "0" && (ascii_eqb x "x" || ascii_eqb x "X")
        then (16%nat, l') else (10%nat, l)
    | _ => (10%nat, l)
    end in
  match parseDigits radix l None with
  | Some v => Some (if neg : bool then - v else v)
  | None => None
  end.

(* ===================================================================== *)
(** ** External libraries *)
(* ===================================================================== *)

(** The payload of a signed token, as the services build and read it. *)
Record Payload : Type := mkPayload {
  p_id : string;
  p_email : string;
  p_sessionId : option string;
  p_type : option string;
  p_tokenType : option string;
  p_purpose : option string
}.

Record SignOptions : Type := mkSignOptions {
  expiresIn : string;
  issuer : string;
  audience : string
}.

(** The options object of [jwt.verify]; [None] when the call passes none. *)
Definition VerifyOptions : Type := option (string * string).

Record Library : Type := mkLibrary {
  (** [bcrypt.hash(data, rounds)] *)
  bcrypt_hash : string -> Z -> outcome string;
  (** [bcrypt.compare(data, hash)] *)
  bcrypt_compare : JsValue -> JsValue -> outcome bool;
  (** [jwt.sign(payload, secret, options)] at a given time; it throws
      on a secret or an option it does not accept *)
  jwt_sign : Z -> Payload -> string -> SignOptions -> outcome string;
  (** [jwt.verify(token, secret, options)] at a given time *)
  jwt_verify : Z -> string -> string -> VerifyOptions -> outcome Payload;
  (** express-validator's [isEmail] and [normalizeEmail] *)
  isEmail : string -> bool;
  normalizeEmail : string -> string;
  (** the runtime's calendar: the time [n] days after a time, as
      [date.setDate(date.getDate() + n)] computes it in the time zone
      of the server *)
  addDays : Z -> Z -> Z
}.

(* ===================================================================== *)
(** ** Password service (services/passwordService.js) *)
(* ===================================================================== *)

Module PasswordService.

Definition minPasswordLength : nat := 8.
Definition maxPasswordLength : nat := 128.

(** [this.requirements] *)
Definition minLength : nat := 8.
Definition maxLength : nat := 128.
Definition requireUppercase : bool := true.
Definition requireLowercase : bool := true.
Definition requireNumbers : bool := true.
Definition requireSpecialChars : bool := false.

(** [/(.)\1{3,}/]: some character other than a line terminator occurs at
    least four times in a row. *)
Fixpoint repeatedRun (l : list ascii) : bool :=
  match l with
  | a :: ((b :: c :: d :: _) as l') =>
      (negb (isLineTerminator a) && ascii_eqb a b && ascii_eqb a c && ascii_eqb a d)
      || repeatedRun l'
  | _ => false
  end.

(** [/123456|654321|password|qwerty/i] *)
Definition commonWords : list string :=
  ["123456"; "654321"; "password"; "qwerty"].

Definition commonPattern (l : list ascii) : bool :=
  existsb (fun w => isInfixOf (chars w) (map foldAscii l)) commonWords.

Definition forbiddenPatterns : list (list ascii -> bool) :=
  [repeatedRun; commonPattern].

(** The [for ... break] loop over the forbidden patterns: true when one
    of them matches. *)
Definition matchesForbidden (password : string) : bool :=
  existsb (fun pattern => pattern (chars password)) forbiddenPatterns.

Definition hasUpper (p : string) : bool := existsb isUpper (chars p).
Definition hasLower (p : string) : bool := existsb isLower (chars p).
Definition hasDigit (p : string) : bool := existsb isDigit (chars p).
Definition hasSpecial (p : string) : bool := existsb isSpecial (chars p).

Section WithLibrary.
Variable L : Library.

(** [verifyPassword(password, hash)] *)
Definition verifyPassword (password hash : JsValue) : outcome bool :=
  if negb (truthy password) || negb (truthy hash) then Returned false
  else if negb (isString password) || negb (isString hash) then Returned false
  else match bcrypt_compare L password hash with
       | Returned b => Returned b
       | Thrown _ => Returned false   (* logged, not rethrown *)
       end.

End WithLibrary.

(** A well-formed argument of [verifyPassword]: a non-empty string. *)
Definition wellFormed (v : JsValue) : bool := truthy v && isString v.

(** The [userInfo] argument: an absent property is [None]. *)
Record UserInfo : Type := mkUserInfo {
  ui_email : option string;
  ui_firstName : option string;
  ui_lastName : option string
}.

Definition noUserInfo : UserInfo := mkUserInfo None None None.

Record StrengthResult : Type := mkStrength {
  isValid : bool;
  score : Z;
  errors : list string;
  warnings : list string;
  suggestions : list string
}.

Definition pushError (msg : string) (r : StrengthResult) : StrengthResult :=
  mkStrength (isValid r) (score r) (errors r ++ [msg]) (warnings r) (suggestions r).

Definition pushWarning (msg : string) (r : StrengthResult) : StrengthResult :=
  mkStrength (isValid r) (score r) (errors r) (warnings r ++ [msg]) (suggestions r).

Definition pushSuggestion (msg : string) (r : StrengthResult) : StrengthResult :=
  mkStrength (isValid r) (score r) (errors r) (warnings r) (suggestions r ++ [msg]).

Definition addScore (d : Z) (r : StrengthResult) : StrengthResult :=
  mkStrength (isValid r) (score r + d) (errors r) (warnings r) (suggestions r).

(** A required character class: an error when required and missing, points
    when present. *)
Definition classRule (required present : bool) (msg : string) (pts : Z)
    (r : StrengthResult) : StrengthResult :=
  if required && negb present then pushError msg r
  else if present then addScore pts r
  else r.

(** [userInfo.x && password.toLowerCase().includes(needle(x).toLowerCase())] *)
Definition mentions (password : string) (field : option string)
    (needle : string -> string) : bool :=
  match field with
  | Some v => negb (String.eqb v "") &&
              includes (toLowerCase password) (toLowerCase (needle v))
  | None => false
  end.

Definition mentionsEmail (password : string) (u : UserInfo) : bool :=
  mentions password (ui_email u) (splitHead "@"%char).
Definition mentionsFirstName (password : string) (u : UserInfo) : bool :=
  mentions password (ui_firstName u) (fun v => v).
Definition mentionsLastName (password : string) (u : UserInfo) : bool :=
  mentions password (ui_lastName u) (fun v => v).

(** No context penalty: the password mentions neither the local part of
    the e-mail address nor the first or last name. *)
Definition noContextPenalty (password : string) (u : UserInfo) : bool :=
  negb (mentionsEmail password u) &&
  negb (mentionsFirstName password u) &&
  negb (mentionsLastName password u).

Definition when (b : bool) (f : StrengthResult -> StrengthResult)
    (r : StrengthResult) : StrengthResult :=
  if b then f r else r.

(** [uniqueChars >= password.length * 0.7].  The floating-point product
    is within a rounding error of [7 * length / 10]; it does not exceed
    that number when it is an integer (the binary [0.7] lies below 7/10)
    and is otherwise at least 1/10 away from any integer.  For the
    integer [uniqueChars] the test is therefore the comparison
    [10 * unique >= 7 * length]. *)
Definition diverse (password : string) : bool :=
  Nat.leb (7 * String.length password) (10 * uniqueCount password).

Definition clamp (z : Z) : Z := Z.max 0 (Z.min 100 z).

Definition emptyResult : StrengthResult := mkStrength false 0 [] [] [].

(** The rules of [validatePasswordStrength], from the length validation
    to the character diversity bonus, once the argument is known to be a
    non-empty string. *)
Definition applyRules (password : string) (userInfo : UserInfo) : StrengthResult :=
  let len := String.length password in
  let r := emptyResult in
  (* Length validation *)
  let r := if Nat.ltb len minLength
           then pushError "Password must be at least 8 characters long" r
           else if Nat.leb minLength len then addScore 20 r else r in
  let r := when (Nat.ltb maxLength len)
             (pushError "Password must not exceed 128 characters") r in
  (* Character type requirements *)
  let r := classRule requireUppercase (hasUpper password)
             "Password must contain at least one uppercase letter" 15 r in
  let r := classRule requireLowercase (hasLower password)
             "Password must contain at least one lowercase letter" 15 r in
  let r := classRule requireNumbers (hasDigit password)
             "Password must contain at least one number" 15 r in
  let r := classRule requireSpecialChars (hasSpecial password)
             "Password must contain at least one special character" 10 r in
  (* Pattern validation *)
  let r := when (matchesForbidden password)
             (pushError "Password contains forbidden patterns or is too common") r in
  (* Context-based validation *)
  let r := when (mentionsEmail password userInfo)
             (fun r => addScore (-10)
                (pushWarning "Password should not contain parts of your email address" r)) r in
  let r := when (mentionsFirstName password userInfo)
             (fun r => addScore (-5)
                (pushWarning "Password should not contain your first name" r)) r in
  let r := when (mentionsLastName password userInfo)
             (fun r => addScore (-5)
                (pushWarning "Password should not contain your last name" r)) r in
  (* Length bonus *)
  let r := when (Nat.leb 12 len) (addScore 10) r in
  let r := when (Nat.leb 16 len) (addScore 10) r in
  (* Character diversity bonus *)
  when (diverse password) (addScore 5) r.

(** [result.score = Math.max(0, Math.min(100, result.score))] *)
Definition boundScore (r : StrengthResult) : StrengthResult :=
  mkStrength (isValid r) (clamp (score r)) (errors r) (warnings r) (suggestions r).

(** [result.isValid = result.errors.length === 0 && result.score >= 60] *)
Definition decideValidity (r : StrengthResult) : StrengthResult :=
  mkStrength (Nat.eqb (List.length (errors r)) 0 && (60 <=? score r))
    (score r) (errors r) (warnings r) (suggestions r).

(** The suggestions generated at the end. *)
Definition suggest (password : string) (r : StrengthResult) : StrengthResult :=
  let r := when (score r <? 60)
             (pushSuggestion "Consider using a longer password with mixed character types") r in
  let r := when (negb (hasSpecial password))
             (pushSuggestion "Adding special characters can improve password strength") r in
  when (Nat.ltb (String.length password) 12)
    (pushSuggestion "Passwords of 12+ characters are more secure") r.

Definition scoreString (password : string) (userInfo : UserInfo) : StrengthResult :=
  suggest password (decideValidity (boundScore (applyRules password userInfo))).

(** [validatePasswordStrength(password, userInfo = {})] *)
Definition validatePasswordStrength (password : JsValue) (userInfo : UserInfo)
    : StrengthResult :=
  if negb (truthy password) then pushError "Password is required" emptyResult
  else match password with
       | JsString p => scoreString p userInfo
       | _ => pushError "Password must be a string" emptyResult
       end.

(** *** Secure generation *)

(** The options of [generateSecurePassword], after the defaults of the
    destructuring pattern have been applied. *)
Record GenOptions : Type := mkGenOptions {
  opt_length : Z;
  includeUppercase : bool;
  includeLowercase : bool;
  includeNumbers : bool;
  includeSpecialChars : bool;
  excludeSimilar : bool;
  customCharset : option string
}.

(** [{ length = 16, includeUppercase = true, ..., customCharset = null }] *)
Definition defaultOptions : GenOptions :=
  mkGenOptions 16 true true true true true None.

Definition withLength (n : Z) (o : GenOptions) : GenOptions :=
  mkGenOptions n (includeUppercase o) (includeLowercase o) (includeNumbers o)
    (includeSpecialChars o) (excludeSimilar o) (customCharset o).

Definition lowerChars (excl : bool) : string :=
  if excl then "abcdefghjkmnpqrstuvwxyz" else "abcdefghijklmnopqrstuvwxyz".
Definition upperChars (excl : bool) : string :=
  if excl then "ABCDEFGHJKMNPQRSTUVWXYZ" else "ABCDEFGHIJKLMNOPQRSTUVWXYZ".
Definition numberChars (excl : bool) : string :=
  if excl then "23456789" else "0123456789".
Definition specialChars (excl : bool) : string :=
  if excl then "!@#$%^&*()_+-=[]{}|;:,.<>?" else "!@#$%^&*()_+-=[]{}|;:,.<>?".

(** The random source: an unbounded tape of draws, read at a position.
    [crypto.randomInt(max)] is the draw reduced into [0, max). *)
Definition Tape : Type := nat -> nat.

Definition randomInt (tape : Tape) (pos max : nat) : nat :=
  Nat.modulo (tape pos) max.

(** [s[i]]; every index the generator uses is in range. *)
Definition charAt (s : string) (i : nat) : ascii :=
  nth i (chars s) zero.

(** [arr.push(s[crypto.randomInt(s.length)])] *)
Definition pushRandom (tape : Tape) (s : string) (st : list ascii * nat)
    : list ascii * nat :=
  let '(arr, pos) := st in
  ((arr ++ [charAt s (randomInt tape pos (String.length s))])%list, S pos).

Definition pushIf (b : bool) (tape : Tape) (s : string) (st : list ascii * nat)
    : list ascii * nat :=
  if b then pushRandom tape s st else st.

(** The character set assembled from the requested classes. *)
Definition standardCharset (o : GenOptions) : string :=
  (if includeLowercase o then lowerChars (excludeSimilar o) else "") ++
  (if includeUppercase o then upperChars (excludeSimilar o) else "") ++
  (if includeNumbers o then numberChars (excludeSimilar o) else "") ++
  (if includeSpecialChars o then specialChars (excludeSimilar o) else "").

(** [if (customCharset) charset = customCharset; else ...]: an empty
    custom set is falsy. *)
Definition buildCharset (o : GenOptions) : string :=
  match customCharset o with
  | Some c => if String.eqb c "" then standardCharset o else c
  | None => standardCharset o
  end.

(** One character of each requested class. *)
Definition requiredChars (tape : Tape) (o : GenOptions) : list ascii * nat :=
  let st := ([], 0%nat) in
  let st := pushIf (includeLowercase o) tape (lowerChars (excludeSimilar o)) st in
  let st := pushIf (includeUppercase o) tape (upperChars (excludeSimilar o)) st in
  let st := pushIf (includeNumbers o) tape (numberChars (excludeSimilar o)) st in
  pushIf (includeSpecialChars o) tape (specialChars (excludeSimilar o)) st.

(** [for (let i = requiredChars.length; i < length; i++)]: [n] more
    characters from the combined set. *)
Fixpoint fill (tape : Tape) (charset : string) (n : nat) (st : list ascii * nat)
    : list ascii * nat :=
  match n with
  | O => st
  | S n' => fill tape charset n' (pushRandom tape charset st)
  end.

(** [[a[i], a[j]] = [a[j], a[i]]] *)
Definition swap (arr : list ascii) (i j : nat) : list ascii :=
  match arr !! i, arr !! j with
  | Some ai, Some aj => <[j:=ai]> (<[i:=aj]> arr)
  | _, _ => arr
  end.

(** [for (let i = arr.length - 1; i > 0; i--)], entered at index [i]. *)
Fixpoint shuffle (tape : Tape) (i : nat) (st : list ascii * nat)
    : list ascii * nat :=
  match i with
  | O => st
  | S i' =>
      let '(arr, pos) := st in
      let j := randomInt tape pos (i + 1) in
      shuffle tape i' (swap arr i j, S pos)
  end.

(** [generateSecurePassword(options)] *)
Definition generateSecurePassword (tape : Tape) (o : GenOptions) : outcome string :=
  if (opt_length o <? Z.of_nat minPasswordLength) ||
     (Z.of_nat maxPasswordLength <? opt_length o)
  then Thrown (Error "Password length must be between 8 and 128")
  else
    let charset := buildCharset o in
    if String.eqb charset "" then
      Thrown (Error "At least one character type must be included")
    else
      let st := requiredChars tape o in
      let st := fill tape charset (Z.to_nat (opt_length o) - List.length (fst st)) st in
      let st := shuffle tape (List.length (fst st) - 1) st in
      Returned (join (fst st)).

(** The characters handed out for [generate({length: 16})]: the array
    after the three loops. *)
Definition generated16 (tape : Tape) : list ascii :=
  let o := withLength 16 defaultOptions in
  let st := requiredChars tape o in
  let st := fill tape (buildCharset o) (16 - List.length (fst st)) st in
  fst (shuffle tape (List.length (fst st) - 1) st).

End PasswordService.

(* ===================================================================== *)
(** ** Profile completion (models/User.js) *)
(* ===================================================================== *)

(** [profile.personalInfo]: the five paths the completion reads; an
    unset path is [None]. *)
Record PersonalInfo : Type := mkPersonalInfo {
  firstName : option string;
  lastName : option string;
  phone : option string;
  dateOfBirth : option Z;
  nationality : option string
}.

(** [profile.contactPreferences]: each path holds a boolean or is unset. *)
Record ContactPreferences : Type := mkContactPreferences {
  emailNotifications : option bool;
  smsNotifications : option bool;
  marketingEmails : option bool
}.

(** Of the entries of [academicBackground] only the number is read. *)
Record Profile : Type := mkProfile {
  personalInfo : PersonalInfo;
  academicBackground : list string;
  contactPreferences : ContactPreferences
}.

(** [profileCompletionStatus] *)
Record Completion : Type := mkCompletion {
  c_personalInfo : bool;
  c_academicBackground : bool;
  c_documents : bool;
  c_contactPreferences : bool;
  overallCompletion : Z
}.

#[global] Instance Completion_eq_dec : EqDecision Completion.
Proof. solve_decision. Defined.

Module ProfileCompletion.

(** A string path as a condition. *)
Definition present (v : option string) : bool :=
  match v with
  | Some s => negb (String.eqb s "")
  | None => false
  end.

(** [typeof v === 'boolean'] *)
Definition isBoolean (v : option bool) : bool :=
  match v with Some _ => true | None => false end.

(** [Math.round((completedWeight / totalWeight) * 100)] with
    [totalWeight = 100]: the quotient times 100 is within a rounding
    error of the integer [completedWeight], which is what [Math.round]
    returns. *)
Definition percentage (completedWeight totalWeight : Z) : Z :=
  if 0 <? totalWeight then completedWeight * 100 / totalWeight else 0.

(** [calculateProfileCompletion()]: the new [profileCompletionStatus]. *)
Definition calculateProfileCompletion (profile : Profile) (completion : Completion)
    : Completion :=
  (* Personal Info Check (30% weight) *)
  let personal :=
    present (firstName (personalInfo profile)) &&
    present (lastName (personalInfo profile)) &&
    present (phone (personalInfo profile)) &&
    (match dateOfBirth (personalInfo profile) with Some _ => true | None => false end) &&
    present (nationality (personalInfo profile)) in
  (* Academic Background Check (25% weight) *)
  let academic := Nat.ltb 0 (List.length (academicBackground profile)) in
  (* completion.documents is managed externally *)
  let documents := c_documents completion in
  (* Contact Preferences Check (20% weight) *)
  let contact :=
    isBoolean (emailNotifications (contactPreferences profile)) &&
    isBoolean (smsNotifications (contactPreferences profile)) &&
    isBoolean (marketingEmails (contactPreferences profile)) in
  let completedWeight :=
    (if personal then 30 else 0) + (if academic then 25 else 0) +
    (if documents then 25 else 0) + (if contact then 20 else 0) in
  let totalWeight := 30 + 25 + 25 + 20 in
  mkCompletion personal academic documents contact
    (percentage completedWeight totalWeight).

End ProfileCompletion.

(* ===================================================================== *)
(** ** Accounts and their store (models/User.js, models/Admin.js) *)
(* ===================================================================== *)

(** The paths of an account document that the modelled code reads or
    writes, apart from its [_id], which is the key under which the store
    holds it.  [updatedAt] is the time stamp that Mongoose maintains
    (both schemas set [timestamps: true]).  [lastActiveAt],
    [lastPasswordChange] and [passwordExpiresAt] (the last two under
    [security]) exist in the Admin schema only; [profile] and
    [profileCompletionStatus] are those of the User schema.  A path that
    a schema does not have keeps the value it is given.  The paths that
    no modelled operation reads or writes (permissions, activity log,
    [createdAt], the references to documents and applications) are left
    out. *)
Record Account : Type := mkAccount {
  email : string;
  passwordHash : string;
  sessionId : option string;
  lastLoginAt : Z;
  lastActiveAt : option Z;
  updatedAt : Z;
  lastPasswordChange : option Z;
  passwordExpiresAt : option Z;
  profile : Profile;
  profileCompletionStatus : Completion
}.

(** Field updates. *)
Definition withSessionId (v : option string) (a : Account) : Account :=
  mkAccount (email a) (passwordHash a) v (lastLoginAt a) (lastActiveAt a)
    (updatedAt a) (lastPasswordChange a) (passwordExpiresAt a)
    (profile a) (profileCompletionStatus a).
Definition withPasswordHash (v : string) (a : Account) : Account :=
  mkAccount (email a) v (sessionId a) (lastLoginAt a) (lastActiveAt a)
    (updatedAt a) (lastPasswordChange a) (passwordExpiresAt a)
    (profile a) (profileCompletionStatus a).
Definition withLastLoginAt (v : Z) (a : Account) : Account :=
  mkAccount (email a) (passwordHash a) (sessionId a) v (lastActiveAt a)
    (updatedAt a) (lastPasswordChange a) (passwordExpiresAt a)
    (profile a) (profileCompletionStatus a).
Definition withLastActiveAt (v : option Z) (a : Account) : Account :=
  mkAccount (email a) (passwordHash a) (sessionId a) (lastLoginAt a) v
    (updatedAt a) (lastPasswordChange a) (passwordExpiresAt a)
    (profile a) (profileCompletionStatus a).
Definition withUpdatedAt (v : Z) (a : Account) : Account :=
  mkAccount (email a) (passwordHash a) (sessionId a) (lastLoginAt a) (lastActiveAt a)
    v (lastPasswordChange a) (passwordExpiresAt a)
    (profile a) (profileCompletionStatus a).
Definition withPasswordDates (changed expires : option Z) (a : Account) : Account :=
  mkAccount (email a) (passwordHash a) (sessionId a) (lastLoginAt a) (lastActiveAt a)
    (updatedAt a) changed expires (profile a) (profileCompletionStatus a).
Definition withCompletion (v : Completion) (a : Account) : Account :=
  mkAccount (email a) (passwordHash a) (sessionId a) (lastLoginAt a) (lastActiveAt a)
    (updatedAt a) (lastPasswordChange a) (passwordExpiresAt a) (profile a) v.

(** The paths that a save after an assignment to [sessionId] never
    writes: every path but [sessionId], [updatedAt], [lastActiveAt] and
    [profileCompletionStatus]. *)
Definition outsideSession (a : Account)
    : string * string * Z * option Z * option Z * Profile :=
  (email a, passwordHash a, lastLoginAt a, lastPasswordChange a,
   passwordExpiresAt a, profile a).

(** Every path but [sessionId]. *)
Definition exceptSession (a : Account)
    : string * string * Z * option Z * Z * option Z * option Z * Profile * Completion :=
  (email a, passwordHash a, lastLoginAt a, lastActiveAt a, updatedAt a,
   lastPasswordChange a, passwordExpiresAt a, profile a, profileCompletionStatus a).

(** The two Mongoose models. *)
Inductive Model : Type := User | Admin.

#[global] Instance Model_eq_dec : EqDecision Model.
Proof. solve_decision. Defined.

(** [constructor.modelName] *)
Definition modelName (m : Model) : string :=
  match m with User => "User" | Admin => "Admin" end.

(** The data store: one collection per model, keyed by [_id]. *)
Record Store : Type := mkStore {
  users : gmap string Account;
  admins : gmap string Account
}.

Definition collection (m : Model) (st : Store) : gmap string Account :=
  match m with User => users st | Admin => admins st end.

Definition setCollection (m : Model) (c : gmap string Account) (st : Store) : Store :=
  match m with
  | User => mkStore c (admins st)
  | Admin => mkStore (users st) c
  end.

(** Two stores hold the same accounts, equal in every path except
    possibly [sessionId]. *)
Definition sameExceptSession (st st' : Store) : Prop :=
  forall m id,
    exceptSession <$> (collection m st' !! id) = exceptSession <$> (collection m st !! id).

(** Two stores hold the same accounts, equal in every path that a save
    after an assignment to [sessionId] never writes. *)
Definition sameOutsideSession (st st' : Store) : Prop :=
  forall m id,
    outsideSession <$> (collection m st' !! id)
    = outsideSession <$> (collection m st !! id).

(** A document in memory: the model it belongs to, its [_id], the
    fields and the paths modified since it was loaded or last saved.  No
    modelled operation creates a document: every document is one that
    was loaded from the store. *)
Record Document : Type := mkDocument {
  modelOf : Model;
  _id : string;
  fields : Account;
  modifiedPaths : list string
}.

(** [doc.isModified(path)] *)
Definition isModified (path : string) (doc : Document) : bool :=
  existsb (String.eqb path) (modifiedPaths doc).

(** [doc.isModified()]: some path is modified. *)
Definition anyModified (doc : Document) : bool :=
  match modifiedPaths doc with
  | [] => false
  | _ :: _ => true
  end.

(** What a query selects. *)
Inductive Query : Type :=
  | ById (id : string)
  | ByEmail (e : string).

(** The verdicts of the database.  A query is rejected with an error
    (a [CastError] for an identifier that cannot be cast to an ObjectId,
    a connection error) or answered from the store.  A save is rejected
    by the validation that Mongoose runs before every other pre-save
    hook, or by the write at the end (a unique index, a connection
    error), or it goes through.  Which of these happens is not decided
    by the repository: it is an input of every operation. *)
Record Database : Type := mkDatabase {
  findFault : Model -> Query -> option JsError;
  validationFault : Document -> option JsError;
  writeFault : Document -> option JsError
}.

Module Mongoose.

(** [Model.findById(id)]: a rejection, or a document with no modified
    path, or null. *)
Definition findById (db : Database) (m : Model) (id : string) (st : Store)
    : outcome (option Document) :=
  match findFault db m (ById id) with
  | Some e => Thrown e
  | None =>
      Returned match collection m st !! id with
               | Some a => Some (mkDocument m id a [])
               | None => None
               end
  end.

(** [Model.findOne({ email })] *)
Definition findOneByEmail (db : Database) (m : Model) (e : string) (st : Store)
    : outcome (option Document) :=
  match findFault db m (ByEmail e) with
  | Some err => Thrown err
  | None =>
      Returned match List.find (fun kv => String.eqb (email (snd kv)) e)
                       (map_to_list (collection m st)) with
               | Some kv => Some (mkDocument m (fst kv) (snd kv) [])
               | None => None
               end
  end.

(** An assignment [doc.path = v]: Mongoose records the path as modified
    when the value assigned differs from the one the document holds. *)
Definition assign (path : string) (changed : bool) (a' : Account) (doc : Document)
    : Document :=
  mkDocument (modelOf doc) (_id doc) a'
    (if changed then path :: modifiedPaths doc else modifiedPaths doc).

(** [doc.sessionId = v] *)
Definition setSessionId (v : option string) (doc : Document) : Document :=
  assign "sessionId" (negb (bool_decide (sessionId (fields doc) = v)))
    (withSessionId v (fields doc)) doc.

(** [doc.lastLoginAt = v] *)
Definition setLastLoginAt (v : Z) (doc : Document) : Document :=
  assign "lastLoginAt" (negb (lastLoginAt (fields doc) =? v))
    (withLastLoginAt v (fields doc)) doc.

(** [doc.lastActiveAt = v] *)
Definition setLastActiveAt (v : Z) (doc : Document) : Document :=
  assign "lastActiveAt" (negb (bool_decide (lastActiveAt (fields doc) = Some v)))
    (withLastActiveAt (Some v) (fields doc)) doc.

(** The pre-save hook of [timestamps: true]: a modified document gets
    the current time as [updatedAt].  The schema registers it when it is
    built, before the hooks that the model files add. *)
Definition timestamps (now : Z) (doc : Document) : Document :=
  if anyModified doc
  then assign "updatedAt" (negb (updatedAt (fields doc) =? now))
         (withUpdatedAt now (fields doc)) doc
  else doc.

End Mongoose.

(** Environment variables read by the model and the services. *)
Record Env : Type := mkEnv {
  JWT_ACCESS_SECRET : string;
  JWT_REFRESH_SECRET : string;
  JWT_ACCESS_EXPIRES_IN : option string;
  JWT_REFRESH_EXPIRES_IN : option string;
  BCRYPT_ROUNDS : option string
}.

(** [crypto.randomBytes(n)]: the first [n] bytes of a random source. *)
Definition randomBytes (src : nat -> ascii) (n : nat) : list ascii :=
  map src (seq 0 n).

Definition hexDigit (n : nat) : ascii :=
  nth n (chars "0123456789abcdef") zero.

(** [buffer.toString('hex')] *)
Definition toHex (bytes : list ascii) : string :=
  join (flat_map (fun b => [hexDigit (code b / 16); hexDigit (code b mod 16)]) bytes).

(** [crypto.randomBytes(32).toString('hex')]: the session identifier
    drawn from a random source. *)
Definition freshId (src : nat -> ascii) : string := toHex (randomBytes src 32).

(** The hooks and methods of the two schemas.  The Admin schema defines
    [verifyPassword] and [generateSessionId] in the same words as the
    User schema; the pre-save hooks differ as written below. *)
Module UserModel.
Section WithLibrary.
Variable L : Library.
Variable env : Env.

(** [parseInt(process.env.BCRYPT_ROUNDS) || 12]: 12 when the variable is
    unset or parses to NaN or 0. *)
Definition saltRounds : Z :=
  match BCRYPT_ROUNDS env ≫= parseInt with
  | Some n => if n =? 0 then 12 else n
  | None => 12
  end.

(** [this.sessionId] as a condition. *)
Definition hasSession (a : Account) : bool :=
  match sessionId a with
  | Some s => negb (String.eqb s "")
  | None => false
  end.

(** The first [pre('save')] hook of each schema: hash the password only
    if it is modified.  The hook of the Admin schema also records the
    time of the change and an expiry 90 days later. *)
Definition preSave (now : Z) (doc : Document) : outcome Document :=
  if negb (isModified "passwordHash" doc) then Returned doc
  else match bcrypt_hash L (passwordHash (fields doc)) saltRounds with
       | Returned h =>
           let hashed := withPasswordHash h (fields doc) in
           Returned (mkDocument (modelOf doc) (_id doc)
                       match modelOf doc with
                       | User => hashed
                       | Admin =>
                           withPasswordDates (Some now) (Some (addDays L now 90)) hashed
                       end
                       (modifiedPaths doc))
       | Thrown e => Thrown e
       end.

(** The second [pre('save')] hook.  For a user it recomputes the profile
    completion from the profile; for an admin it stamps [lastActiveAt]
    when the session identifier was modified and is set. *)
Definition preSaveSecond (now : Z) (doc : Document) : Document :=
  match modelOf doc with
  | User =>
      let completion :=
        ProfileCompletion.calculateProfileCompletion
          (profile (fields doc)) (profileCompletionStatus (fields doc)) in
      Mongoose.assign "profileCompletionStatus"
        (negb (bool_decide (profileCompletionStatus (fields doc) = completion)))
        (withCompletion completion (fields doc)) doc
  | Admin =>
      if isModified "sessionId" doc && hasSession (fields doc)
      then Mongoose.setLastActiveAt now doc
      else doc
  end.

(** [doc.save()]: the validation, the time stamp and the two hooks of
    the schema in this order, then the write into the collection of the
    document's model, after which no path is modified.  Mongoose sends
    the modified paths only; the other fields of the document are those
    it was loaded with, so the stored account afterwards is the document.
    A rejection leaves the store as it was. *)
Definition save (db : Database) (now : Z) (doc : Document) (st : Store)
    : outcome (Document * Store) :=
  match validationFault db doc with
  | Some e => Thrown e
  | None =>
      match preSave now (Mongoose.timestamps now doc) with
      | Thrown e => Thrown e
      | Returned d =>
          let d := preSaveSecond now d in
          match writeFault db d with
          | Some e => Thrown e
          | None =>
              Returned (mkDocument (modelOf d) (_id d) (fields d) [],
                        setCollection (modelOf d)
                          (<[_id d := fields d]> (collection (modelOf d) st)) st)
          end
      end
  end.

(** The fields in memory when the hooks of [save] have run, at time
    [now], on a document of model [m] whose password hash is not
    modified: [a] are its fields and [modified] tells whether any path
    is modified, [session] whether [sessionId] is. *)
Definition afterHooks (m : Model) (now : Z) (modified session : bool) (a : Account)
    : Account :=
  let a := if modified then withUpdatedAt now a else a in
  match m with
  | User =>
      withCompletion
        (ProfileCompletion.calculateProfileCompletion
           (profile a) (profileCompletionStatus a)) a
  | Admin =>
      if session && hasSession a then withLastActiveAt (Some now) a else a
  end.

(** The fields that [save] writes at time [now] for a document of model
    [m] that was loaded with fields [a] and then had [v] assigned to
    [sessionId]. *)
Definition sessionWrite (m : Model) (now : Z) (v : option string) (a : Account)
    : Account :=
  let changed := negb (bool_decide (sessionId a = v)) in
  afterHooks m now changed changed (withSessionId v a).

(** The fields that [save] writes for a user who logs in at time [now]
    and is assigned the session identifier [v]. *)
Definition loginWrite (now : Z) (v : option string) (a : Account) : Account :=
  let session := negb (bool_decide (sessionId a = v)) in
  let login := negb (lastLoginAt a =? now) in
  afterHooks User now (session || login) session
    (withLastLoginAt now (withSessionId v a)).

(** [methods.verifyPassword(candidatePassword)] *)
Definition verifyPassword (doc : Document) (candidatePassword : JsValue) : outcome bool :=
  if negb (truthy candidatePassword) || negb (truthy (JsString (passwordHash (fields doc))))
  then Returned false
  else match bcrypt_compare L candidatePassword (JsString (passwordHash (fields doc))) with
       | Returned b => Returned b
       | Thrown _ => Returned false
       end.

(** [methods.generateSessionId()] *)
Definition generateSessionId (src : nat -> ascii) (doc : Document) : Document :=
  Mongoose.setSessionId (Some (freshId src)) doc.

(** [methods.updateLastLogin()] *)
Definition updateLastLogin (db : Database) (now : Z) (doc : Document) (st : Store)
    : outcome (Document * Store) :=
  save db now (Mongoose.setLastLoginAt now doc) st.

(** [statics.findByEmail(email)] *)
Definition findByEmail (db : Database) (e : string) (st : Store)
    : outcome (option Document) :=
  Mongoose.findOneByEmail db User (trim (toLowerCase e)) st.

End WithLibrary.
End UserModel.

(* ===================================================================== *)
(** ** Authentication service (services/authService.js) *)
(* ===================================================================== *)

Record TokenPair : Type := mkTokenPair {
  accessToken : string;
  refreshToken : string;
  pair_expiresIn : option Z;     (* a number, [None] for NaN *)
  tokenType : string
}.

Module AuthService.
Section WithLibrary.
Variable L : Library.
Variable env : Env.

(** The constructor: secrets and expiry settings read from the
    environment ([x || d] keeps a non-empty [x]). *)
Definition accessTokenSecret : string := JWT_ACCESS_SECRET env.
Definition refreshTokenSecret : string := JWT_REFRESH_SECRET env.

Definition orDefault (v : option string) (d : string) : string :=
  match v with
  | Some x => if String.eqb x "" then d else x
  | None => d
  end.

Definition accessTokenExpiry : string := orDefault (JWT_ACCESS_EXPIRES_IN env) "15m".
Definition refreshTokenExpiry : string := orDefault (JWT_REFRESH_EXPIRES_IN env) "7d".

(** [parseExpiryToSeconds(expiry)] *)
Definition parseExpiryToSeconds (expiry : string) : option Z :=
  let l := chars expiry in
  let unit := join (drop (List.length l - 1) l) in
  let value := parseInt (join (take (List.length l - 1) l)) in
  if String.eqb unit "s" then value
  else if String.eqb unit "m" then (fun v => v * 60) <$> value
  else if String.eqb unit "h" then (fun v => v * 60 * 60) <$> value
  else if String.eqb unit "d" then (fun v => v * 24 * 60 * 60) <$> value
  else Some 900.

(** The [payload] of [generateTokens]. *)
Definition tokenPayload (user : Document) : Payload :=
  mkPayload (_id user) (email (fields user)) (sessionId (fields user))
    (Some (toLowerCase (modelName (modelOf user)))) None None.

(** [generateTokens(user, rememberMe = false)]; a [jwt.sign] that throws
    ends the call. *)
Definition generateTokens (now : Z) (user : Document) (rememberMe : bool)
    : outcome TokenPair :=
  let payload := tokenPayload user in
  (* Generate access token *)
  match jwt_sign L now payload accessTokenSecret
          (mkSignOptions accessTokenExpiry "uniapply-hub" "uniapply-hub-users") with
  | Thrown e => Thrown e
  | Returned access =>
      let refreshExpiry := if rememberMe then "30d" else refreshTokenExpiry in
      match jwt_sign L now
              (mkPayload (p_id payload) (p_email payload) (p_sessionId payload)
                 (p_type payload) (Some "refresh") (p_purpose payload))
              refreshTokenSecret
              (mkSignOptions refreshExpiry "uniapply-hub" "uniapply-hub-users") with
      | Thrown e => Thrown e
      | Returned refresh =>
          Returned (mkTokenPair access refresh
                      (parseExpiryToSeconds accessTokenExpiry) "Bearer")
      end
  end.

(** The [catch] clause shared by the access and refresh verifiers: the
    error is replaced according to its [name]. *)
Definition translate (expired invalid : string) (e : JsError) : JsError :=
  if String.eqb (err_name e) "TokenExpiredError" then Error expired
  else if String.eqb (err_name e) "JsonWebTokenError" then Error invalid
  else Error "TOKEN_VERIFICATION_FAILED".

(** [verifyAccessToken(token)] *)
Definition verifyAccessToken (now : Z) (token : string) : outcome Payload :=
  match jwt_verify L now token accessTokenSecret
          (Some ("uniapply-hub", "uniapply-hub-users")) with
  | Returned decoded => Returned decoded
  | Thrown e => Thrown (translate "ACCESS_TOKEN_EXPIRED" "INVALID_ACCESS_TOKEN" e)
  end.

(** [verifyRefreshToken(token)]; the error thrown inside the [try] for a
    wrong [tokenType] goes through the same [catch]. *)
Definition verifyRefreshToken (now : Z) (token : string) : outcome Payload :=
  match jwt_verify L now token refreshTokenSecret
          (Some ("uniapply-hub", "uniapply-hub-users")) with
  | Returned decoded =>
      if negb (bool_decide (p_tokenType decoded = Some "refresh"))
      then Thrown (translate "REFRESH_TOKEN_EXPIRED" "INVALID_REFRESH_TOKEN"
                     (Error "INVALID_REFRESH_TOKEN"))
      else Returned decoded
  | Thrown e => Thrown (translate "REFRESH_TOKEN_EXPIRED" "INVALID_REFRESH_TOKEN" e)
  end.

(** [decoded.type === 'admin' ? Admin : User] *)
Definition modelFor (type : option string) : Model :=
  if bool_decide (type = Some "admin") then Admin else User.

(** [refreshTokens(refreshToken)]: the outcome and the store afterwards.
    An error of the lookup or of the save leaves the store as it was; a
    [jwt.sign] that throws does so after the save. *)
Definition refreshTokens (db : Database) (now : Z) (src : nat -> ascii)
    (refreshToken : string) (st : Store) : outcome TokenPair * Store :=
  (* Verify refresh token *)
  match verifyRefreshToken now refreshToken with
  | Thrown e => (Thrown e, st)
  | Returned decoded =>
      (* Find user and validate session *)
      match Mongoose.findById db (modelFor (p_type decoded)) (p_id decoded) st with
      | Thrown e => (Thrown e, st)
      | Returned None => (Thrown (Error "USER_NOT_FOUND"), st)
      | Returned (Some user) =>
          if negb (bool_decide (sessionId (fields user) = p_sessionId decoded))
          then (Thrown (Error "SESSION_INVALID"), st)
          else
            (* Generate new session ID for security *)
            let user := UserModel.generateSessionId src user in
            match UserModel.save L env db now user st with
            | Thrown e => (Thrown e, st)
            | Returned (user, st') =>
                (* Generate new token pair *)
                match generateTokens now user false with
                | Thrown e => (Thrown e, st')
                | Returned tokens => (Returned tokens, st')
                end
            end
      end
  end.

(** [revokeSession(userId, userType = 'user')]: any error is swallowed
    and reported as [false]. *)
Definition revokeSession (db : Database) (now : Z) (userId : string)
    (userType : string) (st : Store) : bool * Store :=
  let model := if String.eqb userType "admin" then Admin else User in
  match Mongoose.findById db model userId st with
  | Thrown _ => (false, st)
  | Returned (Some user) =>
      match UserModel.save L env db now (Mongoose.setSessionId None user) st with
      | Returned (_, st') => (true, st')
      | Thrown _ => (false, st)
      end
  | Returned None => (true, st)
  end.

(** [generateResetToken(user)]; the [timestamp] of the payload is not
    read back. *)
Definition generateResetToken (now : Z) (user : Document) : outcome string :=
  jwt_sign L now
    (mkPayload (_id user) (email (fields user)) None None None
       (Some "password_reset"))
    accessTokenSecret
    (mkSignOptions "1h" "uniapply-hub" "uniapply-hub-reset").

(** [verifyResetToken(token)] *)
Definition verifyResetToken (now : Z) (token : string) : outcome Payload :=
  let rethrow (e : JsError) :=
    if String.eqb (err_name e) "TokenExpiredError"
    then Error "RESET_TOKEN_EXPIRED" else Error "INVALID_RESET_TOKEN" in
  match jwt_verify L now token accessTokenSecret
          (Some ("uniapply-hub", "uniapply-hub-reset")) with
  | Returned decoded =>
      if negb (bool_decide (p_purpose decoded = Some "password_reset"))
      then Thrown (rethrow (Error "INVALID_RESET_TOKEN"))
      else Returned decoded
  | Thrown e => Thrown (rethrow e)
  end.

End WithLibrary.
End AuthService.

(* ===================================================================== *)
(** ** Request gate (middleware/auth.js) *)
(* ===================================================================== *)

(** What the middleware does with a request: answer it with an error
    body [{ success: false, error: { code, message } }], attach the user
    and call [next()], or hand an error to [next(error)]. *)
Inductive GateResult : Type :=
  | Reject (status : nat) (code message : string)
  | Proceed (user : Document)
  | Forward (e : JsError).

(** The token of a well-formed bearer header: the header is present,
    starts with [Bearer ] and the token is what follows. *)
Definition bearerToken (authHeader : option string) : option string :=
  match authHeader with
  | Some h => if startsWith h "Bearer " then Some (substringFrom 7 h) else None
  | None => None
  end.


Module Middleware.
Section WithLibrary.
Variable L : Library.
Variable env : Env.

(** The [catch] clause of [authenticateToken]: it receives whatever the
    [try] block threw, the verification or the lookup. *)
Definition caught (error : JsError) : GateResult :=
  if String.eqb (err_name error) "JsonWebTokenError"
  then Reject 401 "INVALID_TOKEN" "Invalid authentication token"
  else if String.eqb (err_name error) "TokenExpiredError"
  then Reject 401 "TOKEN_EXPIRED" "Authentication token has expired"
  else Forward error.

(** [authenticateToken(req, res, next)], for the request's
    [authorization] header. *)
Definition authenticateToken (db : Database) (now : Z) (authHeader : option string)
    (st : Store) : GateResult :=
  let unauthorized := Reject 401 "UNAUTHORIZED" "Authentication token required" in
  match authHeader with
  | None => unauthorized
  | Some h =>
      if String.eqb h "" || negb (startsWith h "Bearer ") then unauthorized
      else
        let token := substringFrom 7 h in
        (* Verify the token *)
        match jwt_verify L now token (JWT_ACCESS_SECRET env) None with
        | Returned decoded =>
            (* Find the user and verify session *)
            match Mongoose.findById db User (p_id decoded) st with
            | Thrown error => caught error
            | Returned None => Reject 401 "USER_NOT_FOUND" "User not found"
            | Returned (Some user) =>
                if negb (bool_decide (sessionId (fields user) = p_sessionId decoded))
                then Reject 401 "SESSION_INVALID" "Session has been invalidated"
                else Proceed user
            end
        | Thrown error => caught error
        end
  end.

End WithLibrary.
End Middleware.

(* ===================================================================== *)
(** ** User service: login (services/userService.js) *)
(* ===================================================================== *)

(** [sanitizeUserForResponse(user)]: of the JSON form of the document,
    which leaves out [passwordHash] and [sessionId], the members that
    identify the account and the login. *)
Record SanitizedUser : Type := mkSanitized {
  su_id : string;
  su_email : string;
  su_lastLoginAt : Z
}.

Record LoginResult : Type := mkLoginResult {
  lr_user : SanitizedUser;
  lr_tokens : TokenPair
}.

(** [{ email, password, rememberMe = false }] *)
Record Credentials : Type := mkCredentials {
  cred_email : string;
  cred_password : JsValue;
  cred_rememberMe : bool
}.

Module UserService.
Section WithLibrary.
Variable L : Library.
Variable env : Env.

Definition sanitizeUserForResponse (user : Document) : SanitizedUser :=
  mkSanitized (_id user) (email (fields user)) (lastLoginAt (fields user)).

(** [handleServiceError(error, context)].  The [details] of a Mongoose
    validation error are not modelled. *)
Definition handleServiceError (error : JsError) (context : string) : JsError :=
  if String.eqb (err_name error) "ValidationError" then
    mkError "Error" "Validation failed" (Some (CodeStr "VALIDATION_ERROR")) None None
  else if match err_code error with Some (CodeNum n) => n =? 11000 | _ => false end then
    mkError "Error" "Duplicate value detected" (Some (CodeStr "DUPLICATE_ERROR")) None None
  else match err_validationErrors error with
       | Some _ =>
           mkError (err_name error) (err_message error)
             (Some (CodeStr "VALIDATION_ERROR"))
             (err_validationErrors error) (err_originalError error)
       | None =>
           mkError "Error" (context ++ ": " ++ err_message error)
             (Some (CodeStr "SERVICE_ERROR")) None (Some error)
       end.

(** What a caller of [authenticateUser] sees for bad credentials. *)
Definition invalidCredentials : JsError :=
  mkError "Error" "Authentication failed: Invalid email or password"
    (Some (CodeStr "SERVICE_ERROR")) None (Some (Error "Invalid email or password")).

(** The [try] block of [authenticateUser].  An error of the lookup or of
    the save leaves the store as it was; a [jwt.sign] that throws does
    so after the save. *)
Definition authenticate (db : Database) (now : Z) (src : nat -> ascii)
    (credentials : Credentials) (st : Store) : outcome LoginResult * Store :=
  if String.eqb (cred_email credentials) "" || negb (truthy (cred_password credentials))
  then (Thrown (Error "Email and password are required"), st)
  else
    (* Find user by email *)
    match UserModel.findByEmail db (cred_email credentials) st with
    | Thrown e => (Thrown e, st)
    | Returned None => (Thrown (Error "Invalid email or password"), st)
    | Returned (Some user) =>
        (* Verify password *)
        match UserModel.verifyPassword L user (cred_password credentials) with
        | Thrown e => (Thrown e, st)
        | Returned false => (Thrown (Error "Invalid email or password"), st)
        | Returned true =>
            (* Update login information *)
            let user := UserModel.generateSessionId src user in
            match UserModel.updateLastLogin L env db now user st with
            | Thrown e => (Thrown e, st)
            | Returned (user, st') =>
                match AuthService.generateTokens L env now user
                        (cred_rememberMe credentials) with
                | Thrown e => (Thrown e, st')
                | Returned tokens =>
                    (Returned (mkLoginResult (sanitizeUserForResponse user) tokens), st')
                end
            end
        end
    end.

(** [authenticateUser(credentials)] *)
Definition authenticateUser (db : Database) (now : Z) (src : nat -> ascii)
    (credentials : Credentials) (st : Store) : outcome LoginResult * Store :=
  match authenticate db now src credentials st with
  | (Thrown error, st') =>
      (Thrown (handleServiceError error "Authentication failed"), st')
  | r => r
  end.

End WithLibrary.
End UserService.

(* ===================================================================== *)
(** ** Auth routes (routes/auth.js) *)
(* ===================================================================== *)

(** A message handed to the email service. *)
Record Mail : Type := mkMail {
  mail_to : string;
  mail_subject : string;
  mail_token : string
}.

(** What a route handler can touch: the store, the email service's
    outbox and the console. *)
Record World : Type := mkWorld {
  store : Store;
  outbox : list Mail;
  console : list string
}.

(** A JSON response: the status and the members of the body the auth
    routes set. *)
Record Response : Type := mkResponse {
  status : nat;
  success : bool;
  message : string;
  errorCode : option string;
  details : list (string * string)
}.

(** How a route handler ends: [res.status(..).json(..)], or
    [next(error)] from its [catch] clause. *)
Inductive RouteResult : Type :=
  | Replied (r : Response)
  | Forwarded (e : JsError).

(** The handler answered with a body whose [success] is true. *)
Definition succeeded (r : RouteResult) : bool :=
  match r with
  | Replied res => success res
  | Forwarded _ => false
  end.

Module Routes.
Section WithLibrary.
Variable L : Library.
Variable env : Env.

(** The identifiers that routes/auth.js binds at module level: its five
    [require]s and its own constants.  Neither [User] nor [jwt] is among
    them, and neither is a global of the runtime. *)
Definition moduleBindings : list string :=
  ["express"; "body"; "validationResult"; "userService"; "authService";
   "emailService"; "formatServiceError"; "registerValidation";
   "loginValidation"; "router"].

(** Evaluating an identifier: a [ReferenceError] when it is not bound. *)
Definition reference (name : string) : outcome unit :=
  if existsb (String.eqb name) moduleBindings then Returned tt
  else Thrown (mkError "ReferenceError" (name ++ " is not defined") None None None).

Definition validationFailed (errs : list (string * string)) : Response :=
  mkResponse 400 false "Invalid input data" (Some "VALIDATION_ERROR") errs.

(** One validator of a chain: the field and the message reported when
    the check fails. *)
Definition check (ok : bool) (field msg : string) : list (string * string) :=
  if ok then [] else [(field, msg)].

(** The lookaheads of the password pattern stop at a line terminator. *)
Fixpoint firstLine (l : list ascii) : list ascii :=
  match l with
  | [] => []
  | c :: l' => if isLineTerminator c then [] else c :: firstLine l'
  end.

Definition matchesPasswordPattern (p : string) : bool :=
  let l := firstLine (chars p) in
  existsb isLower l && existsb isUpper l && existsb isDigit l.

(** [POST /api/auth/forgot-password].  The handler looks the account up
    through the identifier [User]; an error thrown in the [try] block
    goes to [next(error)]. *)
Definition forgotPassword (db : Database) (bodyEmail : string) (w : World)
    : RouteResult * World :=
  let errs := check (isEmail L bodyEmail) "email" "Valid email address is required" in
  match errs with
  | _ :: _ => (Replied (validationFailed errs), w)
  | [] =>
      match reference "User" with
      | Thrown error => (Forwarded error, w)
      | Returned _ =>
          match UserModel.findByEmail db (normalizeEmail L bodyEmail) (store w) with
          | Thrown error => (Forwarded error, w)
          | Returned user =>
              (* Always return success to prevent email enumeration *)
              let res :=
                mkResponse 200 true
                  "If an account with that email exists, a password reset email has been sent"
                  None [] in
              (* TODO: Implement actual email sending logic *)
              match user with
              | Some u =>
                  (Replied res,
                   mkWorld (store w) (outbox w)
                     (console w ++
                      ["Password reset requested for user: " ++ email (fields u)]))
              | None => (Replied res, w)
              end
          end
      end
  end.

(** [POST /api/auth/reset-password] *)
Definition resetPassword (bodyToken bodyNewPassword : string) (w : World)
    : RouteResult * World :=
  let errs :=
    (check (negb (String.eqb bodyToken "")) "token" "Reset token is required" ++
     check (Nat.leb 8 (String.length bodyNewPassword)) "newPassword"
       "Password must be at least 8 characters long" ++
     check (matchesPasswordPattern bodyNewPassword) "newPassword"
       "Password must contain at least one lowercase letter, uppercase letter, and number")%list in
  match errs with
  | _ :: _ => (Replied (validationFailed errs), w)
  | [] =>
      (* TODO: Implement password reset token verification and password update *)
      (Replied (mkResponse 200 true "Password reset successfully" None []), w)
  end.

End WithLibrary.
End Routes.

(* ===================================================================== *)
(** ** Sample data *)
(* ===================================================================== *)

Module Sample.

Definition env : Env :=
  mkEnv "access-secret" "refresh-secret" None None None.

(** Identifiers of the stored accounts: ObjectIds in their string form,
    24 hexadecimal digits. *)
Definition aliceId : string := "64f1a2b3c4d5e6f708192a3b".
Definition rootId : string := "64f1a2b3c4d5e6f708192a3c".

(** Two random sources: the one that yields the byte 171 every time and
    the one that yields the byte 17 every time. *)
Definition bytes : nat -> ascii := fun _ => ascii_of_nat 171.
Definition earlierBytes : nat -> ascii := fun _ => ascii_of_nat 17.

(** The session identifiers of the stored accounts, as
    [generateSessionId] draws them. *)
Definition session1 : string := freshId earlierBytes.
Definition rootSession : string := freshId (fun _ => ascii_of_nat 34).

(** Alice has given her names and her contact preferences. *)
Definition aliceProfile : Profile :=
  mkProfile (mkPersonalInfo (Some "Alice") (Some "Liddell") None None None) []
    (mkContactPreferences (Some true) (Some false) (Some false)).

Definition noProfile : Profile :=
  mkProfile (mkPersonalInfo None None None None None) []
    (mkContactPreferences None None None).

Definition alice : Account :=
  mkAccount "alice@example.com" "$2a$12$0123456789abcdefghijklmnopqrstuvwxyzABCDEFGHIJKLMNOPQR"
    (Some session1) 0 None 0 None None aliceProfile
    (mkCompletion false false false true 20).

Definition aliceStore : Store := mkStore {[aliceId := alice]} ∅.

(** An administrator with an active session, last active at time 0. *)
Definition root : Account :=
  mkAccount "root@example.com" "$2a$12$RQPONMLKJIHGFEDCBAzyxwvutsrqponmlkjihgfedcba9876543210"
    (Some rootSession) 0 (Some 0) 0 (Some 0) (Some 7776000000) noProfile
    (mkCompletion false false false false 0).

Definition rootStore : Store := mkStore ∅ {[rootId := root]}.

Definition rootDoc : Document := mkDocument Admin rootId root [].

Definition aliceDoc : Document := mkDocument User aliceId alice [].

(** The user for whom the repository's own script (test-implementation.js)
    signs tokens: its [_id] is not an ObjectId. *)
Definition scriptUser : Document :=
  mkDocument User "test123"
    (mkAccount "test@example.com" "" (Some "session123") 0 None 0 None None noProfile
       (mkCompletion false false false false 0)) [].

(** Whether a string is the string form of an ObjectId. *)
Definition isObjectId (id : string) : bool :=
  Nat.eqb (String.length id) 24 &&
  forallb (fun c => isDigit c || inRange 97 102 c || inRange 65 70 c) (chars id).

(** The error with which Mongoose rejects a query for an identifier
    that it cannot cast. *)
Definition castError (m : Model) (id : string) : JsError :=
  let quote := String (ascii_of_nat 34) "" in
  mkError "CastError"
    ("Cast to ObjectId failed for value " ++ quote ++ id ++ quote ++
     " (type string) at path " ++ quote ++ "_id" ++ quote ++
     " for model " ++ quote ++ modelName m ++ quote)
    None None None.

(** A database that is up: it rejects a query by an identifier that is
    not the string form of an ObjectId, answers every other query, and
    rejects no save. *)
Definition database : Database :=
  mkDatabase
    (fun m q =>
       match q with
       | ById id => if isObjectId id then None else Some (castError m id)
       | ByEmail _ => None
       end)
    (fun _ => None)
    (fun _ => None).

(** A database that has lost its connection. *)
Definition offline : Database :=
  let down := mkError "MongoNetworkError" "connection closed" None None None in
  mkDatabase (fun _ _ => Some down) (fun _ => None) (fun _ => Some down).

(** The token of an account: the local part of its address followed by
    the kind of token. *)
Definition tokenName (p : Payload) : string :=
  splitHead "@" (p_email p) ++
  (if bool_decide (p_tokenType p = Some "refresh") then ".refresh" else ".access").

(** A stand-in for the libraries.  It signs a payload as the token name
    above, recognises the two tokens of [aliceDoc] and of [rootDoc] and
    the access token of [scriptUser] under the matching secret, reports
    the token [early] as not yet active and [stale] as expired, and
    rejects everything else; it
    compares a password with a hash by looking for the password after
    the hash prefix; a day has 86400000 milliseconds. *)
Definition library : Library :=
  mkLibrary
    (fun data _ => Returned ("$2a$12$" ++ data))
    (fun data hash =>
       match data, hash with
       | JsString d, JsString h => Returned (String.eqb ("$2a$12$" ++ d) h)
       | _, _ => Thrown (Error "Illegal arguments")
       end)
    (fun _ p _ _ => Returned (tokenName p))
    (fun _ token secret _ =>
       if String.eqb token "alice.access" && String.eqb secret "access-secret"
       then Returned (AuthService.tokenPayload aliceDoc)
       else if String.eqb token "alice.refresh" && String.eqb secret "refresh-secret"
       then Returned (mkPayload aliceId "alice@example.com" (Some session1) (Some "user")
                        (Some "refresh") None)
       else if String.eqb token "root.access" && String.eqb secret "access-secret"
       then Returned (AuthService.tokenPayload rootDoc)
       else if String.eqb token "root.refresh" && String.eqb secret "refresh-secret"
       then Returned (mkPayload rootId "root@example.com" (Some rootSession) (Some "admin")
                        (Some "refresh") None)
       else if String.eqb token "test.access" && String.eqb secret "access-secret"
       then Returned (AuthService.tokenPayload scriptUser)
       else if String.eqb token "early"
       then Thrown (mkError "NotBeforeError" "jwt not active" None None None)
       else if String.eqb token "stale"
       then Thrown (mkError "TokenExpiredError" "jwt expired" None None None)
       else Thrown (mkError "JsonWebTokenError" "jwt malformed" None None None))
    (fun e => includes e "@")
    (fun e => toLowerCase e)
    (fun t n => t + n * 86400000).

(** The world in which only Alice has an account and nothing has been
    sent or logged. *)
Definition world : World := mkWorld aliceStore [] [].

End Sample.

(* ===================================================================== *)
(** ** Password service, continued (services/passwordService.js) *)
(* ===================================================================== *)

(** [{ level, color, description }] *)
Record StrengthDescription : Type := mkDescription {
  level : string;
  color : string;
  description : string
}.

Module PasswordTools.
Import PasswordService.

Section WithLibrary.
Variable L : Library.
Variable env : Env.

(** [hashPassword(password)]: every error raised in the [try] block,
    the library's included, is rethrown with a prefixed message. *)
Definition hashPassword (password : JsValue) : outcome string :=
  let rethrow (e : JsError) := Error ("Password hashing failed: " ++ err_message e) in
  if negb (truthy password) then Thrown (rethrow (Error "Password is required"))
  else match password with
       | JsString p =>
           if Nat.ltb maxPasswordLength (String.length p)
           then Thrown (rethrow (Error "Password must not exceed 128 characters"))
           else match bcrypt_hash L p (UserModel.saltRounds env) with
                | Returned h => Returned h
                | Thrown e => Thrown (rethrow e)
                end
       | _ => Thrown (rethrow (Error "Password must be a string"))
       end.

End WithLibrary.

(** The array and the position on the tape after the three loops of
    [generateSecurePassword]. *)
Definition generatorRun (tape : Tape) (o : GenOptions) : list ascii * nat :=
  let st := requiredChars tape o in
  let st := fill tape (buildCharset o)
              (Z.to_nat (opt_length o) - List.length (fst st)) st in
  shuffle tape (List.length (fst st) - 1) st.

(** The tape as the next call finds it, [k] draws later. *)
Definition shiftTape (k : nat) (tape : Tape) : Tape := fun i => tape (i + k)%nat.

(** [{ ...options, length: 12, includeSpecialChars: false }] and its two
    siblings. *)
Definition variations (o : GenOptions) : list GenOptions :=
  [ mkGenOptions 12 (includeUppercase o) (includeLowercase o) (includeNumbers o)
      false (excludeSimilar o) (customCharset o);
    mkGenOptions 16 (includeUppercase o) (includeLowercase o) (includeNumbers o)
      true (excludeSimilar o) (customCharset o);
    mkGenOptions 20 (includeUppercase o) (includeLowercase o) (includeNumbers o)
      true false (customCharset o) ].

(** The loop of [generatePasswordSuggestions], at index [i] with [n]
    rounds to go. *)
Fixpoint suggestLoop (tape : Tape) (o : GenOptions) (i n : nat) (passwords : list string)
    : outcome (list string) :=
  match n with
  | O => Returned passwords
  | S n' =>
      let variation := nth (i mod 3) (variations o) o in
      match generateSecurePassword tape variation with
      | Thrown e => Thrown e
      | Returned p =>
          suggestLoop (shiftTape (snd (generatorRun tape variation)) tape) o
            (S i) n' (passwords ++ [p])
      end
  end.

(** [generatePasswordSuggestions(count = 3, options = {})] *)
Definition generatePasswordSuggestions (tape : Tape) (count : nat) (o : GenOptions)
    : outcome (list string) :=
  suggestLoop tape o 0 count [].

(** [getStrengthDescription(score)] *)
Definition getStrengthDescription (score : Z) : StrengthDescription :=
  if score <? 30 then
    mkDescription "Very Weak" "#d32f2f" "This password is easily guessed"
  else if score <? 50 then
    mkDescription "Weak" "#f57c00" "This password could be guessed"
  else if score <? 70 then
    mkDescription "Fair" "#fbc02d" "This password is somewhat secure"
  else if score <? 90 then
    mkDescription "Good" "#689f38" "This password is secure"
  else
    mkDescription "Excellent" "#388e3c" "This password is very secure".

(** The characters that [excludeSimilar] is meant to keep out. *)
Definition similarLooking : list ascii := chars "ilo" ++ chars "ILO" ++ chars "01".

(** The options can serve every variation of the suggestions: a letter
    or digit class is requested, or a non-empty custom character set is
    given. *)
Definition servesAll (o : GenOptions) : Prop :=
  includeLowercase o || includeUppercase o || includeNumbers o = true \/
  exists c, customCharset o = Some c /\ c <> "".

(** What the round of index [k] pushes: a password of the length of its
    variation, without special characters in the first variation. *)
Definition suggestionAt (o : GenOptions) (k : nat) (p : string) : Prop :=
  String.length p = nth (k mod 3) [12; 16; 20]%nat 0%nat /\
  (customCharset o = None -> (k mod 3 = 0)%nat ->
   forall c, c ∈ chars p -> c ∉ chars (specialChars (excludeSimilar o))).

(** The points a rule adds and the message it reports when its
    condition holds. *)
Definition bonus (b : bool) (k : Z) : Z := if b then k else 0.
Definition report (b : bool) (msg : string) : list string := if b then [msg] else [].

(** The requirements whose violation is reported as an error. *)
Definition meetsRequirements (p : string) : bool :=
  Nat.leb 8 (String.length p) && Nat.leb (String.length p) 128 &&
  hasUpper p && hasLower p && hasDigit p && negb (matchesForbidden p).

End PasswordTools.

(* ===================================================================== *)
(** ** Auth service, continued (services/authService.js) *)
(* ===================================================================== *)

Module TokenTools.

(** [s.split(sep)] for a one-character separator, on code units. *)
Fixpoint split (sep : ascii) (l : list ascii) : list (list ascii) :=
  match l with
  | [] => [[]]
  | c :: l' =>
      if ascii_eqb c sep then [] :: split sep l'
      else match split sep l' with
           | part :: parts => (c :: part) :: parts
           | [] => [[c]]
           end
  end.

(** The class [[A-Za-z0-9_-]]. *)
Definition isBase64Url (c : ascii) : bool :=
  isUpper c || isLower c || isDigit c || ascii_eqb c "_" || ascii_eqb c "-".

(** [/^[A-Za-z0-9_-]+$/.test(part)] *)
Definition matchesBase64Url (part : list ascii) : bool :=
  negb (Nat.eqb (List.length part) 0) && forallb isBase64Url part.

(** [validateTokenFormat(token)] *)
Definition validateTokenFormat (token : JsValue) : bool :=
  if negb (truthy token) || negb (isString token) then false
  else match token with
       | JsString t =>
           (* JWT should have 3 parts separated by dots *)
           let parts := split "." (chars t) in
           if negb (Nat.eqb (List.length parts) 3) then false
           else
             (* Each part should be base64url encoded *)
             forallb matchesBase64Url parts
       | _ => false
       end.

Section WithLibrary.
Variable L : Library.
Variable env : Env.

(** [generateVerificationToken(user)]; the [timestamp] of the payload is
    not read back. *)
Definition generateVerificationToken (now : Z) (user : Document) : outcome string :=
  jwt_sign L now
    (mkPayload (_id user) (email (fields user)) None None None
       (Some "email_verification"))
    (AuthService.accessTokenSecret env)
    (mkSignOptions "24h" "uniapply-hub" "uniapply-hub-verify").

(** [verifyVerificationToken(token)] *)
Definition verifyVerificationToken (now : Z) (token : string) : outcome Payload :=
  let rethrow (e : JsError) :=
    if String.eqb (err_name e) "TokenExpiredError"
    then Error "VERIFICATION_TOKEN_EXPIRED" else Error "INVALID_VERIFICATION_TOKEN" in
  match jwt_verify L now token (AuthService.accessTokenSecret env)
          (Some ("uniapply-hub", "uniapply-hub-verify")) with
  | Returned decoded =>
      if negb (bool_decide (p_purpose decoded = Some "email_verification"))
      then Thrown (rethrow (Error "INVALID_VERIFICATION_TOKEN"))
      else Returned decoded
  | Thrown e => Thrown (rethrow e)
  end.

End WithLibrary.

(** The decimal numeral with the given digits. *)
Definition digitChar (d : nat) : ascii := ascii_of_nat (48 + d).
Definition numeral (ds : list nat) : string := join (map digitChar ds).
Definition numeralValue (ds : list nat) : Z :=
  fold_left (fun acc d => 10 * acc + Z.of_nat d) ds 0.

End TokenTools.

(* ===================================================================== *)
(** ** The other guards (middleware/auth.js) *)
(* ===================================================================== *)

(** What [requireAdmin] does with a request: the response it sends, if
    any, and the call of [next] it makes, if any, with the error handed
    over. *)
Record GuardResult : Type := mkGuardResult {
  sent : option Response;
  nextCall : option (option JsError)
}.

Module Guards.
Section WithLibrary.
Variable L : Library.
Variable env : Env.

(** [optionalAuth(req, res, next)]: the user attached to the request
    before [next()] is called; every path ends in [next()] without an
    error, the [catch] clause included. *)
Definition optionalAuth (db : Database) (now : Z) (authHeader : option string)
    (st : Store) : option Document :=
  match authHeader with
  | None => None
  | Some h =>
      if String.eqb h "" || negb (startsWith h "Bearer ") then None
      else
        let token := substringFrom 7 h in
        match jwt_verify L now token (JWT_ACCESS_SECRET env) None with
        | Returned decoded =>
            match Mongoose.findById db User (p_id decoded) st with
            | Returned (Some user) =>
                if bool_decide (sessionId (fields user) = p_sessionId decoded)
                then Some user else None
            | Returned None => None
            | Thrown _ => None   (* continue without user *)
            end
        | Thrown _ => None   (* continue without user *)
        end
  end.

(** Reading [req.user.email] when [req.user] is undefined. *)
Definition undefinedUser : JsError :=
  mkError "TypeError" "Cannot read properties of undefined (reading 'email')"
    None None None.

(** [req.user.profile?.role === 'admin']: the user schema has no path
    [profile.role], which reads as undefined on every user document. *)
Definition hasAdminRole (user : Document) : bool := false.

(** [requireAdmin(req, res, next)] for a request on which no earlier
    middleware has set [req.user]; [adminEmail] is
    [process.env.ADMIN_EMAIL].  The gate is run with a [next] that does
    nothing, so whatever it does the handler goes on. *)
Definition requireAdmin (db : Database) (adminEmail : option string) (now : Z)
    (authHeader : option string) (st : Store) : GuardResult :=
  (* First authenticate the token *)
  match Middleware.authenticateToken L env db now authHeader st with
  | Reject status code message =>
      mkGuardResult (Some (mkResponse status false message (Some code) []))
        (Some (Some undefinedUser))
  | Forward _ => mkGuardResult None (Some (Some undefinedUser))
  | Proceed user =>
      (* Check if user has admin privileges *)
      let isAdmin :=
        bool_decide (Some (email (fields user)) = adminEmail) || hasAdminRole user in
      if negb isAdmin
      then mkGuardResult
             (Some (mkResponse 403 false "Admin privileges required"
                      (Some "INSUFFICIENT_PERMISSIONS") []))
             None
      else mkGuardResult None (Some None)
  end.

End WithLibrary.
End Guards.

(* ===================================================================== *)
(** ** Auth routes, continued (routes/auth.js) *)
(* ===================================================================== *)

(** How the refresh route ends: the 200 body carries the tokens. *)
Inductive RefreshResult : Type :=
  | Refreshed (tokens : TokenPair)
  | NotRefreshed (r : RouteResult).

Module AuthRoutes.
Section WithLibrary.
Variable L : Library.
Variable env : Env.

(** [a || b] on two optional strings. *)
Definition orElse (a b : option string) : option string :=
  match a with
  | Some x => if String.eqb x "" then b else a
  | None => b
  end.

(** The response for a request without a refresh token. *)
Definition refreshRequired : Response :=
  mkResponse 401 false "Refresh token is required" (Some "REFRESH_TOKEN_REQUIRED") [].

(** The one response for a refresh token that is turned down. *)
Definition refreshRefused : Response :=
  mkResponse 401 false "Invalid or expired refresh token" (Some "INVALID_TOKEN") [].

(** The test of the [catch] clause of the refresh route. *)
Definition mentionsToken (error : JsError) : bool :=
  includes (err_message error) "TOKEN" || includes (err_message error) "USER"
  || includes (err_message error) "SESSION".

(** [POST /api/auth/refresh] for a string token in the body or in the
    cookie ([None] when absent; the application installs no cookie
    parser, so its requests carry no cookie token). *)
Definition refresh (db : Database) (now : Z) (src : nat -> ascii)
    (bodyToken cookieToken : option string) (w : World) : RefreshResult * World :=
  let refreshToken := orElse bodyToken cookieToken in
  match refreshToken with
  | None | Some EmptyString => (NotRefreshed (Replied refreshRequired), w)
  | Some token =>
      (* Use auth service to refresh tokens *)
      match AuthService.refreshTokens L env db now src token (store w) with
      | (Returned tokens, st') =>
          (Refreshed tokens, mkWorld st' (outbox w) (console w))
      | (Thrown error, st') =>
          let w' := mkWorld st' (outbox w) (console w) in
          if mentionsToken error
          then (NotRefreshed (Replied refreshRefused), w')
          else (NotRefreshed (Forwarded error), w')
      end
  end.

(** The [catch] clause of the logout route. *)
Definition logoutCatch (error : JsError) : RouteResult :=
  if String.eqb (err_name error) "JsonWebTokenError"
     || String.eqb (err_name error) "TokenExpiredError"
  then Replied (mkResponse 401 false "Invalid or expired token" (Some "INVALID_TOKEN") [])
  else Forwarded error.

(** [POST /api/auth/logout].  The handler reaches the token library
    through the identifier [jwt] and the model through [User]. *)
Definition logout (db : Database) (now : Z) (authHeader : option string) (w : World)
    : RouteResult * World :=
  let unauthorized :=
    Replied (mkResponse 401 false "Authentication token required"
               (Some "UNAUTHORIZED") []) in
  match authHeader with
  | None => (unauthorized, w)
  | Some h =>
      if String.eqb h "" || negb (startsWith h "Bearer ") then (unauthorized, w)
      else
        let token := substringFrom 7 h in
        match Routes.reference "jwt" with
        | Thrown error => (logoutCatch error, w)
        | Returned _ =>
            match jwt_verify L now token (JWT_ACCESS_SECRET env) None with
            | Thrown error => (logoutCatch error, w)
            | Returned decoded =>
                (* Find user and clear session *)
                match Routes.reference "User" with
                | Thrown error => (logoutCatch error, w)
                | Returned _ =>
                    let done :=
                      Replied (mkResponse 200 true "Logged out successfully" None []) in
                    match Mongoose.findById db User (p_id decoded) (store w) with
                    | Thrown error => (logoutCatch error, w)
                    | Returned (Some user) =>
                        match UserModel.save L env db now
                                (Mongoose.setSessionId None user) (store w) with
                        | Returned (_, st') =>
                            (done, mkWorld st' (outbox w) (console w))
                        | Thrown error => (logoutCatch error, w)
                        end
                    | Returned None => (done, w)
                    end
                end
            end
        end
  end.

End WithLibrary.
End AuthRoutes.

(* ===================================================================== *)
(** ** More sample data *)
(* ===================================================================== *)

Module Fixture.

Definition bobId : string := "64f1a2b3c4d5e6f708192a3d".

(** Bob has an account and is logged out. *)
Definition bob : Account :=
  mkAccount "bob@example.com" "$2a$12$bobbobbobbobbobbobbobbobbobbobbobbobbobbobbobbobbobbob"
    None 0 None 0 None None Sample.noProfile (mkCompletion false false false false 0).

Definition bobDoc : Document := mkDocument User bobId bob [].

(** Alice as [Sample.alice], Bob, and the administrator of the sample. *)
Definition store : Store :=
  mkStore {[Sample.aliceId := Sample.alice; bobId := bob]}
    {[Sample.rootId := Sample.root]}.

(** Alice's password in the clear. *)
Definition alicePassword : string :=
  "0123456789abcdefghijklmnopqrstuvwxyzABCDEFGHIJKLMNOPQR".

(** Alice's document once she has logged in at time 5 with the random
    source [Sample.bytes]. *)
Definition aliceLoggedIn : Document :=
  mkDocument User Sample.aliceId
    (UserModel.loginWrite 5 (Some (freshId Sample.bytes)) Sample.alice) [].

Definition bobResetPayload : Payload :=
  mkPayload bobId "bob@example.com" None None None (Some "password_reset").

Definition bobVerifyPayload : Payload :=
  mkPayload bobId "bob@example.com" None None None (Some "email_verification").

(** The audience check of [jwt.verify]: made only when the call passes
    options. *)
Definition checkAudience (opts : VerifyOptions) (aud : string) (p : Payload)
    : outcome Payload :=
  match opts with
  | Some (_, expected) =>
      if String.eqb expected aud then Returned p
      else Thrown (mkError "JsonWebTokenError" "jwt audience invalid" None None None)
  | None => Returned p
  end.

(** A stand-in for the libraries.  It hashes and compares like
    [Sample.library]; it signs a payload as the local part of the
    address followed by the audience, and verifies under the access
    secret the reset and verification tokens of Bob, the access token of
    Alice's new session and that of her earlier session, written
    [alice/earlier]. *)
Definition library : Library :=
  mkLibrary
    (bcrypt_hash Sample.library)
    (bcrypt_compare Sample.library)
    (fun _ p _ o => Returned (splitHead "@" (p_email p) ++ "/" ++ audience o))
    (fun _ token secret opts =>
       if negb (String.eqb secret "access-secret")
       then Thrown (mkError "JsonWebTokenError" "invalid signature" None None None)
       else if String.eqb token "bob/uniapply-hub-reset"
       then checkAudience opts "uniapply-hub-reset" bobResetPayload
       else if String.eqb token "bob/uniapply-hub-verify"
       then checkAudience opts "uniapply-hub-verify" bobVerifyPayload
       else if String.eqb token "alice/uniapply-hub-users"
       then checkAudience opts "uniapply-hub-users" (AuthService.tokenPayload aliceLoggedIn)
       else if String.eqb token "alice/earlier"
       then checkAudience opts "uniapply-hub-users"
              (AuthService.tokenPayload Sample.aliceDoc)
       else Thrown (mkError "JsonWebTokenError" "jwt malformed" None None None))
    (isEmail Sample.library)
    (normalizeEmail Sample.library)
    (addDays Sample.library).

End Fixture.

(* ===================================================================== *)
(** * Properties *)
(* ===================================================================== *)

(* --------------------------------------------------------------------- *)
(** ** The definitions on sample inputs *)
(* --------------------------------------------------------------------- *)

Module Examples.
Import PasswordService.

Example lower_case : toLowerCase "ALICE@Example.COM" = "alice@example.com".
Proof. reflexivity. Qed.

Example trim_both_ends : trim "  Ab c  " = "Ab c".
Proof. reflexivity. Qed.

Example local_part : splitHead "@" "alice@example.com" = "alice".
Proof. reflexivity. Qed.

Example includes_empty : includes "hello" "" = true.
Proof. reflexivity. Qed.

Example hex_bytes :
  toHex [ascii_of_nat 0; ascii_of_nat 15; ascii_of_nat 16; ascii_of_nat 255] = "000f10ff".
Proof. reflexivity. Qed.

Example session_id_length : String.length (freshId Sample.bytes) = 64%nat.
Proof. reflexivity. Qed.

Example parseInt_decimal : parseInt "  -12abc" = Some (-12).
Proof. reflexivity. Qed.

Example parseInt_hex : parseInt "0x1f" = Some 31.
Proof. reflexivity. Qed.

Example parseInt_nan : parseInt "abc" = None.
Proof. reflexivity. Qed.

Example expiry_minutes :
  AuthService.parseExpiryToSeconds "15m" = Some 900.
Proof. reflexivity. Qed.

Example expiry_days :
  AuthService.parseExpiryToSeconds "7d" = Some 604800.
Proof. reflexivity. Qed.

Example expiry_unknown_unit :
  AuthService.parseExpiryToSeconds "900" = Some 900.
Proof. reflexivity. Qed.

Example forbidden_any_case : matchesForbidden "abQWERTYcd" = true.
Proof. reflexivity. Qed.

Example forbidden_run_of_four : matchesForbidden "ab1111cd" = true.
Proof. reflexivity. Qed.

Example run_of_three_allowed : matchesForbidden "ab111cd" = false.
Proof. reflexivity. Qed.

(** [Password1] earns 70 points and is rejected for the word it contains. *)
Example strength_Password1 :
  let r := validatePasswordStrength (JsString "Password1") noUserInfo in
  score r = 70 /\ isValid r = false /\
  errors r = ["Password contains forbidden patterns or is too common"].
Proof. repeat split. Qed.

Example strength_with_context :
  let r := validatePasswordStrength (JsString "Tr0ub4dor&3xyz")
             (mkUserInfo (Some "tr0ub@x.org") (Some "Ann") None) in
  score r = 80 /\ isValid r = true /\
  warnings r = ["Password should not contain parts of your email address"].
Proof. repeat split. Qed.

Example strength_not_a_string :
  validatePasswordStrength (JsNumber 5) noUserInfo
  = mkStrength false 0 ["Password must be a string"] [] [].
Proof. reflexivity. Qed.

Example generate_rejects_short :
  generateSecurePassword (fun _ => 0%nat) (withLength 7 defaultOptions)
  = Thrown (Error "Password length must be between 8 and 128").
Proof. reflexivity. Qed.

Example generate_sample :
  generateSecurePassword (fun i => (i * 7 + 3)%nat) (withLength 16 defaultOptions)
  = Returned "dMJh^S-ry;8aZF3>".
Proof. reflexivity. Qed.

Example refresh_rotates :
  fst (AuthService.refreshTokens Sample.library Sample.env Sample.database 0 Sample.bytes
         "alice.refresh" Sample.aliceStore)
  = Returned (mkTokenPair "alice.access" "alice.refresh" (Some 900) "Bearer") /\
  sessionId <$> (users (snd (AuthService.refreshTokens Sample.library Sample.env
                               Sample.database 0 Sample.bytes "alice.refresh"
                               Sample.aliceStore))
                 !! Sample.aliceId)
  = Some (Some (freshId Sample.bytes)).
Proof. split; reflexivity. Qed.

Example refresh_with_access_token :
  fst (AuthService.refreshTokens Sample.library Sample.env Sample.database 0 Sample.bytes
         "alice.access" Sample.aliceStore)
  = Thrown (Error "INVALID_REFRESH_TOKEN").
Proof. reflexivity. Qed.

Example refresh_offline :
  AuthService.refreshTokens Sample.library Sample.env Sample.offline 0 Sample.bytes
    "alice.refresh" Sample.aliceStore
  = (Thrown (mkError "MongoNetworkError" "connection closed" None None None),
     Sample.aliceStore).
Proof. reflexivity. Qed.

Example gate_accepts :
  Middleware.authenticateToken Sample.library Sample.env Sample.database 0
    (Some "Bearer alice.access") Sample.aliceStore
  = Proceed Sample.aliceDoc.
Proof. reflexivity. Qed.

Example gate_wrong_scheme :
  Middleware.authenticateToken Sample.library Sample.env Sample.database 0
    (Some "bearer alice.access") Sample.aliceStore
  = Reject 401 "UNAUTHORIZED" "Authentication token required".
Proof. reflexivity. Qed.

(** The token that the repository's script signs for the identifier
    [test123]: the lookup is rejected and the error handed on. *)
Example gate_uncastable_identifier :
  Middleware.authenticateToken Sample.library Sample.env Sample.database 0
    (Some "Bearer test.access") Sample.aliceStore
  = Forward (Sample.castError User "test123").
Proof. reflexivity. Qed.

Example object_ids :
  Sample.isObjectId Sample.aliceId = true /\ Sample.isObjectId "test123" = false.
Proof. split; reflexivity. Qed.

(** A rotation of Alice's session at time 7 writes the session
    identifier, the time stamp and the recomputed profile completion. *)
Example session_write_user :
  UserModel.sessionWrite User 7 (Some (freshId Sample.bytes)) Sample.alice
  = mkAccount (email Sample.alice) (passwordHash Sample.alice)
      (Some (freshId Sample.bytes)) 0 None 7 None None Sample.aliceProfile
      (mkCompletion false false false true 20).
Proof. reflexivity. Qed.

Example session_write_admin :
  UserModel.sessionWrite Admin 7 (Some (freshId Sample.bytes)) Sample.root
  = mkAccount (email Sample.root) (passwordHash Sample.root)
      (Some (freshId Sample.bytes)) 0 (Some 7) 7 (Some 0) (Some 7776000000)
      Sample.noProfile (mkCompletion false false false false 0).
Proof. reflexivity. Qed.

Example login_succeeds :
  exists r st,
    UserService.authenticateUser Sample.library Sample.env Sample.database 9 Sample.bytes
      (mkCredentials " Alice@Example.com" (JsString "0123456789abcdefghijklmnopqrstuvwxyzABCDEFGHIJKLMNOPQR") true)
      Sample.aliceStore = (Returned r, st) /\
    lr_user r = mkSanitized Sample.aliceId "alice@example.com" 9 /\
    users st !! Sample.aliceId
    = Some (UserModel.loginWrite 9 (Some (freshId Sample.bytes)) Sample.alice).
Proof. eexists _, _. repeat split. Qed.

Example reset_validation :
  fst (Routes.resetPassword "" "short" Sample.world)
  = Replied
      (mkResponse 400 false "Invalid input data" (Some "VALIDATION_ERROR")
         [("token", "Reset token is required");
          ("newPassword", "Password must be at least 8 characters long");
          ("newPassword",
           "Password must contain at least one lowercase letter, uppercase letter, and number")]).
Proof. reflexivity. Qed.

Example forgot_malformed_address :
  fst (Routes.forgotPassword Sample.library Sample.database "nobody" Sample.world)
  = Replied
      (mkResponse 400 false "Invalid input data" (Some "VALIDATION_ERROR")
         [("email", "Valid email address is required")]).
Proof. reflexivity. Qed.

Example salt_rounds_default : UserModel.saltRounds Sample.env = 12.
Proof. reflexivity. Qed.

Example salt_rounds_set :
  UserModel.saltRounds (mkEnv "a" "r" None None (Some "10")) = 10.
Proof. reflexivity. Qed.

End Examples.

Module PasswordFacts.
Import PasswordService.

Lemma clamp_bounds z : 0 <= clamp z <= 100.
Proof. unfold clamp. lia. Qed.

Lemma suggest_frame p r :
  isValid (suggest p r) = isValid r /\
  score (suggest p r) = score r /\
  errors (suggest p r) = errors r.
Proof.
  unfold suggest, when.
  destruct (score r <? 60), (negb (hasSpecial p)), (Nat.ltb (String.length p) 12);
    repeat split.
Qed.

Lemma scoreString_score p u :
  score (scoreString p u) = clamp (score (applyRules p u)).
Proof. unfold scoreString. now rewrite (proj1 (proj2 (suggest_frame _ _))). Qed.

Lemma scoreString_errors p u :
  errors (scoreString p u) = errors (applyRules p u).
Proof. unfold scoreString. now rewrite (proj2 (proj2 (suggest_frame _ _))). Qed.

Lemma scoreString_isValid p u :
  isValid (scoreString p u) =
  Nat.eqb (List.length (errors (applyRules p u))) 0 &&
  (60 <=? clamp (score (applyRules p u))).
Proof. unfold scoreString. now rewrite (proj1 (suggest_frame _ _)). Qed.

Lemma scoreString_valid_iff p u :
  isValid (scoreString p u) = true <->
  errors (scoreString p u) = [] /\ 60 <= score (scoreString p u).
Proof.
  rewrite scoreString_isValid, scoreString_errors, scoreString_score.
  rewrite andb_true_iff, Z.leb_le, Nat.eqb_eq, length_zero_iff_nil. reflexivity.
Qed.

(** The two early returns leave a single error and a zero score. *)
Lemma early_return v u :
  (exists msg, validatePasswordStrength v u = pushError msg emptyResult) \/
  (exists p, v = JsString p /\ validatePasswordStrength v u = scoreString p u).
Proof.
  unfold validatePasswordStrength.
  destruct (negb (truthy v)); [left; eauto |].
  destruct v; try (left; eexists; reflexivity).
  right; eauto.
Qed.

(** C7: an eight-character password with an uppercase letter, a lowercase
    letter and a digit, free of forbidden patterns and of context
    penalties, scores at least 60 and is valid; and for every input the
    result is valid exactly when its error list is empty and its score,
    which always lies in [0,100], is at least 60. *)
Theorem C7_strength_boundary :
  (forall (p : string) (u : UserInfo),
      String.length p = 8%nat ->
      hasUpper p = true -> hasLower p = true -> hasDigit p = true ->
      matchesForbidden p = false ->
      noContextPenalty p u = true ->
      let r := validatePasswordStrength (JsString p) u in
      60 <= score r /\ isValid r = true) /\
  (forall (v : JsValue) (u : UserInfo),
      let r := validatePasswordStrength v u in
      0 <= score r <= 100 /\
      (isValid r = true <-> errors r = [] /\ 60 <= score r)).
Proof.
  split.
  - intros p u Hlen Hup Hlo Hdi Hforb Hctx r. subst r.
    unfold noContextPenalty in Hctx.
    apply andb_true_iff in Hctx as [Hctx Hl].
    apply andb_true_iff in Hctx as [He Hf].
    apply negb_true_iff in He, Hf, Hl.
    assert (Hne : truthy (JsString p) = true).
    { destruct p; [discriminate Hlen | reflexivity]. }
    unfold validatePasswordStrength. rewrite Hne. cbn [negb].
    rewrite scoreString_isValid, scoreString_score.
    unfold applyRules.
    rewrite Hlen, Hup, Hlo, Hdi, Hforb, He, Hf, Hl.
    destruct (hasSpecial p), (diverse p); vm_compute; split; congruence.
  - intros v u r. subst r.
    destruct (early_return v u) as [[msg ->] | [p [-> ->]]].
    + cbn [score isValid errors pushError emptyResult app].
      split; [lia | split; [discriminate | intros [H _]; discriminate H]].
    + split; [| apply scoreString_valid_iff].
      rewrite scoreString_score. apply clamp_bounds.
Qed.

(** Witness of C7 at the password [Abcdefg1]. *)
Lemma C7_strength_boundary_witness :
  let r := validatePasswordStrength (JsString "Abcdefg1") noUserInfo in
  60 <= score r /\ isValid r = true.
Proof.
  apply (proj1 C7_strength_boundary "Abcdefg1" noUserInfo); reflexivity.
Defined.

(** *** Generated passwords *)

Lemma length_join l : String.length (join l) = List.length l.
Proof. unfold join. induction l as [| c l IH]; cbn; [reflexivity | now rewrite IH]. Qed.

Lemma chars_join l : chars (join l) = l.
Proof. apply list_ascii_of_string_of_list_ascii. Qed.

Lemma existsb_elem (P : ascii -> bool) (l : list ascii) :
  existsb P l = true <-> exists c, c ∈ l /\ P c = true.
Proof.
  rewrite existsb_exists. split; intros [c [H1 H2]]; exists c; split; auto;
    now apply list_elem_of_In.
Qed.

Lemma swap_length arr i j : List.length (swap arr i j) = List.length arr.
Proof.
  unfold swap. destruct (arr !! i), (arr !! j); try reflexivity.
  now rewrite !length_insert.
Qed.

(** Swapping two cells keeps the elements of the array. *)
Lemma swap_elem (arr : list ascii) i j x : x ∈ swap arr i j <-> x ∈ arr.
Proof.
  unfold swap.
  destruct (arr !! i) as [ai |] eqn:Hi; [| reflexivity].
  destruct (arr !! j) as [aj |] eqn:Hj; [| reflexivity].
  assert (Hli := lookup_lt_Some _ _ _ Hi). assert (Hlj := lookup_lt_Some _ _ _ Hj).
  rewrite !list_elem_of_lookup. split; intros [k Hk].
  - destruct (decide (k = j)) as [-> | Hkj].
    + rewrite list_lookup_insert_eq in Hk by (rewrite length_insert; lia).
      injection Hk as <-. eauto.
    + rewrite list_lookup_insert_ne in Hk by congruence.
      destruct (decide (k = i)) as [-> | Hki].
      * rewrite list_lookup_insert_eq in Hk by lia. injection Hk as <-. eauto.
      * rewrite list_lookup_insert_ne in Hk by congruence. eauto.
  - destruct (decide (k = i)) as [-> | Hki].
    + exists j. rewrite list_lookup_insert_eq by (rewrite length_insert; lia). congruence.
    + destruct (decide (k = j)) as [-> | Hkj].
      * exists i. rewrite list_lookup_insert_ne by congruence.
        rewrite list_lookup_insert_eq by lia. congruence.
      * exists k. rewrite list_lookup_insert_ne by congruence.
        rewrite list_lookup_insert_ne by congruence. exact Hk.
Qed.

Lemma shuffle_length tape i st :
  List.length (fst (shuffle tape i st)) = List.length (fst st).
Proof.
  revert st. induction i as [| i IH]; intros [arr pos]; [reflexivity |].
  cbn [shuffle]. rewrite IH. cbn [fst]. apply swap_length.
Qed.

Lemma shuffle_elem tape i st x :
  x ∈ fst (shuffle tape i st) <-> x ∈ fst st.
Proof.
  revert st. induction i as [| i IH]; intros [arr pos]; [reflexivity |].
  cbn [shuffle]. rewrite IH. cbn [fst]. apply swap_elem.
Qed.

Lemma fill_length tape cs n st :
  List.length (fst (fill tape cs n st)) = (List.length (fst st) + n)%nat.
Proof.
  revert st. induction n as [| n IH]; intros [arr pos]; cbn [fill].
  - cbn. lia.
  - rewrite IH. cbn [pushRandom fst]. rewrite length_app. cbn. lia.
Qed.

Lemma fill_elem tape cs n st x :
  x ∈ fst st -> x ∈ fst (fill tape cs n st).
Proof.
  revert st. induction n as [| n IH]; intros [arr pos] H; cbn [fill]; [exact H |].
  apply IH. cbn [pushRandom fst] in *. apply elem_of_app. now left.
Qed.

(** A character drawn from a non-empty set all of whose members satisfy
    [P] satisfies [P]. *)
Lemma charAt_class (P : ascii -> bool) (s : string) tape pos :
  s <> "" -> forallb P (chars s) = true ->
  P (charAt s (randomInt tape pos (String.length s))) = true.
Proof.
  intros Hne Hall. unfold charAt, randomInt.
  rewrite forallb_forall in Hall. apply Hall. apply nth_In.
  rewrite <- (chars_join (chars s)) at 1.
  assert (Hlen : String.length s = List.length (chars s)).
  { rewrite <- length_join. unfold join, chars.
    now rewrite string_of_list_ascii_of_string. }
  rewrite chars_join, <- Hlen. apply Nat.mod_upper_bound.
  destruct s; [congruence | discriminate].
Qed.

Lemma generate16_returns tape :
  generateSecurePassword tape (withLength 16 defaultOptions) =
  Returned (join (generated16 tape)).
Proof.
  unfold generateSecurePassword, generated16.
  set (o := withLength 16 defaultOptions).
  change (opt_length o) with 16.
  change ((16 <? Z.of_nat minPasswordLength) || (Z.of_nat maxPasswordLength <? 16))
    with false.
  assert (Hcs : String.eqb (buildCharset o) "" = false) by (vm_compute; reflexivity).
  rewrite Hcs. change (Z.to_nat 16) with 16%nat. cbv beta iota zeta. reflexivity.
Qed.

Lemma generated16_facts tape :
  List.length (generated16 tape) = 16%nat /\
  existsb isLower (generated16 tape) = true /\
  existsb isUpper (generated16 tape) = true /\
  existsb isDigit (generated16 tape) = true.
Proof.
  unfold generated16.
  set (o := withLength 16 defaultOptions).
  assert (Hreq : fst (requiredChars tape o) =
    [charAt (lowerChars true) (randomInt tape 0 (String.length (lowerChars true)));
     charAt (upperChars true) (randomInt tape 1 (String.length (upperChars true)));
     charAt (numberChars true) (randomInt tape 2 (String.length (numberChars true)));
     charAt (specialChars true) (randomInt tape 3 (String.length (specialChars true)))])
    by reflexivity.
  split.
  - rewrite shuffle_length, fill_length, Hreq. reflexivity.
  - assert (Hin : forall c, c ∈ fst (requiredChars tape o) ->
        c ∈ fst (shuffle tape
                   (List.length (fst (fill tape (buildCharset o)
                      (16 - List.length (fst (requiredChars tape o)))
                      (requiredChars tape o))) - 1)
                   (fill tape (buildCharset o)
                      (16 - List.length (fst (requiredChars tape o)))
                      (requiredChars tape o)))).
    { intros c Hc. now apply shuffle_elem, fill_elem. }
    repeat split; apply existsb_elem.
    + eexists. split; [apply Hin; rewrite Hreq; apply list_elem_of_here |].
      apply charAt_class; [discriminate | reflexivity].
    + eexists. split;
        [apply Hin; rewrite Hreq; apply list_elem_of_further, list_elem_of_here |].
      apply charAt_class; [discriminate | reflexivity].
    + eexists. split;
        [apply Hin; rewrite Hreq; do 2 apply list_elem_of_further;
         apply list_elem_of_here |].
      apply charAt_class; [discriminate | reflexivity].
Qed.

(** C8 (amended): for every random outcome, generation at length 16 with
    the default classes returns a 16-character password that contains a
    lowercase letter, an uppercase letter and a digit and scores at least
    85; the scorer accepts it exactly when it matches no forbidden
    pattern. *)
Theorem C8_generated_password (tape : Tape) :
  exists pw,
    generateSecurePassword tape (withLength 16 defaultOptions) = Returned pw /\
    String.length pw = 16%nat /\
    hasLower pw = true /\ hasUpper pw = true /\ hasDigit pw = true /\
    85 <= score (validatePasswordStrength (JsString pw) noUserInfo) /\
    (isValid (validatePasswordStrength (JsString pw) noUserInfo) = true <->
     matchesForbidden pw = false).
Proof.
  destruct (generated16_facts tape) as (Hlen & Hlo & Hup & Hdi).
  exists (join (generated16 tape)).
  set (pw := join (generated16 tape)).
  assert (HL : String.length pw = 16%nat) by (subst pw; now rewrite length_join).
  assert (Hl : hasLower pw = true) by (unfold hasLower; subst pw; now rewrite chars_join).
  assert (Hu : hasUpper pw = true) by (unfold hasUpper; subst pw; now rewrite chars_join).
  assert (Hd : hasDigit pw = true) by (unfold hasDigit; subst pw; now rewrite chars_join).
  split; [apply generate16_returns |].
  repeat (split; [assumption |]).
  assert (Hne : truthy (JsString pw) = true).
  { destruct pw; [discriminate HL | reflexivity]. }
  unfold validatePasswordStrength. rewrite Hne. cbn [negb].
  rewrite scoreString_isValid, scoreString_score.
  unfold applyRules. rewrite HL, Hl, Hu, Hd.
  change (mentionsEmail pw noUserInfo) with false.
  change (mentionsFirstName pw noUserInfo) with false.
  change (mentionsLastName pw noUserInfo) with false.
  destruct (hasSpecial pw), (diverse pw), (matchesForbidden pw); vm_compute;
    (split; [congruence | split; congruence]).
Qed.

(** C8, as first stated, fails: when every draw of the random source is 0
    the generated password is [A2!aaaaaaaaaaaaa], which the scorer rejects
    for its run of identical characters. *)
Lemma C8_counterexample :
  generateSecurePassword (fun _ => 0%nat) (withLength 16 defaultOptions)
    = Returned "A2!aaaaaaaaaaaaa" /\
  isValid (validatePasswordStrength (JsString "A2!aaaaaaaaaaaaa") noUserInfo) = false.
Proof. split; reflexivity. Qed.

End PasswordFacts.

(* --------------------------------------------------------------------- *)
(** ** Hexadecimal session identifiers *)
(* --------------------------------------------------------------------- *)

Module HexFacts.

Lemma hexDigit_elem n : (n < 16)%nat -> hexDigit n ∈ chars "0123456789abcdef".
Proof.
  intros H. unfold hexDigit. apply list_elem_of_In, nth_In. exact H.
Qed.

Lemma code_bound b : (code b < 256)%nat.
Proof. apply nat_ascii_bounded. Qed.

Lemma toHex_length bytes : String.length (toHex bytes) = (2 * List.length bytes)%nat.
Proof.
  unfold toHex. rewrite PasswordFacts.length_join.
  induction bytes as [| b bytes IH]; [reflexivity |].
  cbn [flat_map]. rewrite length_app, IH. cbn [List.length]. lia.
Qed.

Lemma toHex_elem bytes c :
  c ∈ chars (toHex bytes) -> c ∈ chars "0123456789abcdef".
Proof.
  unfold toHex. rewrite PasswordFacts.chars_join.
  induction bytes as [| b bytes IH]; cbn [flat_map]; [intros H; now apply elem_of_nil in H |].
  pose proof (code_bound b) as Hb.
  intros [H | H]%elem_of_app; [| auto].
  apply elem_of_cons in H as [-> | H].
  - apply hexDigit_elem. apply Nat.Div0.div_lt_upper_bound. lia.
  - apply list_elem_of_singleton in H. subst c. apply hexDigit_elem.
    apply Nat.mod_upper_bound. lia.
Qed.

Lemma hexDigit_inj n m :
  (n < 16)%nat -> (m < 16)%nat -> hexDigit n = hexDigit m -> n = m.
Proof.
  intros Hn Hm H.
  do 16 (destruct n as [| n]; [do 16 (destruct m as [| m]; [first [reflexivity | discriminate H] |]); lia |]).
  lia.
Qed.

Lemma join_inj l l' : join l = join l' -> l = l'.
Proof.
  intros H. apply (f_equal chars) in H. now rewrite !PasswordFacts.chars_join in H.
Qed.

Lemma hexByte_inj b b' :
  hexDigit (code b / 16) = hexDigit (code b' / 16) ->
  hexDigit (code b mod 16) = hexDigit (code b' mod 16) ->
  b = b'.
Proof.
  pose proof (code_bound b) as Hb. pose proof (code_bound b') as Hb'.
  intros H1 H2.
  apply hexDigit_inj in H1;
    [| apply Nat.Div0.div_lt_upper_bound; lia | apply Nat.Div0.div_lt_upper_bound; lia].
  apply hexDigit_inj in H2; [| apply Nat.mod_upper_bound; lia | apply Nat.mod_upper_bound; lia].
  assert (Hc : code b = code b').
  { rewrite (Nat.div_mod_eq (code b) 16), (Nat.div_mod_eq (code b') 16). congruence. }
  unfold code in Hc. rewrite <- (ascii_nat_embedding b), <- (ascii_nat_embedding b').
  now rewrite Hc.
Qed.

Lemma toHex_inj bytes bytes' :
  List.length bytes = List.length bytes' -> toHex bytes = toHex bytes' -> bytes = bytes'.
Proof.
  unfold toHex. intros Hl H. apply join_inj in H.
  revert bytes' Hl H. induction bytes as [| b bytes IH]; intros [| b' bytes'] Hl H;
    try discriminate; [reflexivity |].
  cbn [flat_map app] in H. injection H as H1 H2 H3.
  f_equal; [now apply hexByte_inj | apply IH; [now injection Hl | exact H3]].
Qed.

(** Two draws give the same session identifier exactly when the random
    source yields the same 32 bytes. *)
Lemma freshId_inj (src src' : nat -> ascii) :
  freshId src = freshId src' <-> forall i, (i < 32)%nat -> src i = src' i.
Proof.
  unfold freshId, randomBytes. split.
  - intros H i Hi. apply toHex_inj in H; [| now rewrite !length_map].
    assert (Hin : In i (seq 0 32)) by (apply in_seq; lia).
    revert Hin. generalize (seq 0 32) H. intros l Hmap.
    induction l as [| x l IH]; [intros [] |].
    cbn [map] in Hmap. injection Hmap as Hx Hl.
    intros [<- | Hin]; auto.
  - intros H. f_equal. apply map_ext_in. intros i Hi. apply in_seq in Hi. apply H. lia.
Qed.

End HexFacts.

(* --------------------------------------------------------------------- *)
(** ** Store and document lemmas *)
(* --------------------------------------------------------------------- *)

Module SessionFacts.

Lemma collection_setCollection m c st : collection m (setCollection m c st) = c.
Proof. now destruct m. Qed.

Lemma collection_setCollection_ne m m' c st :
  m <> m' -> collection m' (setCollection m c st) = collection m' st.
Proof. destruct m, m'; intros H; try reflexivity; congruence. Qed.

(** The lookup by identifier is rejected exactly when the database says
    so, and otherwise answers from the store. *)
Lemma findById_Thrown db m id st e :
  Mongoose.findById db m id st = Thrown e <-> findFault db m (ById id) = Some e.
Proof.
  unfold Mongoose.findById. destruct (findFault db m (ById id)) as [e' |].
  - split; intros [= ->]; reflexivity.
  - split; discriminate.
Qed.

Lemma findById_Some db m id st d :
  Mongoose.findById db m id st = Returned (Some d) <->
  findFault db m (ById id) = None /\
  exists a, collection m st !! id = Some a /\ d = mkDocument m id a [].
Proof.
  unfold Mongoose.findById. destruct (findFault db m (ById id)) as [e |].
  - split; [discriminate | intros [H _]; discriminate H].
  - destruct (collection m st !! id) as [a |].
    + split.
      * intros [= <-]. eauto.
      * intros (_ & a' & [= <-] & ->). reflexivity.
    + split; [discriminate | intros (_ & a' & H & _); discriminate H].
Qed.

Lemma findById_None db m id st :
  Mongoose.findById db m id st = Returned None <->
  findFault db m (ById id) = None /\ collection m st !! id = None.
Proof.
  unfold Mongoose.findById. destruct (findFault db m (ById id)) as [e |].
  - split; [discriminate | intros [H _]; discriminate H].
  - destruct (collection m st !! id) as [a |].
    + split; [discriminate | intros [_ H]; discriminate H].
    + split; [intros _; split; reflexivity | reflexivity].
Qed.

(** The time-stamp hook does not touch the modification mark of another
    path. *)
Lemma timestamps_isModified path now doc :
  String.eqb path "updatedAt" = false ->
  isModified path (Mongoose.timestamps now doc) = isModified path doc.
Proof.
  intros Hp. unfold Mongoose.timestamps, Mongoose.assign, isModified.
  destruct (anyModified doc); [| reflexivity].
  destruct (negb _); [| reflexivity].
  cbn [modifiedPaths existsb]. now rewrite Hp.
Qed.

(** A save of a document whose password hash is not modified goes
    through the validation, the time stamp, the second hook and the
    write: the hashing library is not called. *)
Lemma save_unhashed L env db now doc st :
  isModified "passwordHash" doc = false ->
  UserModel.save L env db now doc st =
  match validationFault db doc with
  | Some e => Thrown e
  | None =>
      let d := UserModel.preSaveSecond now (Mongoose.timestamps now doc) in
      match writeFault db d with
      | Some e => Thrown e
      | None =>
          Returned (mkDocument (modelOf d) (_id d) (fields d) [],
                    setCollection (modelOf d)
                      (<[_id d := fields d]> (collection (modelOf d) st)) st)
      end
  end.
Proof.
  intros Hm. unfold UserModel.save, UserModel.preSave.
  rewrite timestamps_isModified by reflexivity. rewrite Hm. reflexivity.
Qed.

(** The document that reaches the write when [v] was assigned to the
    [sessionId] of a document just loaded. *)
Lemma hooks_after_session now m id a v :
  let d := UserModel.preSaveSecond now
             (Mongoose.timestamps now (Mongoose.setSessionId v (mkDocument m id a []))) in
  modelOf d = m /\ _id d = id /\ fields d = UserModel.sessionWrite m now v a.
Proof.
  unfold UserModel.sessionWrite, UserModel.afterHooks, Mongoose.setSessionId,
    Mongoose.timestamps, Mongoose.assign, anyModified.
  cbn [fields modifiedPaths modelOf _id].
  destruct (bool_decide (sessionId a = v)); cbn [negb].
  - destruct m; cbn; repeat split.
  - destruct (updatedAt (withSessionId v a) =? now) eqn:Hu; cbn [negb];
      destruct m; cbn -[UserModel.hasSession ProfileCompletion.calculateProfileCompletion];
      repeat split;
      match goal with
      | |- context [UserModel.hasSession ?x] =>
          change (UserModel.hasSession x) with (UserModel.hasSession (withSessionId v a));
          destruct (UserModel.hasSession (withSessionId v a)); reflexivity
      end.
Qed.

(** A save after an assignment to [sessionId]: rejected, with the store
    as it was, or the fields of [sessionWrite] written under the
    document's identifier. *)
Lemma save_session L env db now m id a v st :
  (exists e, UserModel.save L env db now
               (Mongoose.setSessionId v (mkDocument m id a [])) st = Thrown e /\
             (validationFault db (Mongoose.setSessionId v (mkDocument m id a [])) = Some e \/
              writeFault db
                (UserModel.preSaveSecond now
                   (Mongoose.timestamps now
                      (Mongoose.setSessionId v (mkDocument m id a [])))) = Some e)) \/
  (validationFault db (Mongoose.setSessionId v (mkDocument m id a [])) = None /\
   writeFault db
     (UserModel.preSaveSecond now
        (Mongoose.timestamps now (Mongoose.setSessionId v (mkDocument m id a []))))
   = None /\
   UserModel.save L env db now (Mongoose.setSessionId v (mkDocument m id a [])) st =
   Returned (mkDocument m id (UserModel.sessionWrite m now v a) [],
             setCollection m
               (<[id := UserModel.sessionWrite m now v a]> (collection m st)) st)).
Proof.
  rewrite save_unhashed.
  2:{ unfold Mongoose.setSessionId, Mongoose.assign, isModified.
      cbn [fields modifiedPaths]. destruct (negb _); reflexivity. }
  destruct (hooks_after_session now m id a v) as (Hm & Hi & Hf). cbv zeta in *.
  destruct (validationFault db _) as [e |]; [left; eauto |].
  destruct (writeFault db _) as [e |]; [left; eauto |].
  right. rewrite Hm, Hi, Hf. repeat split.
Qed.

(** With a database that rejects no save, the save goes through. *)
Lemma save_session_ok L env db now m id a v st :
  (forall d, validationFault db d = None) ->
  (forall d, writeFault db d = None) ->
  UserModel.save L env db now (Mongoose.setSessionId v (mkDocument m id a [])) st =
  Returned (mkDocument m id (UserModel.sessionWrite m now v a) [],
            setCollection m
              (<[id := UserModel.sessionWrite m now v a]> (collection m st)) st).
Proof.
  intros Hv Hw.
  destruct (save_session L env db now m id a v st) as [(e & _ & [H | H]) | (_ & _ & H)].
  - rewrite Hv in H. discriminate H.
  - rewrite Hw in H. discriminate H.
  - exact H.
Qed.

Lemma sessionWrite_sessionId m now v a :
  sessionId (UserModel.sessionWrite m now v a) = v.
Proof.
  unfold UserModel.sessionWrite, UserModel.afterHooks.
  destruct m, (negb _); cbn -[UserModel.hasSession]; try reflexivity;
    destruct (UserModel.hasSession _); reflexivity.
Qed.

Lemma sessionWrite_outside m now v a :
  outsideSession (UserModel.sessionWrite m now v a) = outsideSession a.
Proof.
  unfold UserModel.sessionWrite, UserModel.afterHooks.
  destruct m, (negb _); cbn -[UserModel.hasSession]; try reflexivity;
    destruct (UserModel.hasSession _); reflexivity.
Qed.

Lemma sessionWrite_updatedAt m now v a :
  updatedAt (UserModel.sessionWrite m now v a)
  = if bool_decide (sessionId a = v) then updatedAt a else now.
Proof.
  unfold UserModel.sessionWrite, UserModel.afterHooks.
  destruct m, (bool_decide _); cbn -[UserModel.hasSession]; try reflexivity;
    destruct (UserModel.hasSession _); reflexivity.
Qed.

(** A freshly drawn session identifier is not empty. *)
Lemma freshId_hasSession src a :
  UserModel.hasSession (withSessionId (Some (freshId src)) a) = true.
Proof. reflexivity. Qed.

(** Every way [refreshTokens] can end once the token has verified and
    the lookup has found an account with the embedded session. *)
Lemma refreshTokens_found L env db now src tok st d a :
  AuthService.verifyRefreshToken L env now tok = Returned d ->
  findFault db (AuthService.modelFor (p_type d)) (ById (p_id d)) = None ->
  collection (AuthService.modelFor (p_type d)) st !! p_id d = Some a ->
  sessionId a = p_sessionId d ->
  let m := AuthService.modelFor (p_type d) in
  let a' := UserModel.sessionWrite m now (Some (freshId src)) a in
  let st' := setCollection m (<[p_id d := a']> (collection m st)) st in
  (exists e, AuthService.refreshTokens L env db now src tok st = (Thrown e, st)) \/
  (exists e, AuthService.refreshTokens L env db now src tok st = (Thrown e, st') /\
             AuthService.generateTokens L env now (mkDocument m (p_id d) a' []) false
             = Thrown e) \/
  (exists pair, AuthService.refreshTokens L env db now src tok st = (Returned pair, st') /\
                AuthService.generateTokens L env now (mkDocument m (p_id d) a' []) false
                = Returned pair).
Proof.
  intros Hv Hf Ha Hs. cbv zeta.
  unfold AuthService.refreshTokens, Mongoose.findById.
  rewrite Hv, Hf, Ha. cbn [fields].
  rewrite bool_decide_eq_true_2 by exact Hs. cbn [negb].
  unfold UserModel.generateSessionId.
  destruct (save_session L env db now (AuthService.modelFor (p_type d)) (p_id d) a
              (Some (freshId src)) st) as [(e & -> & _) | (_ & _ & ->)];
    [left; eauto | right].
  destruct (AuthService.generateTokens L env now _ false) as [pair | e];
    [right | left]; eauto.
Qed.

(** Every way [refreshTokens] can end. *)
Lemma refreshTokens_cases L env db now src tok st :
  (exists e, AuthService.verifyRefreshToken L env now tok = Thrown e /\
             AuthService.refreshTokens L env db now src tok st = (Thrown e, st)) \/
  (exists d, AuthService.verifyRefreshToken L env now tok = Returned d /\
     let m := AuthService.modelFor (p_type d) in
     match findFault db m (ById (p_id d)) with
     | Some e => AuthService.refreshTokens L env db now src tok st = (Thrown e, st)
     | None =>
         match collection m st !! p_id d with
         | None => AuthService.refreshTokens L env db now src tok st
                   = (Thrown (Error "USER_NOT_FOUND"), st)
         | Some a =>
             (sessionId a <> p_sessionId d /\
              AuthService.refreshTokens L env db now src tok st
              = (Thrown (Error "SESSION_INVALID"), st)) \/
             (sessionId a = p_sessionId d /\
              let a' := UserModel.sessionWrite m now (Some (freshId src)) a in
              let st' := setCollection m (<[p_id d := a']> (collection m st)) st in
              ((exists e, AuthService.refreshTokens L env db now src tok st
                          = (Thrown e, st)) \/
               (exists e, AuthService.refreshTokens L env db now src tok st
                          = (Thrown e, st') /\
                          AuthService.generateTokens L env now
                            (mkDocument m (p_id d) a' []) false = Thrown e) \/
               (exists pair, AuthService.refreshTokens L env db now src tok st
                             = (Returned pair, st') /\
                             AuthService.generateTokens L env now
                               (mkDocument m (p_id d) a' []) false = Returned pair)))
         end
     end).
Proof.
  destruct (AuthService.verifyRefreshToken L env now tok) as [d | e] eqn:Hv.
  - right. exists d. split; [reflexivity |]. cbv zeta.
    destruct (findFault db _ _) as [e |] eqn:Hf.
    { unfold AuthService.refreshTokens, Mongoose.findById. now rewrite Hv, Hf. }
    destruct (collection _ st !! p_id d) as [a |] eqn:Ha.
    2:{ unfold AuthService.refreshTokens, Mongoose.findById. now rewrite Hv, Hf, Ha. }
    destruct (decide (sessionId a = p_sessionId d)) as [Heq | Hne].
    + right. split; [exact Heq |].
      exact (refreshTokens_found L env db now src tok st d a Hv Hf Ha Heq).
    + left. split; [exact Hne |].
      unfold AuthService.refreshTokens, Mongoose.findById. rewrite Hv, Hf, Ha.
      cbn [fields]. now rewrite bool_decide_eq_false_2.
  - left. exists e. split; [reflexivity |].
    unfold AuthService.refreshTokens. now rewrite Hv.
Qed.

(** What a successful refresh has done. *)
Lemma refreshTokens_Returned L env db now src tok st pair st' :
  AuthService.refreshTokens L env db now src tok st = (Returned pair, st') ->
  exists d a,
    AuthService.verifyRefreshToken L env now tok = Returned d /\
    findFault db (AuthService.modelFor (p_type d)) (ById (p_id d)) = None /\
    collection (AuthService.modelFor (p_type d)) st !! p_id d = Some a /\
    sessionId a = p_sessionId d /\
    st' = setCollection (AuthService.modelFor (p_type d))
            (<[p_id d := UserModel.sessionWrite (AuthService.modelFor (p_type d)) now
                           (Some (freshId src)) a]>
               (collection (AuthService.modelFor (p_type d)) st)) st /\
    AuthService.generateTokens L env now
      (mkDocument (AuthService.modelFor (p_type d)) (p_id d)
         (UserModel.sessionWrite (AuthService.modelFor (p_type d)) now
            (Some (freshId src)) a) []) false = Returned pair.
Proof.
  intros Hr.
  destruct (refreshTokens_cases L env db now src tok st) as [(e & _ & He) | (d & Hd & H)];
    [congruence |].
  cbv zeta in H.
  destruct (findFault db _ _) eqn:Hf; [congruence |].
  destruct (collection _ st !! p_id d) as [a |] eqn:Ha; [| congruence].
  destruct H as [[_ H] | [Heq [(e & H) | [(e & H & _) | (pair' & H & Hg)]]]];
    try congruence.
  rewrite Hr in H. injection H as -> ->.
  exists d, a. repeat split; assumption.
Qed.

(** A token that verifies under the refresh secret but is not tagged as
    a refresh token is refused; the error raised for it inside the [try]
    block is renamed by the [catch] clause. *)
Lemma verifyRefreshToken_wrong_type L env now tok d :
  jwt_verify L now tok (JWT_REFRESH_SECRET env)
    (Some ("uniapply-hub", "uniapply-hub-users")) = Returned d ->
  p_tokenType d <> Some "refresh" ->
  AuthService.verifyRefreshToken L env now tok
  = Thrown (Error "TOKEN_VERIFICATION_FAILED").
Proof.
  intros Hv Ht. unfold AuthService.verifyRefreshToken, AuthService.refreshTokenSecret.
  rewrite Hv. now rewrite bool_decide_eq_false_2.
Qed.

(** Every way [revokeSession] can end. *)
Lemma revokeSession_cases L env db now userId userType st :
  let m := if String.eqb userType "admin" then Admin else User in
  match findFault db m (ById userId) with
  | Some _ => AuthService.revokeSession L env db now userId userType st = (false, st)
  | None =>
      match collection m st !! userId with
      | None => AuthService.revokeSession L env db now userId userType st = (true, st)
      | Some a =>
          AuthService.revokeSession L env db now userId userType st = (false, st) \/
          AuthService.revokeSession L env db now userId userType st
          = (true, setCollection m
                     (<[userId := UserModel.sessionWrite m now None a]> (collection m st))
                     st)
      end
  end.
Proof.
  cbv zeta. unfold AuthService.revokeSession, Mongoose.findById.
  destruct (findFault db _ _); [reflexivity |].
  destruct (collection _ st !! userId) as [a |]; [| reflexivity].
  destruct (save_session L env db now (if String.eqb userType "admin" then Admin else User)
              userId a None st) as [(e & -> & _) | (_ & _ & ->)]; [left | right];
    reflexivity.
Qed.

Lemma startsWith_bearer tok : startsWith ("Bearer " ++ tok) "Bearer " = true.
Proof. reflexivity. Qed.

Lemma substring_bearer tok : substringFrom 7 ("Bearer " ++ tok) = tok.
Proof. unfold substringFrom, join, chars. cbn. apply string_of_list_ascii_of_string. Qed.



(** The gate on a bearer header: the steps after the header check. *)
Lemma gate_bearer L env db now tok st :
  Middleware.authenticateToken L env db now (Some ("Bearer " ++ tok)) st =
  match jwt_verify L now tok (JWT_ACCESS_SECRET env) None with
  | Returned decoded =>
      match Mongoose.findById db User (p_id decoded) st with
      | Thrown error => Middleware.caught error
      | Returned None => Reject 401 "USER_NOT_FOUND" "User not found"
      | Returned (Some user) =>
          if negb (bool_decide (sessionId (fields user) = p_sessionId decoded))
          then Reject 401 "SESSION_INVALID" "Session has been invalidated"
          else Proceed user
      end
  | Thrown error => Middleware.caught error
  end.
Proof.
  unfold Middleware.authenticateToken.
  assert (Hne : String.eqb ("Bearer " ++ tok) "" = false) by reflexivity.
  rewrite Hne, startsWith_bearer, substring_bearer. reflexivity.
Qed.

(** The [catch] clause of the gate never attaches an account, and what
    it does depends on the name of the error alone. *)
Lemma caught_cases e :
  (err_name e = "JsonWebTokenError" /\
   Middleware.caught e = Reject 401 "INVALID_TOKEN" "Invalid authentication token") \/
  (err_name e = "TokenExpiredError" /\
   Middleware.caught e = Reject 401 "TOKEN_EXPIRED" "Authentication token has expired") \/
  (err_name e <> "JsonWebTokenError" /\ err_name e <> "TokenExpiredError" /\
   Middleware.caught e = Forward e).
Proof.
  unfold Middleware.caught.
  destruct (String.eqb_spec (err_name e) "JsonWebTokenError") as [H1 | H1];
    [left; split; [exact H1 | reflexivity] | right].
  destruct (String.eqb_spec (err_name e) "TokenExpiredError") as [H2 | H2];
    [left; split; [exact H2 | reflexivity] | right].
  repeat split; assumption.
Qed.

(** The gate reads the collection of users and nothing else of the
    store. *)
Lemma gate_reads_users L env db now h st st' :
  users st' = users st ->
  Middleware.authenticateToken L env db now h st'
  = Middleware.authenticateToken L env db now h st.
Proof.
  intros Hu. unfold Middleware.authenticateToken, Mongoose.findById.
  cbn [collection]. now rewrite Hu.
Qed.

(** Writing back one stored account with every field read by [f] as it
    was changes nothing that [f] reads, anywhere in the store. *)
Lemma update_frame {B : Type} (f : Account -> B) m id a a' st :
  collection m st !! id = Some a ->
  f a' = f a ->
  forall m' id',
    f <$> (collection m' (setCollection m (<[id := a']> (collection m st)) st) !! id')
    = f <$> (collection m' st !! id').
Proof.
  intros Ha Hf m' id'. destruct (decide (m = m')) as [<- | Hm].
  - rewrite collection_setCollection.
    destruct (decide (id = id')) as [<- | Hid].
    + rewrite lookup_insert_eq, Ha. cbn. now rewrite Hf.
    + rewrite lookup_insert_ne by exact Hid. reflexivity.
  - rewrite collection_setCollection_ne by exact Hm. reflexivity.
Qed.

(** Writing back one stored account leaves every other account, of
    either model, as it was. *)
Lemma update_elsewhere m id a' st m' id' :
  (m, id) <> (m', id') ->
  collection m' (setCollection m (<[id := a']> (collection m st)) st) !! id'
  = collection m' st !! id'.
Proof.
  intros Hne. destruct (decide (m = m')) as [<- | Hm].
  - rewrite collection_setCollection.
    destruct (decide (id = id')) as [<- | Hid]; [congruence |].
    now rewrite lookup_insert_ne by exact Hid.
  - now rewrite collection_setCollection_ne by exact Hm.
Qed.

Lemma sameOutsideSession_refl st : sameOutsideSession st st.
Proof. intros m id. reflexivity. Qed.

(* --------------------------------------------------------------------- *)
(** ** Refresh, logout and the request gate *)
(* --------------------------------------------------------------------- *)

(** C1 (amended): a refresh whose token decodes to a session identifier
    other than the one stored for the account that the lookup returned
    fails with SESSION_INVALID and leaves the store alone.  A successful
    refresh stores the session identifier drawn by [generateSessionId].
    When that identifier differs from the one the token embeds, the same
    refresh token, still verifying to the same payload, is refused
    whenever it is presented again: with SESSION_INVALID when the lookup
    answers, with the error of the lookup otherwise, and in either case
    with the store left alone.  Two draws give the same identifier
    exactly when the random source yields the same 32 bytes. *)
Theorem C1_refresh_rotation L env :
  (forall db now src tok st d user,
      AuthService.verifyRefreshToken L env now tok = Returned d ->
      Mongoose.findById db (AuthService.modelFor (p_type d)) (p_id d) st
      = Returned (Some user) ->
      sessionId (fields user) <> p_sessionId d ->
      AuthService.refreshTokens L env db now src tok st
      = (Thrown (Error "SESSION_INVALID"), st)) /\
  (forall db now src tok st pair st',
      AuthService.refreshTokens L env db now src tok st = (Returned pair, st') ->
      exists d,
        AuthService.verifyRefreshToken L env now tok = Returned d /\
        sessionId <$> (collection (AuthService.modelFor (p_type d)) st' !! p_id d)
        = Some (Some (freshId src)) /\
        forall db' now' src',
          AuthService.verifyRefreshToken L env now' tok = Returned d ->
          Some (freshId src) <> p_sessionId d ->
          AuthService.refreshTokens L env db' now' src' tok st'
          = (Thrown match findFault db' (AuthService.modelFor (p_type d))
                            (ById (p_id d)) with
                    | Some e => e
                    | None => Error "SESSION_INVALID"
                    end, st')) /\
  (forall src src',
      freshId src = freshId src' <-> forall i, (i < 32)%nat -> src i = src' i).
Proof.
  split; [| split; [| exact HexFacts.freshId_inj]].
  - intros db now src tok st d user Hv Hf Hne.
    apply findById_Some in Hf as (Hf & a & Ha & ->). cbn [fields] in Hne.
    destruct (refreshTokens_cases L env db now src tok st)
      as [(e & He & _) | (d' & Hd & H)]; [congruence |].
    rewrite Hv in Hd. injection Hd as <-. cbv zeta in H. rewrite Hf, Ha in H.
    destruct H as [[_ H] | [Heq _]]; [exact H | contradiction].
  - intros db now src tok st pair st' Hr.
    apply refreshTokens_Returned in Hr as (d & a & Hd & _ & Ha & _ & -> & _).
    set (m := AuthService.modelFor (p_type d)).
    set (a' := UserModel.sessionWrite m now (Some (freshId src)) a).
    assert (Hst' : collection m
              (setCollection m (<[p_id d := a']> (collection m st)) st) !! p_id d
            = Some a').
    { rewrite collection_setCollection. apply lookup_insert_eq. }
    exists d. fold m. split; [exact Hd |]. split.
    { rewrite Hst'. cbn. subst a'. now rewrite sessionWrite_sessionId. }
    intros db' now' src' Hv' Hfresh.
    destruct (refreshTokens_cases L env db' now' src' tok
                (setCollection m (<[p_id d := a']> (collection m st)) st))
      as [(e & He & _) | (d' & Hd' & H)]; [congruence |].
    rewrite Hv' in Hd'. injection Hd' as <-. cbv zeta in H. fold m in H |- *.
    destruct (findFault db' m (ById (p_id d))) as [e |]; [exact H |].
    rewrite Hst' in H.
    destruct H as [[_ H] | [Heq' _]]; [exact H |].
    exfalso. apply Hfresh. rewrite <- Heq'. subst a'.
    now rewrite sessionWrite_sessionId.
Qed.

(** Witness of C1: Alice's refresh token, presented when the stored
    session is another one, and presented again after it succeeded
    once. *)
Lemma C1_refresh_rotation_witness :
  AuthService.refreshTokens Sample.library Sample.env Sample.database 0 Sample.bytes
    "alice.refresh"
    (mkStore {[Sample.aliceId := withSessionId (Some (freshId Sample.bytes)) Sample.alice]}
       ∅)
  = (Thrown (Error "SESSION_INVALID"),
     mkStore {[Sample.aliceId := withSessionId (Some (freshId Sample.bytes)) Sample.alice]}
       ∅) /\
  AuthService.refreshTokens Sample.library Sample.env Sample.database 5 Sample.bytes
    "alice.refresh"
    (snd (AuthService.refreshTokens Sample.library Sample.env Sample.database 0
            Sample.bytes "alice.refresh" Sample.aliceStore))
  = (Thrown (Error "SESSION_INVALID"),
     snd (AuthService.refreshTokens Sample.library Sample.env Sample.database 0
            Sample.bytes "alice.refresh" Sample.aliceStore)).
Proof.
  split.
  - eapply (proj1 (C1_refresh_rotation Sample.library Sample.env)).
    + reflexivity.
    + reflexivity.
    + discriminate.
  - destruct (proj1 (proj2 (C1_refresh_rotation Sample.library Sample.env))
                Sample.database 0 Sample.bytes "alice.refresh" Sample.aliceStore _ _
                eq_refl)
      as (d & Hd & _ & Hagain).
    injection Hd as <-.
    apply (Hagain Sample.database 5 Sample.bytes); [reflexivity | discriminate].
Defined.

(** C1, as first stated, fails when the draw repeats the identifier it
    replaces: the random source [Sample.earlierBytes] yields the bytes
    from which Alice's stored session identifier was made, her refresh
    succeeds and stores the same identifier, and the same refresh token
    presented again succeeds again. *)
Lemma C1_counterexample :
  let r := AuthService.refreshTokens Sample.library Sample.env Sample.database 5
             Sample.earlierBytes "alice.refresh" Sample.aliceStore in
  (exists pair, fst r = Returned pair) /\
  sessionId <$> (users (snd r) !! Sample.aliceId)
  = Some (Some (freshId Sample.earlierBytes)) /\
  sessionId <$> (users Sample.aliceStore !! Sample.aliceId)
  = Some (Some (freshId Sample.earlierBytes)) /\
  exists pair,
    fst (AuthService.refreshTokens Sample.library Sample.env Sample.database 9
           Sample.bytes "alice.refresh" (snd r)) = Returned pair.
Proof.
  cbv zeta. split; [eexists; reflexivity |].
  split; [reflexivity |]. split; [reflexivity |]. eexists; reflexivity.
Qed.

(** C3 (amended): once a logout has cleared the stored session
    identifier of a user account with an active session, the access token
    issued to it before the logout no longer attaches the account,
    although it still verifies (valid signature, not expired) to the
    payload it was signed with: the request gate turns it down with
    SESSION_INVALID when the lookup answers, and ends as for any rejected
    lookup otherwise.  The logout of an administrator changes the answer
    of the gate to no request, because the gate reads the collection of
    users only; a token whose identity no user document has is answered
    with USER_NOT_FOUND when the lookup answers. *)
Theorem C3_logout_invalidates L env :
  (forall db db' now t0 t1 st st' id a s pair,
      users st !! id = Some a ->
      sessionId a = Some s ->
      let user := mkDocument User id a [] in
      AuthService.generateTokens L env t0 user false = Returned pair ->
      jwt_verify L now (accessToken pair) (JWT_ACCESS_SECRET env) None
        = Returned (AuthService.tokenPayload user) ->
      AuthService.revokeSession L env db t1 id "user" st = (true, st') ->
      sessionId <$> (users st' !! id) = Some None /\
      Middleware.authenticateToken L env db' now
        (Some ("Bearer " ++ accessToken pair)) st'
      = match findFault db' User (ById id) with
        | Some e => Middleware.caught e
        | None => Reject 401 "SESSION_INVALID" "Session has been invalidated"
        end /\
      forall u, Middleware.authenticateToken L env db' now
                  (Some ("Bearer " ++ accessToken pair)) st' <> Proceed u) /\
  (forall db db' now t1 st id h,
      Middleware.authenticateToken L env db' now h
        (snd (AuthService.revokeSession L env db t1 id "admin" st))
      = Middleware.authenticateToken L env db' now h st) /\
  (forall db' now st tok d,
      jwt_verify L now tok (JWT_ACCESS_SECRET env) None = Returned d ->
      findFault db' User (ById (p_id d)) = None ->
      users st !! p_id d = None ->
      Middleware.authenticateToken L env db' now (Some ("Bearer " ++ tok)) st
      = Reject 401 "USER_NOT_FOUND" "User not found").
Proof.
  split; [| split].
  - intros db db' now t0 t1 st st' id a s pair Ha Hs user Hg Hv Hr. subst user.
    pose proof (revokeSession_cases L env db t1 id "user" st) as Hc.
    cbv zeta in Hc. change (String.eqb "user" "admin") with false in Hc. cbv iota in Hc.
    destruct (findFault db User (ById id)); [congruence |].
    cbn [collection] in Hc. rewrite Ha in Hc.
    destruct Hc as [Hc | Hc]; [congruence |].
    assert (Hst' : st' = setCollection User
                           (<[id := UserModel.sessionWrite User t1 None a]> (users st)) st)
      by congruence.
    subst st'. clear Hc.
    assert (Hst : users (setCollection User
                           (<[id := UserModel.sessionWrite User t1 None a]> (users st)) st)
                  !! id = Some (UserModel.sessionWrite User t1 None a)).
    { cbn [setCollection users]. apply lookup_insert_eq. }
    assert (Hgate : Middleware.authenticateToken L env db' now
                      (Some ("Bearer " ++ accessToken pair))
                      (setCollection User
                         (<[id := UserModel.sessionWrite User t1 None a]> (users st)) st)
                    = match findFault db' User (ById id) with
                      | Some e => Middleware.caught e
                      | None => Reject 401 "SESSION_INVALID" "Session has been invalidated"
                      end).
    { rewrite gate_bearer, Hv. unfold Mongoose.findById.
      cbn [AuthService.tokenPayload p_id p_sessionId _id fields collection].
      destruct (findFault db' User (ById id)); [reflexivity |].
      rewrite Hst. cbn [fields]. rewrite sessionWrite_sessionId, Hs. reflexivity. }
    split; [rewrite Hst; cbn [fmap option_fmap option_map];
            now rewrite sessionWrite_sessionId |].
    split; [exact Hgate |].
    intros u. rewrite Hgate.
    destruct (findFault db' User (ById id)) as [e |]; [| discriminate].
    destruct (caught_cases e) as [[_ ->] | [[_ ->] | (_ & _ & ->)]]; discriminate.
  - intros db db' now t1 st id h. apply gate_reads_users.
    pose proof (revokeSession_cases L env db t1 id "admin" st) as Hc.
    cbv zeta in Hc. change (String.eqb "admin" "admin") with true in Hc. cbv iota in Hc.
    destruct (findFault db Admin (ById id)); [now rewrite Hc |].
    destruct (collection Admin st !! id); [| now rewrite Hc].
    destruct Hc as [-> | ->]; reflexivity.
  - intros db' now st tok d Hv Hf Hn.
    rewrite gate_bearer, Hv. unfold Mongoose.findById. cbn [collection].
    now rewrite Hf, Hn.
Qed.

(** Witness of C3: Alice logs out; her access token is then refused. *)
Lemma C3_logout_invalidates_witness :
  sessionId <$> (users (snd (AuthService.revokeSession Sample.library Sample.env
                               Sample.database 5 Sample.aliceId "user" Sample.aliceStore))
                 !! Sample.aliceId) = Some None /\
  Middleware.authenticateToken Sample.library Sample.env Sample.database 7
    (Some "Bearer alice.access")
    (snd (AuthService.revokeSession Sample.library Sample.env Sample.database 5
            Sample.aliceId "user" Sample.aliceStore))
  = Reject 401 "SESSION_INVALID" "Session has been invalidated".
Proof.
  destruct (proj1 (C3_logout_invalidates Sample.library Sample.env)
              Sample.database Sample.database 7 0 5 Sample.aliceStore _
              Sample.aliceId Sample.alice Sample.session1
              (mkTokenPair "alice.access" "alice.refresh" (Some 900) "Bearer")
              eq_refl eq_refl eq_refl eq_refl eq_refl) as (H1 & H2 & _).
  split; [exact H1 | exact H2].
Defined.

(** C3, as first stated, fails for an account of the Admin model: the
    gate resolves identities among the users only, so after the
    administrator's logout the access token issued for the cleared
    session is answered with USER_NOT_FOUND, as it was before the
    logout. *)
Lemma C3_counterexample :
  let st' := snd (AuthService.revokeSession Sample.library Sample.env Sample.database 5
                    Sample.rootId "admin" Sample.rootStore) in
  AuthService.generateTokens Sample.library Sample.env 0 Sample.rootDoc false
  = Returned (mkTokenPair "root.access" "root.refresh" (Some 900) "Bearer") /\
  sessionId Sample.root = Some Sample.rootSession /\
  jwt_verify Sample.library 7 "root.access" (JWT_ACCESS_SECRET Sample.env) None
    = Returned (AuthService.tokenPayload Sample.rootDoc) /\
  sessionId <$> (admins st' !! Sample.rootId) = Some None /\
  Middleware.authenticateToken Sample.library Sample.env Sample.database 7
    (Some "Bearer root.access") st'
  = Reject 401 "USER_NOT_FOUND" "User not found" /\
  Middleware.authenticateToken Sample.library Sample.env Sample.database 7
    (Some "Bearer root.access") Sample.rootStore
  = Reject 401 "USER_NOT_FOUND" "User not found".
Proof. cbv zeta. repeat split. Qed.

(** C10 (amended): a successful refresh and a logout write one account,
    that of the identity they are given, and leave there the e-mail
    address, the password hash, the last-login time, the password dates
    and the profile as they were.  What the save writes on that account
    is the session identifier; [updatedAt], set to the time of the save
    when the identifier assigned differs from the stored one;
    [profileCompletionStatus], recomputed from the profile for a user;
    and [lastActiveAt], set to the time of the save for an administrator
    when the identifier assigned is not empty and differs from the stored
    one.  The save never hashes again, because the first pre-save hook
    returns the document untouched unless [passwordHash] is among its
    modified paths. *)
Theorem C10_session_ops_keep_credential L env :
  (forall db now src tok st pair st',
      AuthService.refreshTokens L env db now src tok st = (Returned pair, st') ->
      sameOutsideSession st st' /\
      exists d a,
        AuthService.verifyRefreshToken L env now tok = Returned d /\
        let m := AuthService.modelFor (p_type d) in
        collection m st !! p_id d = Some a /\
        st' = setCollection m
                (<[p_id d := UserModel.sessionWrite m now (Some (freshId src)) a]>
                   (collection m st)) st) /\
  (forall db now userId userType st,
      let m := if String.eqb userType "admin" then Admin else User in
      let st' := snd (AuthService.revokeSession L env db now userId userType st) in
      sameOutsideSession st st' /\
      (st' = st \/
       exists a,
         collection m st !! userId = Some a /\
         st' = setCollection m
                 (<[userId := UserModel.sessionWrite m now None a]> (collection m st))
                 st)) /\
  (forall m now v a,
      let a' := UserModel.sessionWrite m now v a in
      let changed := negb (bool_decide (sessionId a = v)) in
      outsideSession a' = outsideSession a /\
      sessionId a' = v /\
      updatedAt a' = (if changed then now else updatedAt a) /\
      profileCompletionStatus a'
      = match m with
        | User => ProfileCompletion.calculateProfileCompletion
                    (profile a) (profileCompletionStatus a)
        | Admin => profileCompletionStatus a
        end /\
      lastActiveAt a'
      = match m with
        | User => lastActiveAt a
        | Admin => if changed && UserModel.hasSession (withSessionId v a)
                   then Some now else lastActiveAt a
        end) /\
  (forall now doc,
      isModified "passwordHash" doc = false ->
      UserModel.preSave L env now doc = Returned doc) /\
  (forall m id a v,
      isModified "passwordHash" (Mongoose.setSessionId v (mkDocument m id a [])) = false).
Proof.
  split; [| split; [| split; [| split]]].
  - intros db now src tok st pair st' H.
    apply refreshTokens_Returned in H as (d & a & Hd & _ & Ha & _ & -> & _).
    split.
    + unfold sameOutsideSession.
      eapply (update_frame outsideSession); [exact Ha | apply sessionWrite_outside].
    + exists d, a. cbv zeta. auto.
  - intros db now userId userType st.
    pose proof (revokeSession_cases L env db now userId userType st) as Hc.
    cbv zeta in Hc |- *.
    set (m := if String.eqb userType "admin" then Admin else User) in *.
    destruct (findFault db m (ById userId)).
    { rewrite Hc. cbn [snd]. split; [apply sameOutsideSession_refl | now left]. }
    destruct (collection m st !! userId) as [a |] eqn:Ha.
    2:{ rewrite Hc. cbn [snd]. split; [apply sameOutsideSession_refl | now left]. }
    destruct Hc as [-> | ->]; cbn [snd].
    + split; [apply sameOutsideSession_refl | now left].
    + split.
      * unfold sameOutsideSession.
        eapply (update_frame outsideSession); [exact Ha | apply sessionWrite_outside].
      * right. eauto.
  - intros m now v a. cbv zeta.
    split; [apply sessionWrite_outside |]. split; [apply sessionWrite_sessionId |].
    unfold UserModel.sessionWrite, UserModel.afterHooks.
    destruct m, (negb (bool_decide (sessionId a = v)));
      cbn -[UserModel.hasSession ProfileCompletion.calculateProfileCompletion];
      repeat split;
      match goal with
      | |- context [UserModel.hasSession ?x] =>
          change (UserModel.hasSession x) with (UserModel.hasSession (withSessionId v a));
          destruct (UserModel.hasSession (withSessionId v a)); reflexivity
      | _ => idtac
      end.
  - intros now doc Hm. unfold UserModel.preSave. now rewrite Hm.
  - intros m id a v. unfold Mongoose.setSessionId, Mongoose.assign, isModified.
    cbn [fields modifiedPaths]. destruct (negb _); reflexivity.
Qed.

(** Witness of C10: Alice's refresh, and the hook on her document after
    a new session identifier was assigned. *)
Lemma C10_session_ops_keep_credential_witness :
  sameOutsideSession Sample.aliceStore
    (snd (AuthService.refreshTokens Sample.library Sample.env Sample.database 5
            Sample.bytes "alice.refresh" Sample.aliceStore)) /\
  UserModel.preSave Sample.library Sample.env 5
    (UserModel.generateSessionId Sample.bytes Sample.aliceDoc)
  = Returned (UserModel.generateSessionId Sample.bytes Sample.aliceDoc).
Proof.
  split.
  - exact (proj1 (proj1 (C10_session_ops_keep_credential Sample.library Sample.env)
                    Sample.database 5 Sample.bytes "alice.refresh" Sample.aliceStore
                    _ _ eq_refl)).
  - apply (proj1 (proj2 (proj2 (proj2
             (C10_session_ops_keep_credential Sample.library Sample.env))))).
    reflexivity.
Defined.

(** C10, as first stated, fails: the session identifier is not the only
    path a rotation writes.  Alice's refresh at time 5 succeeds and moves
    her [updatedAt] from 0 to 5; the refresh of the administrator's
    session moves both [updatedAt] and [lastActiveAt] from 0 to 5.  The
    password hash stays in both cases. *)
Lemma C10_counterexample :
  let r := AuthService.refreshTokens Sample.library Sample.env Sample.database 5
             Sample.bytes "alice.refresh" Sample.aliceStore in
  let r' := AuthService.refreshTokens Sample.library Sample.env Sample.database 5
              Sample.bytes "root.refresh" Sample.rootStore in
  ((exists pair, fst r = Returned pair) /\
   updatedAt <$> (users Sample.aliceStore !! Sample.aliceId) = Some 0 /\
   updatedAt <$> (users (snd r) !! Sample.aliceId) = Some 5 /\
   passwordHash <$> (users (snd r) !! Sample.aliceId) = Some (passwordHash Sample.alice) /\
   ~ sameExceptSession Sample.aliceStore (snd r)) /\
  ((exists pair, fst r' = Returned pair) /\
   lastActiveAt <$> (admins Sample.rootStore !! Sample.rootId) = Some (Some 0) /\
   lastActiveAt <$> (admins (snd r') !! Sample.rootId) = Some (Some 5) /\
   updatedAt <$> (admins (snd r') !! Sample.rootId) = Some 5 /\
   passwordHash <$> (admins (snd r') !! Sample.rootId) = Some (passwordHash Sample.root) /\
   ~ sameExceptSession Sample.rootStore (snd r')).
Proof.
  cbv zeta. split.
  - split; [eexists; reflexivity |].
    repeat (split; [reflexivity |]).
    intros H. specialize (H User Sample.aliceId). vm_compute in H. discriminate H.
  - split; [eexists; reflexivity |].
    repeat (split; [reflexivity |]).
    intros H. specialize (H Admin Sample.rootId). vm_compute in H. discriminate H.
Qed.




End SessionFacts.
(* --------------------------------------------------------------------- *)
(** ** Password verification *)
(* --------------------------------------------------------------------- *)

Module VerifyFacts.

(** C9: both password verifiers are total.  Whatever the arguments and
    whatever the hashing library does, they return a boolean and never
    throw; they return [false] when an argument is malformed (not a
    string, or empty) and when the library throws, and otherwise the
    library's verdict. *)
Theorem C9_verify_total L :
  (forall password hash,
      (exists b, PasswordService.verifyPassword L password hash = Returned b) /\
      (PasswordService.wellFormed password && PasswordService.wellFormed hash = false ->
         PasswordService.verifyPassword L password hash = Returned false) /\
      (forall e, bcrypt_compare L password hash = Thrown e ->
         PasswordService.verifyPassword L password hash = Returned false) /\
      (forall b, PasswordService.wellFormed password && PasswordService.wellFormed hash = true ->
         bcrypt_compare L password hash = Returned b ->
         PasswordService.verifyPassword L password hash = Returned b)) /\
  (forall doc candidate,
      (exists b, UserModel.verifyPassword L doc candidate = Returned b) /\
      (truthy candidate && negb (String.eqb (passwordHash (fields doc)) "") = false ->
         UserModel.verifyPassword L doc candidate = Returned false) /\
      (forall e, bcrypt_compare L candidate (JsString (passwordHash (fields doc))) = Thrown e ->
         UserModel.verifyPassword L doc candidate = Returned false)).
Proof.
  split.
  - intros password hash. unfold PasswordService.verifyPassword, PasswordService.wellFormed.
    destruct (truthy password), (truthy hash), (isString password), (isString hash);
      cbn [negb orb andb];
      try (repeat split; eauto; try discriminate; fail);
      destruct (bcrypt_compare L password hash) as [b | e];
      repeat split; eauto; try discriminate; try congruence.
  - intros doc candidate. unfold UserModel.verifyPassword. cbn [truthy].
    destruct (truthy candidate), (String.eqb (passwordHash (fields doc)) "");
      cbn [negb orb andb];
      try (repeat split; eauto; try discriminate; fail);
      destruct (bcrypt_compare L candidate (JsString (passwordHash (fields doc))))
        as [b | e];
      repeat split; eauto; try discriminate; try congruence.
Qed.

(** Witness of C9: a number offered as a password, and a library that
    throws on it. *)
Lemma C9_verify_total_witness :
  PasswordService.verifyPassword Sample.library (JsNumber 42) (JsString "$2a$12$x")
    = Returned false /\
  UserModel.verifyPassword Sample.library Sample.aliceDoc (JsNumber 42) = Returned false.
Proof.
  split.
  - apply (proj1 (proj2 (proj1 (C9_verify_total Sample.library) (JsNumber 42)
                           (JsString "$2a$12$x")))).
    reflexivity.
  - apply (proj2 (proj2 (proj2 (C9_verify_total Sample.library) Sample.aliceDoc
                           (JsNumber 42))) (Error "Illegal arguments")).
    reflexivity.
Defined.

End VerifyFacts.

(* --------------------------------------------------------------------- *)
(** ** Login *)
(* --------------------------------------------------------------------- *)

Module LoginFacts.

(** C6: a login that fails because no account has the e-mail address and
    a login that fails because the password does not verify end with the
    same error; and when both credentials are present that error is the
    one for invalid credentials, with the store untouched. *)
Theorem C6_login_failures_indistinguishable L env db1 db2 now src c st1 st2 user :
  UserModel.findByEmail db1 (cred_email c) st1 = Returned None ->
  UserModel.findByEmail db2 (cred_email c) st2 = Returned (Some user) ->
  UserModel.verifyPassword L user (cred_password c) = Returned false ->
  fst (UserService.authenticateUser L env db1 now src c st1)
  = fst (UserService.authenticateUser L env db2 now src c st2) /\
  (cred_email c <> "" -> truthy (cred_password c) = true ->
   UserService.authenticateUser L env db1 now src c st1
     = (Thrown UserService.invalidCredentials, st1) /\
   UserService.authenticateUser L env db2 now src c st2
     = (Thrown UserService.invalidCredentials, st2)).
Proof.
  intros H1 H2 Hv.
  unfold UserService.authenticateUser, UserService.authenticate.
  rewrite H1, H2, Hv.
  destruct (String.eqb (cred_email c) "") eqn:He.
  - apply String.eqb_eq in He. split; [reflexivity | intros Hne _; contradiction].
  - destruct (truthy (cred_password c)); cbn [negb orb fst].
    + split; [reflexivity | intros _ _; split; reflexivity].
    + split; [reflexivity | intros _ Ht; discriminate Ht].
Qed.

(** Witness of C6: Alice's address with a wrong password, against a store
    without her and a store with her. *)
Lemma C6_login_failures_indistinguishable_witness :
  fst (UserService.authenticateUser Sample.library Sample.env Sample.database 0
         Sample.bytes (mkCredentials "alice@example.com" (JsString "guess") false)
         (mkStore ∅ ∅))
  = fst (UserService.authenticateUser Sample.library Sample.env Sample.database 0
           Sample.bytes (mkCredentials "alice@example.com" (JsString "guess") false)
           Sample.aliceStore).
Proof.
  apply (C6_login_failures_indistinguishable Sample.library Sample.env
           Sample.database Sample.database 0 Sample.bytes
           (mkCredentials "alice@example.com" (JsString "guess") false)
           (mkStore ∅ ∅) Sample.aliceStore Sample.aliceDoc); reflexivity.
Defined.

End LoginFacts.

(* --------------------------------------------------------------------- *)
(** ** Password reset routes *)
(* --------------------------------------------------------------------- *)

Module RouteFacts.

(** The reset verifier on its own does what the reset flow needs: it
    returns the payload of a token that verifies under the reset audience
    and carries the reset purpose, reports an expired token as such, and
    reports every other failure as an invalid token. *)
Lemma verifyResetToken_cases L env now token :
  match jwt_verify L now token (JWT_ACCESS_SECRET env)
          (Some ("uniapply-hub", "uniapply-hub-reset")) with
  | Returned d =>
      if bool_decide (p_purpose d = Some "password_reset")
      then AuthService.verifyResetToken L env now token = Returned d
      else AuthService.verifyResetToken L env now token
           = Thrown (Error "INVALID_RESET_TOKEN")
  | Thrown e =>
      if String.eqb (err_name e) "TokenExpiredError"
      then AuthService.verifyResetToken L env now token
           = Thrown (Error "RESET_TOKEN_EXPIRED")
      else AuthService.verifyResetToken L env now token
           = Thrown (Error "INVALID_RESET_TOKEN")
  end.
Proof.
  unfold AuthService.verifyResetToken, AuthService.accessTokenSecret.
  destruct (jwt_verify L now token _ _) as [d | e].
  - destruct (bool_decide (p_purpose d = Some "password_reset")); reflexivity.
  - destruct (String.eqb (err_name e) "TokenExpiredError"); reflexivity.
Qed.

(** C4: the reset-password route answers with success for a token that
    the reset verifier rejects and a password that the scorer rejects,
    and no request to it ever changes the store: no password hash is
    replaced and no session identifier is rotated. *)
Theorem C4_reset_route_skips_verification :
  AuthService.verifyResetToken Sample.library Sample.env 0 "garbage"
    = Thrown (Error "INVALID_RESET_TOKEN") /\
  PasswordService.isValid
    (PasswordService.validatePasswordStrength (JsString "Password1")
       PasswordService.noUserInfo) = false /\
  Routes.resetPassword "garbage" "Password1" Sample.world
    = (Replied (mkResponse 200 true "Password reset successfully" None []),
       Sample.world) /\
  (forall token newPassword w, snd (Routes.resetPassword token newPassword w) = w).
Proof.
  repeat split; try reflexivity.
  intros token newPassword w. unfold Routes.resetPassword.
  destruct (_ ++ _)%list; reflexivity.
Qed.

(** C5: the forgot-password route never answers with success and never
    hands anything to the email service.  For a well-formed address,
    whether of an existing account or not, the lookup through the unbound
    identifier [User] throws a ReferenceError, which goes to the error
    handler; the outbox is the same after every request. *)
Theorem C5_forgot_route_sends_nothing :
  UserModel.findByEmail Sample.database "alice@example.com" Sample.aliceStore
    = Returned (Some Sample.aliceDoc) /\
  Routes.forgotPassword Sample.library Sample.database "alice@example.com" Sample.world
    = (Forwarded (mkError "ReferenceError" "User is not defined" None None None),
       Sample.world) /\
  UserModel.findByEmail Sample.database "ghost@nowhere.test" Sample.aliceStore
    = Returned None /\
  Routes.forgotPassword Sample.library Sample.database "ghost@nowhere.test" Sample.world
    = (Forwarded (mkError "ReferenceError" "User is not defined" None None None),
       Sample.world) /\
  (forall L db bodyEmail w,
      succeeded (fst (Routes.forgotPassword L db bodyEmail w)) = false /\
      outbox (snd (Routes.forgotPassword L db bodyEmail w)) = outbox w).
Proof.
  repeat split; try reflexivity;
    unfold Routes.forgotPassword; destruct (Routes.check _ _ _); reflexivity.
Qed.

End RouteFacts.

(* --------------------------------------------------------------------- *)
(** ** The password generator in general *)
(* --------------------------------------------------------------------- *)

Module GeneratorFacts.
Import PasswordService PasswordTools.

Lemma chars_app (a b : string) : chars (a ++ b) = (chars a ++ chars b)%list.
Proof.
  unfold chars. induction a as [| c a IH]; [reflexivity |].
  change (list_ascii_of_string (String c a ++ b))
    with (c :: list_ascii_of_string (a ++ b)).
  now rewrite IH.
Qed.

Lemma length_chars (s : string) : List.length (chars s) = String.length s.
Proof. unfold chars. induction s as [| c s IH]; cbn; [reflexivity | now rewrite IH]. Qed.

Lemma eqb_empty (s : string) : String.eqb s "" = false <-> s <> "".
Proof. apply String.eqb_neq. Qed.

(** A drawn character belongs to the string it is drawn from. *)
Lemma charAt_elem (s : string) tape pos :
  s <> "" -> charAt s (randomInt tape pos (String.length s)) ∈ chars s.
Proof.
  intros Hne. unfold charAt, randomInt. apply list_elem_of_In, nth_In.
  rewrite length_chars. apply Nat.mod_upper_bound.
  destruct s; [congruence | cbn; lia].
Qed.

Lemma generate_returns tape o :
  8 <= opt_length o <= 128 -> buildCharset o <> "" ->
  generateSecurePassword tape o = Returned (join (fst (generatorRun tape o))).
Proof.
  intros Hlen Hcs. unfold generateSecurePassword, generatorRun.
  replace (opt_length o <? Z.of_nat minPasswordLength) with false
    by (symmetry; apply Z.ltb_ge; unfold minPasswordLength; lia).
  replace (Z.of_nat maxPasswordLength <? opt_length o) with false
    by (symmetry; apply Z.ltb_ge; unfold maxPasswordLength; lia).
  cbn [orb]. apply eqb_empty in Hcs. rewrite Hcs. reflexivity.
Qed.

Lemma pushIf_length b tape s st :
  List.length (fst (pushIf b tape s st)) =
  (List.length (fst st) + (if b then 1 else 0))%nat.
Proof.
  destruct st as [arr pos], b; cbn; [rewrite length_app; cbn |]; lia.
Qed.

Lemma pushIf_keeps b tape s st x :
  x ∈ fst st -> x ∈ fst (pushIf b tape s st).
Proof.
  destruct st as [arr pos], b; cbn; [| auto]. intros H. apply elem_of_app. now left.
Qed.

Lemma pushIf_adds tape s st :
  s <> "" -> exists c, c ∈ chars s /\ c ∈ fst (pushIf true tape s st).
Proof.
  intros Hne. destruct st as [arr pos]. eexists. split; [now apply charAt_elem |].
  cbn. apply elem_of_app. right. apply list_elem_of_singleton. reflexivity.
Qed.

Lemma pushIf_inv b tape s st x :
  s <> "" -> x ∈ fst (pushIf b tape s st) -> x ∈ fst st \/ b = true /\ x ∈ chars s.
Proof.
  intros Hne. destruct st as [arr pos], b; cbn; [| auto].
  intros [H | H]%elem_of_app; [now left | right].
  apply list_elem_of_singleton in H. subst x. split; [reflexivity |].
  now apply charAt_elem.
Qed.

Lemma requiredChars_length tape o :
  (List.length (fst (requiredChars tape o)) <= 4)%nat.
Proof.
  unfold requiredChars. rewrite !pushIf_length. cbn [fst List.length].
  destruct (includeLowercase o), (includeUppercase o), (includeNumbers o),
    (includeSpecialChars o); lia.
Qed.

Lemma generatorRun_length tape o :
  8 <= opt_length o ->
  List.length (fst (generatorRun tape o)) = Z.to_nat (opt_length o).
Proof.
  intros Hlen. unfold generatorRun. cbv zeta.
  rewrite PasswordFacts.shuffle_length, PasswordFacts.fill_length.
  pose proof (requiredChars_length tape o). lia.
Qed.

Lemma class_nonempty excl :
  lowerChars excl <> "" /\ upperChars excl <> "" /\
  numberChars excl <> "" /\ specialChars excl <> "".
Proof. destruct excl; repeat split; discriminate. Qed.

(** Each requested class contributes one of its characters. *)
Lemma requiredChars_has tape o :
  (includeLowercase o = true ->
     exists c, c ∈ chars (lowerChars (excludeSimilar o)) /\ c ∈ fst (requiredChars tape o)) /\
  (includeUppercase o = true ->
     exists c, c ∈ chars (upperChars (excludeSimilar o)) /\ c ∈ fst (requiredChars tape o)) /\
  (includeNumbers o = true ->
     exists c, c ∈ chars (numberChars (excludeSimilar o)) /\ c ∈ fst (requiredChars tape o)) /\
  (includeSpecialChars o = true ->
     exists c, c ∈ chars (specialChars (excludeSimilar o)) /\ c ∈ fst (requiredChars tape o)).
Proof.
  destruct (class_nonempty (excludeSimilar o)) as (Hl & Hu & Hn & Hs).
  unfold requiredChars. cbv zeta.
  repeat split; intros Hb; rewrite Hb.
  - destruct (pushIf_adds tape _ ([], 0%nat) Hl) as (c & Hc & Hin).
    exists c. split; [exact Hc |]. now do 3 apply pushIf_keeps.
  - match goal with |- context [pushIf true tape (upperChars _) ?st] =>
      destruct (pushIf_adds tape _ st Hu) as (c & Hc & Hin) end.
    exists c. split; [exact Hc |]. now do 2 apply pushIf_keeps.
  - match goal with |- context [pushIf true tape (numberChars _) ?st] =>
      destruct (pushIf_adds tape _ st Hn) as (c & Hc & Hin) end.
    exists c. split; [exact Hc |]. now apply pushIf_keeps.
  - match goal with |- context [pushIf true tape (specialChars _) ?st] =>
      destruct (pushIf_adds tape _ st Hs) as (c & Hc & Hin) end.
    exists c. split; [exact Hc |]. exact Hin.
Qed.

Lemma generatorRun_keeps tape o x :
  x ∈ fst (requiredChars tape o) -> x ∈ fst (generatorRun tape o).
Proof.
  intros H. unfold generatorRun. cbv zeta.
  apply PasswordFacts.shuffle_elem. now apply PasswordFacts.fill_elem.
Qed.

Lemma class_test (P : ascii -> bool) (s : string) (l : list ascii) :
  forallb P (chars s) = true ->
  (exists c, c ∈ chars s /\ c ∈ l) -> existsb P l = true.
Proof.
  intros Hall (c & Hc & Hin). apply PasswordFacts.existsb_elem. exists c. split; [exact Hin |].
  rewrite forallb_forall in Hall. apply Hall. now apply list_elem_of_In.
Qed.

Lemma generate_length tape o :
  8 <= opt_length o <= 128 -> buildCharset o <> "" ->
  exists pw, generateSecurePassword tape o = Returned pw /\
             String.length pw = Z.to_nat (opt_length o).
Proof.
  intros Hlen Hcs. eexists. split; [now apply generate_returns |].
  rewrite PasswordFacts.length_join. apply generatorRun_length. lia.
Qed.

(** X1: For every draw of the random source and every option set whose
    length lies between 8 and 128 and whose character set is not empty,
    [generateSecurePassword] returns a password of exactly the requested
    length that holds a lowercase letter, an uppercase letter, a digit
    and a character of the generator's special set, for each of the
    classes that was requested -- also when a custom character set
    holds no such character. *)
Theorem generate_meets_request (tape : Tape) (o : GenOptions) :
  8 <= opt_length o <= 128 ->
  buildCharset o <> "" ->
  exists pw,
    generateSecurePassword tape o = Returned pw /\
    String.length pw = Z.to_nat (opt_length o) /\
    (includeLowercase o = true -> hasLower pw = true) /\
    (includeUppercase o = true -> hasUpper pw = true) /\
    (includeNumbers o = true -> hasDigit pw = true) /\
    (includeSpecialChars o = true ->
       exists c, c ∈ chars pw /\ c ∈ chars (specialChars (excludeSimilar o))).
Proof.
  intros Hlen Hcs. eexists. split; [now apply generate_returns |].
  rewrite PasswordFacts.length_join. split; [apply generatorRun_length; lia |].
  unfold hasLower, hasUpper, hasDigit. rewrite PasswordFacts.chars_join.
  destruct (requiredChars_has tape o) as (Hl & Hu & Hn & Hs).
  repeat split; intros Hb.
  - apply (class_test _ (lowerChars (excludeSimilar o)));
      [destruct (excludeSimilar o); reflexivity |].
    destruct (Hl Hb) as (c & Hc & Hin). exists c. split; [exact Hc |].
    now apply generatorRun_keeps.
  - apply (class_test _ (upperChars (excludeSimilar o)));
      [destruct (excludeSimilar o); reflexivity |].
    destruct (Hu Hb) as (c & Hc & Hin). exists c. split; [exact Hc |].
    now apply generatorRun_keeps.
  - apply (class_test _ (numberChars (excludeSimilar o)));
      [destruct (excludeSimilar o); reflexivity |].
    destruct (Hn Hb) as (c & Hc & Hin). exists c. split; [exact Hc |].
    now apply generatorRun_keeps.
  - destruct (Hs Hb) as (c & Hc & Hin). exists c. split; [| exact Hc].
    now apply generatorRun_keeps.
Qed.

Lemma generate_meets_request_witness :
  exists pw,
    generateSecurePassword (fun n => n) (mkGenOptions 12 true true true false true (Some "xyz"))
      = Returned pw /\
    String.length pw = 12%nat /\
    hasLower pw = true /\ hasUpper pw = true /\ hasDigit pw = true.
Proof.
  destruct (generate_meets_request (fun n => n)
              (mkGenOptions 12 true true true false true (Some "xyz")))
    as (pw & H & Hlen & Hl & Hu & Hn & _).
  - cbn. lia.
  - cbn. discriminate.
  - exists pw. repeat split; auto.
Defined.

Lemma generate_inv tape o pw :
  generateSecurePassword tape o = Returned pw ->
  8 <= opt_length o <= 128 /\ buildCharset o <> "" /\
  pw = join (fst (generatorRun tape o)).
Proof.
  unfold generateSecurePassword, generatorRun.
  destruct (Z.ltb_spec (opt_length o) (Z.of_nat minPasswordLength)) as [Hlo | Hlo];
    [discriminate |].
  destruct (Z.ltb_spec (Z.of_nat maxPasswordLength) (opt_length o)) as [Hhi | Hhi];
    [discriminate |].
  cbn [orb]. destruct (String.eqb_spec (buildCharset o) "") as [Hcs | Hcs];
    [discriminate |].
  intros [= <-]. unfold minPasswordLength, maxPasswordLength in *.
  repeat split; auto; lia.
Qed.

(** The character set is empty exactly when no class is requested and
    there is no custom set, or an empty one. *)
Lemma buildCharset_empty o :
  buildCharset o = "" <->
  (customCharset o = None \/ customCharset o = Some "") /\
  includeLowercase o = false /\ includeUppercase o = false /\
  includeNumbers o = false /\ includeSpecialChars o = false.
Proof.
  assert (Hstd : standardCharset o = "" <->
    includeLowercase o = false /\ includeUppercase o = false /\
    includeNumbers o = false /\ includeSpecialChars o = false).
  { unfold standardCharset.
    destruct (includeLowercase o), (includeUppercase o), (includeNumbers o),
      (includeSpecialChars o), (excludeSimilar o); cbn;
      split; try discriminate; try tauto; intros (? & ? & ? & ?); discriminate. }
  unfold buildCharset. destruct (customCharset o) as [c |].
  - destruct (String.eqb c "") eqn:Hc.
    + apply String.eqb_eq in Hc. subst c. rewrite Hstd. tauto.
    + apply String.eqb_neq in Hc. split; [congruence |].
      intros [[H | H] _]; congruence.
  - rewrite Hstd. tauto.
Qed.

(** X2: [generateSecurePassword] throws in two cases only: with the
    length message when the length is below 8 or above 128, and
    otherwise with the character-type message when no class is requested
    and the custom character set is absent or empty.  A non-empty custom
    set is enough on its own: with every class switched off the call
    returns. *)
Theorem generate_outcomes (tape : Tape) (o : GenOptions) :
  let noClass :=
    (customCharset o = None \/ customCharset o = Some "") /\
    includeLowercase o = false /\ includeUppercase o = false /\
    includeNumbers o = false /\ includeSpecialChars o = false in
  match generateSecurePassword tape o with
  | Thrown e =>
      (e = Error "Password length must be between 8 and 128" /\
       (opt_length o < 8 \/ 128 < opt_length o)) \/
      (e = Error "At least one character type must be included" /\
       8 <= opt_length o <= 128 /\ noClass)
  | Returned pw =>
      8 <= opt_length o <= 128 /\ ~ noClass /\
      String.length pw = Z.to_nat (opt_length o)
  end.
Proof.
  cbv zeta. pose proof (buildCharset_empty o) as Hbe.
  destruct (Z_lt_dec (opt_length o) 8) as [Hlo | Hlo];
    [| destruct (Z_lt_dec 128 (opt_length o)) as [Hhi | Hhi]].
  - unfold generateSecurePassword.
    replace (opt_length o <? Z.of_nat minPasswordLength) with true
      by (symmetry; apply Z.ltb_lt; unfold minPasswordLength; lia).
    cbn [orb]. left. split; [reflexivity | lia].
  - unfold generateSecurePassword.
    replace (Z.of_nat maxPasswordLength <? opt_length o) with true
      by (symmetry; apply Z.ltb_lt; unfold maxPasswordLength; lia).
    rewrite orb_true_r. left. split; [reflexivity | lia].
  - destruct (String.eqb (buildCharset o) "") eqn:Hcs.
    + unfold generateSecurePassword.
      replace (opt_length o <? Z.of_nat minPasswordLength) with false
        by (symmetry; apply Z.ltb_ge; unfold minPasswordLength; lia).
      replace (Z.of_nat maxPasswordLength <? opt_length o) with false
        by (symmetry; apply Z.ltb_ge; unfold maxPasswordLength; lia).
      cbn [orb]. rewrite Hcs. right. apply String.eqb_eq in Hcs.
      split; [reflexivity |]. split; [lia | now apply Hbe].
    + apply String.eqb_neq in Hcs.
      rewrite generate_returns by (auto; lia).
      split; [lia |]. split; [intros Hn; now apply Hcs, Hbe |].
      rewrite PasswordFacts.length_join. apply generatorRun_length. lia.
Qed.

Lemma fill_inv tape cs n st x :
  cs <> "" -> x ∈ fst (fill tape cs n st) -> x ∈ fst st \/ x ∈ chars cs.
Proof.
  intros Hne. revert st. induction n as [| n IH]; intros [arr pos] H; cbn [fill] in H;
    [now left |].
  apply IH in H. destruct H as [H | H]; [| now right].
  cbn [pushRandom fst] in H. apply elem_of_app in H. destruct H as [H | H]; [now left |].
  apply list_elem_of_singleton in H. subst x. right. now apply charAt_elem.
Qed.

Lemma requiredChars_inv tape o x :
  x ∈ fst (requiredChars tape o) -> x ∈ chars (standardCharset o).
Proof.
  destruct (class_nonempty (excludeSimilar o)) as (Hl & Hu & Hn & Hs).
  unfold requiredChars, standardCharset. cbv zeta. rewrite !chars_app, !elem_of_app.
  intros H.
  apply (pushIf_inv _ _ _ _ _ Hs) in H. destruct H as [H | [Hb H]];
    [| rewrite Hb; tauto].
  apply (pushIf_inv _ _ _ _ _ Hn) in H. destruct H as [H | [Hb H]];
    [| rewrite Hb; tauto].
  apply (pushIf_inv _ _ _ _ _ Hu) in H. destruct H as [H | [Hb H]];
    [| rewrite Hb; tauto].
  apply (pushIf_inv _ _ _ _ _ Hl) in H. destruct H as [H | [Hb H]];
    [| rewrite Hb; tauto].
  cbn in H. now apply elem_of_nil in H.
Qed.

Lemma generatorRun_inv tape o x :
  buildCharset o <> "" ->
  x ∈ fst (generatorRun tape o) ->
  x ∈ chars (standardCharset o) \/ x ∈ chars (buildCharset o).
Proof.
  intros Hne H. unfold generatorRun in H. cbv zeta in H.
  rewrite PasswordFacts.shuffle_elem in H. apply (fill_inv _ _ _ _ _ Hne) in H.
  destruct H as [H | H]; [left; now apply (requiredChars_inv tape) | now right].
Qed.

Lemma standard_avoids_similar o :
  excludeSimilar o = true ->
  forallb (fun c => negb (existsb (ascii_eqb c) similarLooking))
    (chars (standardCharset o)) = true.
Proof.
  intros He. unfold standardCharset. rewrite He.
  destruct (includeLowercase o), (includeUppercase o), (includeNumbers o),
    (includeSpecialChars o); vm_compute; reflexivity.
Qed.

(** Without a custom set every generated character is of the standard
    set. *)
Lemma generate_standard tape o pw :
  customCharset o = None ->
  generateSecurePassword tape o = Returned pw ->
  forall c, c ∈ chars pw -> c ∈ chars (standardCharset o).
Proof.
  intros Hcustom Hgen. apply generate_inv in Hgen. destruct Hgen as (_ & Hcs & ->).
  rewrite PasswordFacts.chars_join.
  intros c Hc. apply generatorRun_inv in Hc; [| exact Hcs].
  unfold buildCharset in Hc. rewrite Hcustom in Hc. tauto.
Qed.

(** X3: Without a custom character set, every character of a generated
    password belongs to the set assembled from the requested classes;
    with [excludeSimilar] (the default) none of the look-alike
    characters i, l, o, I, L, O, 0, 1 occurs in it. *)
Theorem generate_alphabet (tape : Tape) (o : GenOptions) (pw : string) :
  customCharset o = None ->
  generateSecurePassword tape o = Returned pw ->
  (forall c, c ∈ chars pw -> c ∈ chars (standardCharset o)) /\
  (excludeSimilar o = true -> forall c, c ∈ chars pw -> c ∉ similarLooking).
Proof.
  intros Hcustom Hgen.
  pose proof (generate_standard tape o pw Hcustom Hgen) as Hall.
  split; [exact Hall |].
  intros He c Hc Hsim. apply Hall in Hc.
  pose proof (standard_avoids_similar o He) as Hav. rewrite forallb_forall in Hav.
  apply list_elem_of_In in Hc. apply Hav in Hc. apply negb_true_iff in Hc.
  assert (existsb (ascii_eqb c) similarLooking = true); [| congruence].
  apply existsb_exists. exists c. split; [now apply list_elem_of_In |].
  apply Ascii.eqb_refl.
Qed.

Lemma generate_alphabet_witness :
  Forall (fun c => c ∉ similarLooking) (chars "A2aaaaaaaaaa").
Proof.
  apply Forall_forall.
  apply (generate_alphabet (fun _ => 0%nat)
           (mkGenOptions 12 true true true false true None) "A2aaaaaaaaaa");
    reflexivity.
Defined.

(** Exchanging two cells rearranges the array. *)
Lemma insert_head_perm (l : list ascii) j x y :
  l !! j = Some y -> y :: <[j:=x]> l ≡ₚ x :: l.
Proof.
  revert j. induction l as [| a l IH]; intros [| j] H; cbn in *; try discriminate.
  - injection H as ->. apply perm_swap.
  - rewrite (perm_swap a y). rewrite (IH j H). apply perm_swap.
Qed.

Lemma swap_perm (arr : list ascii) i j : swap arr i j ≡ₚ arr.
Proof.
  revert i j. induction arr as [| a l IH]; intros i j; [now destruct i, j |].
  unfold swap. destruct i as [| i], j as [| j]; cbn.
  - reflexivity.
  - destruct (l !! j) as [aj |] eqn:Hj; [| reflexivity]. cbn.
    now apply insert_head_perm.
  - destruct (l !! i) as [ai |] eqn:Hi; [| reflexivity]. cbn.
    now apply insert_head_perm.
  - specialize (IH i j). unfold swap in IH.
    destruct (l !! i) as [ai |], (l !! j) as [aj |]; try reflexivity.
    cbn. now rewrite IH.
Qed.

Lemma shuffle_perm tape i st : fst (shuffle tape i st) ≡ₚ fst st.
Proof.
  revert st. induction i as [| i IH]; intros [arr pos]; [reflexivity |].
  cbn [shuffle]. rewrite IH. cbn [fst]. apply swap_perm.
Qed.

(** The fill loop appends [n] characters of the character set. *)
Lemma fill_app tape cs n st :
  cs <> "" ->
  exists more,
    fst (fill tape cs n st) = (fst st ++ more)%list /\
    List.length more = n /\ forall c, c ∈ more -> c ∈ chars cs.
Proof.
  intros Hne. revert st. induction n as [| n IH]; intros [arr pos]; cbn [fill].
  - exists []. rewrite app_nil_r. repeat split; auto. intros c Hc. now apply elem_of_nil in Hc.
  - destruct (IH (pushRandom tape cs (arr, pos))) as (more & Heq & Hlen & Hin).
    exists (charAt cs (randomInt tape pos (String.length cs)) :: more).
    rewrite Heq. cbn [pushRandom fst]. rewrite <- app_assoc. cbn.
    repeat split; [now rewrite Hlen |].
    intros c [-> | Hc]%elem_of_cons; [now apply charAt_elem | auto].
Qed.

(** X4: A generated password is a rearrangement of the characters drawn:
    one per requested class, followed by characters of the character set
    up to the requested length.  The shuffle neither loses nor repeats a
    drawn character. *)
Theorem generate_is_rearrangement (tape : Tape) (o : GenOptions) (pw : string) :
  generateSecurePassword tape o = Returned pw ->
  exists more,
    chars pw ≡ₚ (fst (requiredChars tape o) ++ more)%list /\
    (List.length (fst (requiredChars tape o)) + List.length more)%nat
      = Z.to_nat (opt_length o) /\
    forall c, c ∈ more -> c ∈ chars (buildCharset o).
Proof.
  intros Hgen. apply generate_inv in Hgen. destruct Hgen as (Hlen & Hcs & ->).
  rewrite PasswordFacts.chars_join. unfold generatorRun. cbv zeta.
  destruct (fill_app tape (buildCharset o)
              (Z.to_nat (opt_length o) - List.length (fst (requiredChars tape o)))
              (requiredChars tape o) Hcs) as (more & Heq & Hl & Hin).
  exists more. split; [| split; [| exact Hin]].
  - rewrite shuffle_perm. now rewrite Heq.
  - rewrite Hl. pose proof (requiredChars_length tape o). lia.
Qed.

Lemma generate_is_rearrangement_witness :
  exists more,
    chars "A2aaaaaaaaaa" ≡ₚ
      (fst (requiredChars (fun _ => 0%nat)
              (mkGenOptions 12 true true true false true None)) ++ more)%list /\
    (List.length (fst (requiredChars (fun _ => 0%nat)
              (mkGenOptions 12 true true true false true None))) + List.length more)%nat
      = 12%nat /\
    forall c, c ∈ more ->
      c ∈ chars (buildCharset (mkGenOptions 12 true true true false true None)).
Proof.
  apply (generate_is_rearrangement (fun _ => 0%nat)
           (mkGenOptions 12 true true true false true None) "A2aaaaaaaaaa").
  reflexivity.
Defined.

End GeneratorFacts.

(* --------------------------------------------------------------------- *)
(** ** Password suggestions *)
(* --------------------------------------------------------------------- *)

Module SuggestionFacts.
Import PasswordService PasswordTools.

Lemma variation_cases o i :
  let v := nth (i mod 3) (variations o) o in
  ((i mod 3 = 0)%nat /\
   v = mkGenOptions 12 (includeUppercase o) (includeLowercase o) (includeNumbers o)
         false (excludeSimilar o) (customCharset o)) \/
  ((i mod 3 = 1)%nat /\
   v = mkGenOptions 16 (includeUppercase o) (includeLowercase o) (includeNumbers o)
         true (excludeSimilar o) (customCharset o)) \/
  ((i mod 3 = 2)%nat /\
   v = mkGenOptions 20 (includeUppercase o) (includeLowercase o) (includeNumbers o)
         true false (customCharset o)).
Proof.
  cbv zeta. pose proof (Nat.mod_upper_bound i 3 ltac:(lia)) as Hlt.
  destruct (i mod 3)%nat as [| [| [| n]]]; [| | | lia]; cbn; auto.
Qed.

Lemma variation_length o i :
  opt_length (nth (i mod 3) (variations o) o) =
  Z.of_nat (nth (i mod 3) [12; 16; 20]%nat 0%nat).
Proof.
  destruct (variation_cases o i) as [[-> ->] | [[-> ->] | [-> ->]]]; reflexivity.
Qed.

Lemma variation_charset o i :
  servesAll o -> buildCharset (nth (i mod 3) (variations o) o) <> "".
Proof.
  intros Hs He. apply GeneratorFacts.buildCharset_empty in He.
  destruct He as (Hc & Hl & Hu & Hn & Hsp).
  destruct (variation_cases o i) as [[_ Hv] | [[_ Hv] | [_ Hv]]]; rewrite Hv in *;
    cbn in *; try discriminate.
  destruct Hs as [Hs | (c & Hs & Hne)].
  - rewrite Hl, Hu, Hn in Hs. discriminate.
  - destruct Hc as [Hc | Hc]; congruence.
Qed.

Lemma plain_has_no_special o :
  includeSpecialChars o = false ->
  forallb (fun c => negb (existsb (ascii_eqb c) (chars (specialChars (excludeSimilar o)))))
    (chars (standardCharset o)) = true.
Proof.
  intros Hs. unfold standardCharset. rewrite Hs.
  destruct (includeLowercase o), (includeUppercase o), (includeNumbers o),
    (excludeSimilar o); vm_compute; reflexivity.
Qed.

Lemma round_ok tape o i :
  servesAll o ->
  exists p, generateSecurePassword tape (nth (i mod 3) (variations o) o) = Returned p /\
            suggestionAt o i p.
Proof.
  intros Hs.
  destruct (GeneratorFacts.generate_length tape (nth (i mod 3) (variations o) o))
    as (p & Hp & Hlen).
  - rewrite variation_length.
    destruct (variation_cases o i) as [[-> _] | [[-> _] | [-> _]]]; cbn; lia.
  - now apply variation_charset.
  - exists p. split; [exact Hp |]. split.
    + rewrite Hlen, variation_length. apply Nat2Z.id.
    + intros Hcustom Hk c Hc Hsp.
      destruct (variation_cases o i) as [[_ Hv] | [[Hk' _] | [Hk' _]]]; [| lia | lia].
      rewrite Hv in Hp.
      set (v := mkGenOptions 12 (includeUppercase o) (includeLowercase o)
                  (includeNumbers o) false (excludeSimilar o) (customCharset o)) in *.
      apply (GeneratorFacts.generate_standard tape v p Hcustom Hp) in Hc.
      pose proof (plain_has_no_special v eq_refl) as Hpl.
      rewrite forallb_forall in Hpl. apply list_elem_of_In in Hc. apply Hpl in Hc.
      apply negb_true_iff in Hc.
      change (excludeSimilar v) with (excludeSimilar o) in Hc.
      assert (existsb (ascii_eqb c) (chars (specialChars (excludeSimilar o))) = true);
        [| congruence].
      apply existsb_exists. exists c. split; [now apply list_elem_of_In |].
      apply Ascii.eqb_refl.
Qed.

Lemma suggestLoop_ok o n :
  servesAll o ->
  forall tape i acc,
  exists ps,
    suggestLoop tape o i n acc = Returned (acc ++ ps)%list /\
    List.length ps = n /\
    forall k p, ps !! k = Some p -> suggestionAt o (i + k) p.
Proof.
  intros Hs. induction n as [| n IH]; intros tape i acc; cbn [suggestLoop].
  - exists []. rewrite app_nil_r. split; [reflexivity |]. split; [reflexivity |].
    intros k p H. destruct k; discriminate.
  - destruct (round_ok tape o i Hs) as (p & -> & Hp).
    destruct (IH (shiftTape (snd (generatorRun tape (nth (i mod 3) (variations o) o))) tape)
                (S i) (acc ++ [p])%list) as (ps & -> & Hlen & Hall).
    exists (p :: ps). rewrite <- app_assoc. split; [reflexivity |].
    split; [cbn; now rewrite Hlen |].
    intros [| k] q Hq; cbn in Hq.
    + injection Hq as <-. now rewrite Nat.add_0_r.
    + apply Hall in Hq. now replace (i + S k)%nat with (S i + k)%nat by lia.
Qed.

(** X5: When a letter or digit class is requested or a non-empty custom
    character set is given, [generatePasswordSuggestions] returns
    exactly [count] passwords for every draw of the random source; their
    lengths cycle through 12, 16 and 20, and without a custom set the
    passwords of length 12 hold no character of the special set. *)
Theorem suggestions_cycle (tape : Tape) (count : nat) (o : GenOptions) :
  servesAll o ->
  exists ps,
    generatePasswordSuggestions tape count o = Returned ps /\
    List.length ps = count /\
    forall k p, ps !! k = Some p ->
      String.length p = nth (k mod 3) [12; 16; 20]%nat 0%nat /\
      (customCharset o = None -> (k mod 3 = 0)%nat ->
       forall c, c ∈ chars p -> c ∉ chars (specialChars (excludeSimilar o))).
Proof.
  intros Hs. destruct (suggestLoop_ok o count Hs tape 0%nat []) as (ps & H & Hlen & Hall).
  exists ps. split; [exact H |]. split; [exact Hlen |]. intros k p Hk. exact (Hall k p Hk).
Qed.

Lemma suggestions_cycle_witness :
  exists ps,
    generatePasswordSuggestions (fun n => n) 4 defaultOptions = Returned ps /\
    List.length ps = 4%nat /\
    forall k p, ps !! k = Some p ->
      String.length p = nth (k mod 3) [12; 16; 20]%nat 0%nat /\
      (customCharset defaultOptions = None -> (k mod 3 = 0)%nat ->
       forall c, c ∈ chars p ->
         c ∉ chars (specialChars (excludeSimilar defaultOptions))).
Proof.
  apply (suggestions_cycle (fun n => n) 4 defaultOptions). left. reflexivity.
Defined.

(** X6: When neither a letter class nor the digit class is requested and
    there is no custom character set, the first variation switches the
    special characters off and is left with an empty character set:
    every call that asks for at least one suggestion throws, whatever
    the draws, also when special characters were requested. *)
Theorem suggestions_need_letters_or_digits (tape : Tape) (count : nat) (o : GenOptions) :
  includeLowercase o = false -> includeUppercase o = false ->
  includeNumbers o = false ->
  customCharset o = None \/ customCharset o = Some "" ->
  (0 < count)%nat ->
  generatePasswordSuggestions tape count o =
  Thrown (Error "At least one character type must be included").
Proof.
  intros Hl Hu Hn Hc Hcount. destruct count as [| n]; [lia |].
  unfold generatePasswordSuggestions. cbn [suggestLoop].
  change (nth (0 mod 3) (variations o) o)
    with (mkGenOptions 12 (includeUppercase o) (includeLowercase o) (includeNumbers o)
            false (excludeSimilar o) (customCharset o)).
  rewrite Hl, Hu, Hn.
  destruct Hc as [-> | ->]; reflexivity.
Qed.

Lemma suggestions_need_letters_or_digits_witness :
  generatePasswordSuggestions (fun n => n) 1
    (mkGenOptions 16 false false false true true None) =
  Thrown (Error "At least one character type must be included").
Proof.
  apply suggestions_need_letters_or_digits; try reflexivity; [now left | lia].
Defined.

End SuggestionFacts.

(* --------------------------------------------------------------------- *)
(** ** Validity of a password, hashing and the strength description *)
(* --------------------------------------------------------------------- *)

Module ValidityFacts.
Import PasswordService PasswordTools.

Lemma when_addScore b k r :
  score (when b (addScore k) r) = score r + bonus b k /\
  errors (when b (addScore k) r) = errors r.
Proof. destruct b; cbn; split; auto; lia. Qed.

Lemma when_pushError b m r :
  score (when b (pushError m) r) = score r /\
  errors (when b (pushError m) r) = (errors r ++ report b m)%list.
Proof. destruct b; cbn; split; auto. now rewrite app_nil_r. Qed.

Lemma when_penalty b k m r :
  score (when b (fun r => addScore k (pushWarning m r)) r) = score r + bonus b k /\
  errors (when b (fun r => addScore k (pushWarning m r)) r) = errors r.
Proof. destruct b; cbn; split; auto; lia. Qed.

Lemma classRule_effect req present m k r :
  score (classRule req present m k r) = score r + bonus present k /\
  errors (classRule req present m k r) = (errors r ++ report (req && negb present) m)%list.
Proof.
  unfold classRule. destruct req, present; cbn; split; auto; try lia;
    now rewrite app_nil_r.
Qed.

(** The errors and the score of the rules, rule by rule. *)
Lemma applyRules_errors p u :
  errors (applyRules p u) =
  (report (Nat.ltb (String.length p) 8) "Password must be at least 8 characters long" ++
   report (Nat.ltb 128 (String.length p)) "Password must not exceed 128 characters" ++
   report (negb (hasUpper p)) "Password must contain at least one uppercase letter" ++
   report (negb (hasLower p)) "Password must contain at least one lowercase letter" ++
   report (negb (hasDigit p)) "Password must contain at least one number" ++
   report (matchesForbidden p) "Password contains forbidden patterns or is too common")%list.
Proof.
  unfold applyRules. cbv zeta.
  rewrite (proj2 (when_addScore _ _ _)), (proj2 (when_addScore _ _ _)),
    (proj2 (when_addScore _ _ _)).
  rewrite !(proj2 (when_penalty _ _ _ _)).
  rewrite (proj2 (when_pushError _ _ _)).
  rewrite !(proj2 (classRule_effect _ _ _ _ _)).
  rewrite (proj2 (when_pushError _ _ _)).
  unfold requireUppercase, requireLowercase, requireNumbers, requireSpecialChars,
    minLength, maxLength.
  cbn [andb]. change (report false _) with (@nil string). rewrite app_nil_r.
  rewrite <- !app_assoc. f_equal.
  destruct (Nat.ltb (String.length p) 8); [reflexivity |].
  destruct (Nat.leb 8 (String.length p)); reflexivity.
Qed.

Lemma applyRules_score p u :
  score (applyRules p u) =
  bonus (Nat.leb 8 (String.length p)) 20 +
  bonus (hasUpper p) 15 + bonus (hasLower p) 15 + bonus (hasDigit p) 15 +
  bonus (hasSpecial p) 10 +
  bonus (mentionsEmail p u) (-10) + bonus (mentionsFirstName p u) (-5) +
  bonus (mentionsLastName p u) (-5) +
  bonus (Nat.leb 12 (String.length p)) 10 + bonus (Nat.leb 16 (String.length p)) 10 +
  bonus (diverse p) 5.
Proof.
  unfold applyRules. cbv zeta.
  rewrite (proj1 (when_addScore _ _ _)), (proj1 (when_addScore _ _ _)),
    (proj1 (when_addScore _ _ _)).
  rewrite !(proj1 (when_penalty _ _ _ _)).
  rewrite (proj1 (when_pushError _ _ _)).
  rewrite !(proj1 (classRule_effect _ _ _ _ _)).
  rewrite (proj1 (when_pushError _ _ _)).
  unfold minLength.
  assert (Hfirst :
    score (if Nat.ltb (String.length p) 8
           then pushError "Password must be at least 8 characters long" emptyResult
           else if Nat.leb 8 (String.length p) then addScore 20 emptyResult
                else emptyResult) = bonus (Nat.leb 8 (String.length p)) 20).
  { destruct (Nat.ltb_spec (String.length p) 8) as [H | H].
    - replace (Nat.leb 8 (String.length p)) with false
        by (symmetry; apply Nat.leb_gt; lia). reflexivity.
    - replace (Nat.leb 8 (String.length p)) with true
        by (symmetry; apply Nat.leb_le; lia). reflexivity. }
  rewrite Hfirst. lia.
Qed.

Lemma report_nil b m : report b m = [] <-> b = false.
Proof. destruct b; cbn; split; congruence. Qed.

Lemma errors_nil_iff p u :
  errors (applyRules p u) = [] <-> meetsRequirements p = true.
Proof.
  rewrite applyRules_errors. unfold meetsRequirements.
  rewrite !app_nil, !report_nil, !andb_true_iff, !negb_false_iff, !negb_true_iff.
  rewrite Nat.ltb_ge, Nat.ltb_ge, Nat.leb_le, Nat.leb_le. tauto.
Qed.

Lemma validate_string p u :
  p <> "" -> validatePasswordStrength (JsString p) u = scoreString p u.
Proof.
  intros Hne. unfold validatePasswordStrength. cbn [truthy].
  apply String.eqb_neq in Hne. now rewrite Hne.
Qed.

Lemma meetsRequirements_nonempty p : meetsRequirements p = true -> p <> "".
Proof. intros H ->. discriminate. Qed.

(** X7: For a string password the result of [validatePasswordStrength]
    reports no error exactly when the password has 8 to 128 characters,
    an uppercase letter, a lowercase letter, a digit and no forbidden
    pattern.  A valid password meets these requirements; and a password
    that meets them is valid provided it does not mention the local part
    of the e-mail address and does not mention both names. *)
Theorem validity_characterised (p : string) (u : UserInfo) :
  let r := validatePasswordStrength (JsString p) u in
  (errors r = [] <-> meetsRequirements p = true) /\
  (isValid r = true -> meetsRequirements p = true) /\
  (meetsRequirements p = true ->
   mentionsEmail p u = false ->
   mentionsFirstName p u && mentionsLastName p u = false ->
   isValid r = true).
Proof.
  cbv zeta. destruct (String.eqb_spec p "") as [-> | Hne].
  - repeat split; intros; discriminate.
  - rewrite (validate_string p u Hne).
    rewrite PasswordFacts.scoreString_errors, PasswordFacts.scoreString_isValid.
    split; [apply errors_nil_iff |].
    rewrite andb_true_iff, Nat.eqb_eq, length_zero_iff_nil, errors_nil_iff. split; [tauto |].
    intros Hm He Hnames. split; [exact Hm |].
    apply Z.leb_le. rewrite applyRules_score.
    unfold meetsRequirements in Hm. rewrite !andb_true_iff in Hm.
    destruct Hm as (((((H8 & _) & HU) & HL) & HD) & _).
    rewrite H8, HU, HL, HD, He. unfold clamp.
    destruct (mentionsFirstName p u), (mentionsLastName p u); try discriminate;
      destruct (hasSpecial p), (Nat.leb 12 (String.length p)),
        (Nat.leb 16 (String.length p)), (diverse p); cbn; lia.
Qed.

Lemma validity_characterised_witness :
  isValid (validatePasswordStrength (JsString "Abcdefg1") noUserInfo) = true.
Proof.
  apply (proj2 (proj2 (validity_characterised "Abcdefg1" noUserInfo))); reflexivity.
Defined.

Lemma when_frame {B : Type} (g : StrengthResult -> B) b f r :
  (forall r, g (f r) = g r) -> g (when b f r) = g r.
Proof. intros H. destruct b; cbn [when]; auto. Qed.

Lemma classRule_frame {B : Type} (g : StrengthResult -> B) req present m k r :
  (forall r, g (pushError m r) = g r) -> (forall r, g (addScore k r) = g r) ->
  g (classRule req present m k r) = g r.
Proof. intros H1 H2. unfold classRule. destruct (req && negb present), present; auto. Qed.

(** The rules suggest nothing, and without user information they warn of
    nothing. *)
Lemma applyRules_suggestions p u : suggestions (applyRules p u) = [].
Proof.
  unfold applyRules. cbv zeta.
  repeat first [ rewrite (when_frame suggestions) by reflexivity
               | rewrite (classRule_frame suggestions) by reflexivity ].
  destruct (Nat.ltb _ _); [reflexivity |]. destruct (Nat.leb _ _); reflexivity.
Qed.

Lemma applyRules_warnings p : warnings (applyRules p noUserInfo) = [].
Proof.
  unfold applyRules. cbv zeta.
  change (mentionsEmail p noUserInfo) with false.
  change (mentionsFirstName p noUserInfo) with false.
  change (mentionsLastName p noUserInfo) with false.
  cbn [when].
  repeat first [ rewrite (when_frame warnings) by reflexivity
               | rewrite (classRule_frame warnings) by reflexivity ].
  destruct (Nat.ltb _ _); [reflexivity |]. destruct (Nat.leb _ _); reflexivity.
Qed.

Lemma scoreString_warnings p u :
  warnings (scoreString p u) = warnings (applyRules p u).
Proof.
  unfold scoreString, suggest.
  now rewrite !(when_frame warnings) by reflexivity.
Qed.

Lemma scoreString_suggestions p u :
  suggestions (scoreString p u) =
  (report (clamp (score (applyRules p u)) <? 60)
     "Consider using a longer password with mixed character types" ++
   report (negb (hasSpecial p))
     "Adding special characters can improve password strength" ++
   report (Nat.ltb (String.length p) 12)
     "Passwords of 12+ characters are more secure")%list.
Proof.
  unfold scoreString, suggest, when, decideValidity, boundScore, pushSuggestion.
  cbv zeta. cbn [score suggestions].
  destruct (clamp _ <? 60), (negb (hasSpecial p)), (Nat.ltb (String.length p) 12);
    cbn [score suggestions isValid errors warnings report app];
    rewrite applyRules_suggestions; reflexivity.
Qed.

(** X8: The user information never changes the errors that
    [validatePasswordStrength] reports and never raises the score.  It
    can add warnings (there is none without it), it can turn a valid
    password into an invalid one and never the reverse, and it can add
    the first suggestion, to use a longer password, and no other.  The
    password [Abcdefg1] is valid with 70 points on its own and invalid
    with 55 points for a user whose address and first name it
    contains. *)
Theorem context_only_lowers_score (v : JsValue) (u : UserInfo) :
  let r := validatePasswordStrength v u in
  let r0 := validatePasswordStrength v noUserInfo in
  errors r = errors r0 /\
  score r <= score r0 /\
  (isValid r = true -> isValid r0 = true) /\
  warnings r0 = [] /\
  (suggestions r = suggestions r0 \/
   suggestions r
   = "Consider using a longer password with mixed character types" :: suggestions r0) /\
  (let r1 := validatePasswordStrength (JsString "Abcdefg1")
               (mkUserInfo (Some "abc@example.com") (Some "Efg") None) in
   let r2 := validatePasswordStrength (JsString "Abcdefg1") noUserInfo in
   (isValid r2, score r2) = (true, 70) /\ (isValid r1, score r1) = (false, 55) /\
   List.length (warnings r1) = 2%nat /\
   List.length (suggestions r1) = S (List.length (suggestions r2))).
Proof.
  cbv zeta.
  assert (Hscore : forall s,
             clamp (score (applyRules s u)) <= clamp (score (applyRules s noUserInfo))).
  { intros s. rewrite !applyRules_score. unfold clamp.
    change (mentionsEmail s noUserInfo) with false.
    change (mentionsFirstName s noUserInfo) with false.
    change (mentionsLastName s noUserInfo) with false.
    destruct (mentionsEmail s u), (mentionsFirstName s u), (mentionsLastName s u);
      cbn [bonus]; lia. }
  split; [| split; [| split; [| split; [| split]]]].
  - unfold validatePasswordStrength. destruct (negb (truthy v)); [reflexivity |].
    destruct v; try reflexivity.
    now rewrite !PasswordFacts.scoreString_errors, !applyRules_errors.
  - unfold validatePasswordStrength. destruct (negb (truthy v)); [lia |].
    destruct v; try lia.
    rewrite !PasswordFacts.scoreString_score. apply Hscore.
  - unfold validatePasswordStrength. destruct (negb (truthy v)); [auto |].
    destruct v; auto.
    rewrite !PasswordFacts.scoreString_isValid, !applyRules_errors, !andb_true_iff,
      !Z.leb_le.
    intros [He Hs]. split; [exact He |]. specialize (Hscore s). lia.
  - unfold validatePasswordStrength. destruct (negb (truthy v)); [reflexivity |].
    destruct v; try reflexivity.
    now rewrite scoreString_warnings, applyRules_warnings.
  - unfold validatePasswordStrength. destruct (negb (truthy v)); [now left |].
    destruct v; try (now left).
    rewrite !scoreString_suggestions. specialize (Hscore s).
    destruct (Z.ltb_spec (clamp (score (applyRules s u))) 60),
      (Z.ltb_spec (clamp (score (applyRules s noUserInfo))) 60);
      cbn [report app]; try (now left); try (now right). lia.
  - repeat split.
Qed.

(** X9: A password that [validatePasswordStrength] accepts is described
    as Fair, Good or Excellent by [getStrengthDescription]; anything
    that is not a non-empty string is described as Very Weak. *)
Theorem description_of_valid (v : JsValue) (u : UserInfo) :
  let r := validatePasswordStrength v u in
  (isValid r = true ->
   level (getStrengthDescription (score r)) ∈ ["Fair"; "Good"; "Excellent"]) /\
  (wellFormed v = false -> level (getStrengthDescription (score r)) = "Very Weak").
Proof.
  cbv zeta. split.
  - intros Hv. destruct (PasswordFacts.early_return v u) as [[msg H] | (p & -> & H)].
    + rewrite H in Hv. discriminate.
    + rewrite H in *. apply PasswordFacts.scoreString_valid_iff in Hv.
      destruct Hv as [_ Hs]. unfold getStrengthDescription.
      destruct (Z.ltb_spec (score (scoreString p u)) 30); [lia |].
      destruct (Z.ltb_spec (score (scoreString p u)) 50); [lia |].
      destruct (Z.ltb_spec (score (scoreString p u)) 70); [set_solver |].
      destruct (Z.ltb_spec (score (scoreString p u)) 90); set_solver.
  - intros Hw. unfold validatePasswordStrength, wellFormed in *.
    destruct (truthy v) eqn:Ht; [| reflexivity].
    destruct v; try discriminate; reflexivity.
Qed.

Lemma description_of_valid_witness :
  level (getStrengthDescription
           (score (validatePasswordStrength (JsString "Abcdefg1") noUserInfo)))
    ∈ ["Fair"; "Good"; "Excellent"].
Proof.
  apply (proj1 (description_of_valid (JsString "Abcdefg1") noUserInfo)). reflexivity.
Defined.

(** X10: [hashPassword] returns only what the hashing library returns
    for a non-empty string of at most 128 characters, with the
    configured rounds; every other argument, and every failure of the
    library, is an error whose message starts with the hashing prefix
    and that carries no code. *)
Theorem hashPassword_cases (L : Library) (env : Env) (v : JsValue) :
  match hashPassword L env v with
  | Returned h =>
      exists p, v = JsString p /\ p <> "" /\ (String.length p <= 128)%nat /\
                bcrypt_hash L p (UserModel.saltRounds env) = Returned h
  | Thrown e =>
      startsWith (err_message e) "Password hashing failed: " = true /\
      err_code e = None /\
      (forall p, v = JsString p -> p <> "" -> (String.length p <= 128)%nat ->
                 exists e', bcrypt_hash L p (UserModel.saltRounds env) = Thrown e')
  end.
Proof.
  unfold hashPassword. cbv zeta.
  destruct (truthy v) eqn:Ht; cbn [negb].
  - destruct v; try (repeat split; intros; discriminate).
    cbn [truthy] in Ht. apply negb_true_iff, String.eqb_neq in Ht.
    unfold maxPasswordLength.
    destruct (Nat.ltb_spec 128 (String.length s)) as [Hlen | Hlen].
    + repeat split. intros p [= <-] _ Hle. lia.
    + destruct (bcrypt_hash L s (UserModel.saltRounds env)) as [h | e] eqn:Hh.
      * exists s. auto.
      * repeat split. intros p [= <-] _ _. eauto.
  - repeat split. intros p -> Hne _. cbn in Ht.
    apply negb_false_iff, String.eqb_eq in Ht. contradiction.
Qed.

End ValidityFacts.

(* --------------------------------------------------------------------- *)
(** ** Token format, expiry strings and the verifiers *)
(* --------------------------------------------------------------------- *)

Module TokenFacts.
Import TokenTools.

Lemma split_nonempty sep l : split sep l <> [].
Proof.
  destruct l as [| c l]; cbn; [discriminate |].
  destruct (ascii_eqb c sep); [discriminate |].
  destruct (split sep l); discriminate.
Qed.

Lemma ascii_eqb_true a b : ascii_eqb a b = true <-> a = b.
Proof. apply Ascii.eqb_eq. Qed.

Lemma ascii_eqb_false a b : ascii_eqb a b = false <-> a <> b.
Proof. apply Ascii.eqb_neq. Qed.

(** A part without the separator, up to the separator, is the first
    part of the split. *)
Lemma split_app sep p rest :
  sep ∉ p -> split sep (p ++ sep :: rest) = p :: split sep rest.
Proof.
  induction p as [| c p IH]; intros Hp; cbn.
  - replace (ascii_eqb sep sep) with true by (symmetry; now apply ascii_eqb_true).
    reflexivity.
  - apply not_elem_of_cons in Hp as [Hc Hp].
    replace (ascii_eqb c sep) with false by (symmetry; apply ascii_eqb_false; congruence).
    now rewrite (IH Hp).
Qed.

Lemma split_single sep p : sep ∉ p -> split sep p = [p].
Proof.
  induction p as [| c p IH]; intros Hp; cbn; [reflexivity |].
  apply not_elem_of_cons in Hp as [Hc Hp].
  replace (ascii_eqb c sep) with false by (symmetry; apply ascii_eqb_false; congruence).
  now rewrite (IH Hp).
Qed.

(** The first part of a split, and what was split after it. *)
Lemma split_inv sep l p parts :
  split sep l = p :: parts ->
  (sep ∉ p) /\
  ((parts = [] /\ l = p) \/
   exists rest, l = (p ++ sep :: rest)%list /\ split sep rest = parts).
Proof.
  revert p parts. induction l as [| c l IH]; intros p parts H; cbn in H.
  - injection H as <- <-. split; [apply not_elem_of_nil | now left].
  - destruct (ascii_eqb c sep) eqn:Hc.
    + injection H as <- <-. apply ascii_eqb_true in Hc. subst c.
      split; [apply not_elem_of_nil |]. right. exists l. auto.
    + apply ascii_eqb_false in Hc.
      destruct (split sep l) as [| q qs] eqn:Hs; [now apply split_nonempty in Hs |].
      injection H as <- <-.
      destruct (IH q qs eq_refl) as [Hq Hcases].
      split; [apply not_elem_of_cons; split; [congruence | exact Hq] |].
      destruct Hcases as [[-> ->] | (rest & -> & Hr)]; [now left |].
      right. exists rest. auto.
Qed.

Lemma split_three sep l a b c :
  split sep l = [a; b; c] <->
  l = (a ++ sep :: b ++ sep :: c)%list /\ (sep ∉ a) /\ (sep ∉ b) /\ (sep ∉ c).
Proof.
  split.
  - intros H. apply split_inv in H as [Ha [[? _] | (r1 & -> & H)]]; [discriminate |].
    apply split_inv in H as [Hb [[? _] | (r2 & -> & H)]]; [discriminate |].
    apply split_inv in H as [Hc [[_ ->] | (r3 & _ & H)]];
      [auto | now apply split_nonempty in H].
  - intros (-> & Ha & Hb & Hc).
    now rewrite (split_app _ _ _ Ha), (split_app _ _ _ Hb), (split_single _ _ Hc).
Qed.

Lemma base64url_no_dot part :
  forallb isBase64Url part = true -> ("."%char) ∉ part.
Proof.
  intros H Hin. rewrite forallb_forall in H.
  apply list_elem_of_In, H in Hin. discriminate.
Qed.

Lemma join_chars s : join (chars s) = s.
Proof. apply string_of_list_ascii_of_string. Qed.

Lemma chars_inj s1 s2 : chars s1 = chars s2 -> s1 = s2.
Proof. intros H. now rewrite <- (join_chars s1), H, join_chars. Qed.

Lemma matchesBase64Url_iff part :
  matchesBase64Url part = true <-> part <> [] /\ forallb isBase64Url part = true.
Proof.
  unfold matchesBase64Url. rewrite andb_true_iff, negb_true_iff, Nat.eqb_neq.
  destruct part; cbn; split; intros [H1 H2]; split; auto; congruence.
Qed.

(** X11: [validateTokenFormat] accepts exactly the strings made of three
    non-empty parts joined by two dots, each part consisting of
    letters, digits, underscores and hyphens; every value that is not a
    string is refused. *)
Theorem validateTokenFormat_spec (token : JsValue) :
  validateTokenFormat token = true <->
  exists a b c : string,
    token = JsString (a ++ "." ++ b ++ "." ++ c) /\
    a <> "" /\ b <> "" /\ c <> "" /\
    forallb isBase64Url (chars a) = true /\
    forallb isBase64Url (chars b) = true /\
    forallb isBase64Url (chars c) = true.
Proof.
  split.
  - unfold validateTokenFormat.
    destruct (negb (truthy token) || negb (isString token)); [discriminate |].
    destruct token as [| | | | | t |]; try discriminate.
    cbv zeta. destruct (split "." (chars t)) as [| a [| b [| c [| d parts]]]] eqn:Hs;
      try discriminate.
    cbn [List.length Nat.eqb negb forallb]. rewrite !andb_true_iff, !matchesBase64Url_iff.
    intros ((Ha & Ha') & (Hb & Hb') & (Hc & Hc') & _).
    apply split_three in Hs as (Hl & _).
    exists (join a), (join b), (join c).
    rewrite !PasswordFacts.chars_join. repeat split; auto.
    + f_equal. apply chars_inj.
      rewrite Hl, !GeneratorFacts.chars_app, !PasswordFacts.chars_join. reflexivity.
    + intros H. apply Ha. now rewrite <- (PasswordFacts.chars_join a), H.
    + intros H. apply Hb. now rewrite <- (PasswordFacts.chars_join b), H.
    + intros H. apply Hc. now rewrite <- (PasswordFacts.chars_join c), H.
  - intros (a & b & c & -> & Ha & Hb & Hc & Ha' & Hb' & Hc').
    unfold validateTokenFormat. cbn [truthy isString negb orb].
    assert (Hne : String.eqb (a ++ "." ++ b ++ "." ++ c) "" = false).
    { apply String.eqb_neq. destruct a; [congruence | discriminate]. }
    rewrite Hne. cbn [negb orb]. cbv zeta.
    assert (Hs : split "." (chars (a ++ "." ++ b ++ "." ++ c)) = [chars a; chars b; chars c]).
    { apply split_three. rewrite !GeneratorFacts.chars_app.
      repeat split; auto using base64url_no_dot. }
    rewrite Hs. cbn [List.length Nat.eqb negb forallb].
    rewrite !andb_true_iff, !matchesBase64Url_iff.
    repeat split; auto; intros H; [apply Ha | apply Hb | apply Hc];
      now rewrite <- (join_chars _), H.
Qed.

(** An expiry string is cut into its last character and the rest. *)
Lemma parseExpiry_cut body (u : ascii) :
  AuthService.parseExpiryToSeconds (body ++ String u "") =
  let value := parseInt body in
  if String.eqb (String u "") "s" then value
  else if String.eqb (String u "") "m" then (fun v => v * 60) <$> value
  else if String.eqb (String u "") "h" then (fun v => v * 60 * 60) <$> value
  else if String.eqb (String u "") "d" then (fun v => v * 24 * 60 * 60) <$> value
  else Some 900.
Proof.
  unfold AuthService.parseExpiryToSeconds. cbv zeta.
  rewrite GeneratorFacts.chars_app. change (chars (String u "")) with [u].
  rewrite length_app. cbn [List.length].
  replace (List.length (chars body) + 1 - 1)%nat with (List.length (chars body)) by lia.
  rewrite take_app_length, drop_app_length, join_chars. reflexivity.
Qed.

Lemma digitChar_facts d :
  (d < 10)%nat ->
  isWhiteSpace (digitChar d) = false /\
  ascii_eqb (digitChar d) "-" = false /\
  ascii_eqb (digitChar d) "+" = false /\
  ascii_eqb (digitChar d) "x" = false /\
  ascii_eqb (digitChar d) "X" = false /\
  digitValue 10 (digitChar d) = Some d.
Proof.
  intros H. do 10 (destruct d as [| d]; [repeat split |]). lia.
Qed.

Lemma parseDigits_numeral ds a :
  Forall (fun d => (d < 10)%nat) ds ->
  parseDigits 10 (map digitChar ds) (Some a) =
  Some (fold_left (fun acc d => 10 * acc + Z.of_nat d) ds a).
Proof.
  intros H. revert a. induction H as [| d ds Hd _ IH]; intros a; [reflexivity |].
  cbn [map parseDigits fold_left].
  rewrite (proj2 (proj2 (proj2 (proj2 (proj2 (digitChar_facts d Hd)))))).
  cbn [default]. now rewrite IH.
Qed.

(** [parseInt] reads a decimal numeral back. *)
Lemma parseInt_numeral ds :
  ds <> [] -> Forall (fun d => (d < 10)%nat) ds ->
  parseInt (numeral ds) = Some (numeralValue ds).
Proof.
  intros Hne Hall. destruct ds as [| d ds]; [congruence |].
  apply Forall_cons in Hall as [Hd Hall].
  destruct (digitChar_facts d Hd) as (Hws & Hminus & Hplus & _ & _ & Hv).
  unfold parseInt, numeral. rewrite PasswordFacts.chars_join. cbn [map dropWhileWs].
  rewrite Hws, Hminus, Hplus.
  assert (Hradix :
    match map digitChar ds with
    | z :: l' =>
        if ascii_eqb (digitChar d) "0" && (ascii_eqb z "x" || ascii_eqb z "X")
        then (16%nat, l') else (10%nat, digitChar d :: map digitChar ds)
    | [] => (10%nat, digitChar d :: map digitChar ds)
    end = (10%nat, digitChar d :: map digitChar ds)).
  { destruct ds as [| d2 ds]; [reflexivity |]. cbn [map].
    apply Forall_cons in Hall as [Hd2 _].
    destruct (digitChar_facts d2 Hd2) as (_ & _ & _ & Hx & HX & _).
    now rewrite Hx, HX, andb_false_r. }
  change (match digitChar d :: map digitChar ds with
          | z :: x :: l' =>
              if ascii_eqb z "0" && (ascii_eqb x "x" || ascii_eqb x "X")
              then (16%nat, l') else (10%nat, digitChar d :: map digitChar ds)
          | _ => (10%nat, digitChar d :: map digitChar ds)
          end)
    with (match map digitChar ds with
          | z :: l' =>
              if ascii_eqb (digitChar d) "0" && (ascii_eqb z "x" || ascii_eqb z "X")
              then (16%nat, l') else (10%nat, digitChar d :: map digitChar ds)
          | [] => (10%nat, digitChar d :: map digitChar ds)
          end).
  rewrite Hradix. cbn [parseDigits]. rewrite Hv. cbn [default].
  rewrite (parseDigits_numeral ds _ Hall). unfold numeralValue. cbn [fold_left].
  reflexivity.
Qed.

(** X12: [parseExpiryToSeconds] turns a decimal number followed by s, m,
    h or d into that many seconds, minutes, hours or days, counted in
    seconds (for numbers of at most eleven digits, on which the
    arithmetic of the source is exact).  Whatever ends in another
    character, and the empty string, gives the default of 900 seconds. *)
Theorem parseExpiry_units :
  (forall ds,
      ds <> [] -> Forall (fun d => (d < 10)%nat) ds -> (List.length ds <= 11)%nat ->
      AuthService.parseExpiryToSeconds (numeral ds ++ "s") = Some (numeralValue ds) /\
      AuthService.parseExpiryToSeconds (numeral ds ++ "m") = Some (numeralValue ds * 60) /\
      AuthService.parseExpiryToSeconds (numeral ds ++ "h") = Some (numeralValue ds * 3600) /\
      AuthService.parseExpiryToSeconds (numeral ds ++ "d") = Some (numeralValue ds * 86400)) /\
  (forall body (u : ascii),
      u ∉ chars "smhd" ->
      AuthService.parseExpiryToSeconds (body ++ String u "") = Some 900) /\
  AuthService.parseExpiryToSeconds "" = Some 900.
Proof.
  split; [| split; [| reflexivity]].
  - intros ds Hne Hall _. rewrite !parseExpiry_cut. cbv zeta.
    rewrite (parseInt_numeral ds Hne Hall). cbn. repeat split; f_equal; lia.
  - intros body u Hu. rewrite parseExpiry_cut. cbv zeta.
    assert (Hs : u <> "s"%char) by (intros ->; apply Hu; set_solver).
    assert (Hm : u <> "m"%char) by (intros ->; apply Hu; set_solver).
    assert (Hh : u <> "h"%char) by (intros ->; apply Hu; set_solver).
    assert (Hd : u <> "d"%char) by (intros ->; apply Hu; set_solver).
    assert (Hneq : forall c : ascii, u <> c -> String.eqb (String u "") (String c "") = false).
    { intros c Hc. apply String.eqb_neq. congruence. }
    now rewrite (Hneq _ Hs), (Hneq _ Hm), (Hneq _ Hh), (Hneq _ Hd).
Qed.

Lemma parseExpiry_units_witness :
  AuthService.parseExpiryToSeconds "15m" = Some 900 /\
  AuthService.parseExpiryToSeconds "7d" = Some 604800 /\
  AuthService.parseExpiryToSeconds "1 week" = Some 900.
Proof.
  destruct parseExpiry_units as (Hnum & Hother & _).
  destruct (Hnum [1; 5]%nat) as (_ & Hm & _ & _);
    [discriminate | repeat constructor | cbn; lia |].
  destruct (Hnum [7]%nat) as (_ & _ & _ & Hd);
    [discriminate | repeat constructor | cbn; lia |].
  split; [exact Hm |]. split; [exact Hd |].
  apply (Hother "1 wee" "k"%char). cbn.
  repeat (apply not_elem_of_cons; split; [discriminate |]). apply not_elem_of_nil.
Defined.

Lemma translate_cases expired invalid e :
  AuthService.translate expired invalid e = Error expired \/
  AuthService.translate expired invalid e = Error invalid \/
  AuthService.translate expired invalid e = Error "TOKEN_VERIFICATION_FAILED".
Proof.
  unfold AuthService.translate.
  destruct (String.eqb (err_name e) "TokenExpiredError"); [auto |].
  destruct (String.eqb (err_name e) "JsonWebTokenError"); auto.
Qed.

(** X13: Each verifier returns only payloads that carry its own tag -- a
    refresh token the token type refresh, a reset token the purpose
    password_reset, a verification token the purpose email_verification
    -- and throws only plain errors with a message of its own list.  A
    token of the wrong kind that the library accepts is reported by the
    refresh verifier as TOKEN_VERIFICATION_FAILED, by the two others as
    invalid. *)
Theorem verifiers_tags_and_errors (L : Library) (env : Env) (now : Z) (token : string) :
  match AuthService.verifyRefreshToken L env now token with
  | Returned d => p_tokenType d = Some "refresh"
  | Thrown e =>
      e ∈ [Error "REFRESH_TOKEN_EXPIRED"; Error "INVALID_REFRESH_TOKEN";
           Error "TOKEN_VERIFICATION_FAILED"] /\
      (forall d, jwt_verify L now token (JWT_REFRESH_SECRET env)
                   (Some ("uniapply-hub", "uniapply-hub-users")) = Returned d ->
                 e = Error "TOKEN_VERIFICATION_FAILED")
  end /\
  match AuthService.verifyResetToken L env now token with
  | Returned d => p_purpose d = Some "password_reset"
  | Thrown e =>
      e ∈ [Error "RESET_TOKEN_EXPIRED"; Error "INVALID_RESET_TOKEN"] /\
      (forall d, jwt_verify L now token (JWT_ACCESS_SECRET env)
                   (Some ("uniapply-hub", "uniapply-hub-reset")) = Returned d ->
                 e = Error "INVALID_RESET_TOKEN")
  end /\
  match verifyVerificationToken L env now token with
  | Returned d => p_purpose d = Some "email_verification"
  | Thrown e =>
      e ∈ [Error "VERIFICATION_TOKEN_EXPIRED"; Error "INVALID_VERIFICATION_TOKEN"] /\
      (forall d, jwt_verify L now token (JWT_ACCESS_SECRET env)
                   (Some ("uniapply-hub", "uniapply-hub-verify")) = Returned d ->
                 e = Error "INVALID_VERIFICATION_TOKEN")
  end /\
  match AuthService.verifyAccessToken L env now token with
  | Returned d =>
      jwt_verify L now token (JWT_ACCESS_SECRET env)
        (Some ("uniapply-hub", "uniapply-hub-users")) = Returned d
  | Thrown e =>
      e ∈ [Error "ACCESS_TOKEN_EXPIRED"; Error "INVALID_ACCESS_TOKEN";
           Error "TOKEN_VERIFICATION_FAILED"]
  end.
Proof.
  split; [| split; [| split]].
  - unfold AuthService.verifyRefreshToken, AuthService.refreshTokenSecret.
    destruct (jwt_verify L now token (JWT_REFRESH_SECRET env) _) as [d | e].
    + destruct (decide (p_tokenType d = Some "refresh")) as [Ht | Ht].
      * now rewrite bool_decide_eq_true_2.
      * rewrite bool_decide_eq_false_2 by exact Ht. cbn. split; [set_solver | auto].
    + split; [| discriminate].
      destruct (translate_cases "REFRESH_TOKEN_EXPIRED" "INVALID_REFRESH_TOKEN" e)
        as [-> | [-> | ->]]; set_solver.
  - unfold AuthService.verifyResetToken, AuthService.accessTokenSecret. cbv zeta.
    destruct (jwt_verify L now token (JWT_ACCESS_SECRET env) _) as [d | e].
    + destruct (decide (p_purpose d = Some "password_reset")) as [Ht | Ht].
      * now rewrite bool_decide_eq_true_2.
      * rewrite bool_decide_eq_false_2 by exact Ht. cbn. split; [set_solver | auto].
    + split; [| discriminate].
      destruct (String.eqb (err_name e) "TokenExpiredError"); set_solver.
  - unfold verifyVerificationToken, AuthService.accessTokenSecret. cbv zeta.
    destruct (jwt_verify L now token (JWT_ACCESS_SECRET env) _) as [d | e].
    + destruct (decide (p_purpose d = Some "email_verification")) as [Ht | Ht].
      * now rewrite bool_decide_eq_true_2.
      * rewrite bool_decide_eq_false_2 by exact Ht. cbn. split; [set_solver | auto].
    + split; [| discriminate].
      destruct (String.eqb (err_name e) "TokenExpiredError"); set_solver.
  - unfold AuthService.verifyAccessToken, AuthService.accessTokenSecret.
    destruct (jwt_verify L now token (JWT_ACCESS_SECRET env) _) as [d | e];
      [reflexivity |].
    destruct (translate_cases "ACCESS_TOKEN_EXPIRED" "INVALID_ACCESS_TOKEN" e)
      as [-> | [-> | ->]]; set_solver.
Qed.

End TokenFacts.

(* --------------------------------------------------------------------- *)
(** ** The guards *)
(* --------------------------------------------------------------------- *)

Module GuardFacts.
Import Guards.

(** X14: The request gate verifies a token without an audience, and it
    compares the session of the account with the one in the token.  A
    password-reset token or an e-mail verification token carries no
    session: once the library verifies it, without options, to the
    payload it was signed with, the gate lets the request of a
    logged-out account through as that account, unless the lookup of the
    account is rejected. *)
Theorem purpose_tokens_pass_gate (L : Library) (env : Env) (db : Database) (now0 now : Z)
    (st : Store) (id : string) (a : Account) :
  users st !! id = Some a ->
  sessionId a = None ->
  let doc := mkDocument User id a [] in
  let passes (tok : string) :=
    Middleware.authenticateToken L env db now (Some ("Bearer " ++ tok)) st
    = match findFault db User (ById id) with
      | Some e => Middleware.caught e
      | None => Proceed doc
      end in
  (forall tok,
     AuthService.generateResetToken L env now0 doc = Returned tok ->
     jwt_verify L now tok (JWT_ACCESS_SECRET env) None
     = Returned (mkPayload id (email a) None None None (Some "password_reset")) ->
     passes tok) /\
  (forall tok,
     TokenTools.generateVerificationToken L env now0 doc = Returned tok ->
     jwt_verify L now tok (JWT_ACCESS_SECRET env) None
     = Returned (mkPayload id (email a) None None None (Some "email_verification")) ->
     passes tok).
Proof.
  intros Ha Hs doc passes. subst passes.
  split; intros tok _ Hv; rewrite SessionFacts.gate_bearer, Hv;
    unfold Mongoose.findById; cbn [collection p_id p_sessionId];
    (destruct (findFault db User (ById id)); [reflexivity |]);
    rewrite Ha; cbn [fields]; rewrite Hs; reflexivity.
Qed.

Lemma purpose_tokens_pass_gate_witness :
  Middleware.authenticateToken Fixture.library Sample.env Sample.database 9
    (Some "Bearer bob/uniapply-hub-reset") Fixture.store
  = Proceed Fixture.bobDoc.
Proof.
  apply (proj1 (purpose_tokens_pass_gate Fixture.library Sample.env Sample.database 0 9
                  Fixture.store Fixture.bobId Fixture.bob eq_refl eq_refl)
           "bob/uniapply-hub-reset"); reflexivity.
Defined.

(** X15: [optionalAuth] attaches a user to the request exactly when the
    request gate would let the request through, and it attaches the same
    document; in every other case -- no header, a malformed header, a
    token the library refuses, an unknown account, a session that does
    not match -- the request goes on without a user. *)
Theorem optionalAuth_agrees_with_gate (L : Library) (env : Env) (db : Database) (now : Z)
    (authHeader : option string) (st : Store) (user : Document) :
  optionalAuth L env db now authHeader st = Some user <->
  Middleware.authenticateToken L env db now authHeader st = Proceed user.
Proof.
  unfold optionalAuth, Middleware.authenticateToken.
  destruct authHeader as [h |]; [| split; discriminate].
  destruct (String.eqb h "" || negb (startsWith h "Bearer ")); [split; discriminate |].
  cbv zeta.
  destruct (jwt_verify L now (substringFrom 7 h) (JWT_ACCESS_SECRET env) None) as [d | e].
  - destruct (Mongoose.findById db User (p_id d) st) as [[u |] | e];
      [| split; discriminate |].
    + destruct (bool_decide (sessionId (fields u) = p_sessionId d)); cbn [negb];
        split; intros H; try discriminate; congruence.
    + split; [discriminate |].
      destruct (SessionFacts.caught_cases e) as [[_ ->] | [[_ ->] | (_ & _ & ->)]];
        discriminate.
  - split; [discriminate |].
    destruct (SessionFacts.caught_cases e) as [[_ ->] | [[_ ->] | (_ & _ & ->)]];
      discriminate.
Qed.

Lemma optionalAuth_agrees_with_gate_witness :
  optionalAuth Sample.library Sample.env Sample.database 0 (Some "Bearer alice.access")
    Sample.aliceStore
  = Some Sample.aliceDoc.
Proof.
  apply (proj2 (optionalAuth_agrees_with_gate Sample.library Sample.env Sample.database 0
                  (Some "Bearer alice.access") Sample.aliceStore Sample.aliceDoc)).
  reflexivity.
Defined.

(** X16: On a request that carries no user yet, [requireAdmin] calls
    [next()] without an error exactly when the request gate lets the
    request through as a user whose e-mail address is the configured
    administrator address; with no address configured nobody passes.
    When the gate does not let the request through, the handler forwards
    a TypeError -- after the 401 response when the gate rejected the
    request -- and the error the gate wanted to forward is lost. *)
Theorem requireAdmin_outcomes (L : Library) (env : Env) (db : Database)
    (adminEmail : option string) (now : Z) (authHeader : option string) (st : Store) :
  let gate := Middleware.authenticateToken L env db now authHeader st in
  let r := requireAdmin L env db adminEmail now authHeader st in
  (nextCall r = Some None <->
   exists user, gate = Proceed user /\ Some (email (fields user)) = adminEmail) /\
  (adminEmail = None -> nextCall r <> Some None) /\
  (forall user, gate = Proceed user -> Some (email (fields user)) <> adminEmail ->
     r = mkGuardResult
           (Some (mkResponse 403 false "Admin privileges required"
                    (Some "INSUFFICIENT_PERMISSIONS") []))
           None) /\
  (forall status code msg, gate = Reject status code msg ->
     r = mkGuardResult (Some (mkResponse status false msg (Some code) []))
           (Some (Some undefinedUser))) /\
  (forall e, gate = Forward e -> r = mkGuardResult None (Some (Some undefinedUser))).
Proof.
  cbv zeta. unfold requireAdmin.
  destruct (Middleware.authenticateToken L env db now authHeader st) as [s c m | u | e].
  - repeat split; try discriminate.
    + intros (u & H & _). discriminate.
    + intros s' c' m' [= <- <- <-]. reflexivity.
  - unfold hasAdminRole. rewrite orb_false_r.
    destruct (decide (Some (email (fields u)) = adminEmail)) as [Heq | Hne].
    + rewrite bool_decide_eq_true_2 by exact Heq. cbn [negb].
      repeat split; try discriminate; eauto.
      * intros ->. discriminate.
      * intros u' [= <-] H. contradiction.
    + rewrite bool_decide_eq_false_2 by exact Hne. cbn [negb].
      repeat split; try discriminate.
      intros (u' & [= <-] & H). contradiction.
  - repeat split; try discriminate.
    intros (u & H & _). discriminate.
Qed.

Lemma requireAdmin_outcomes_witness :
  requireAdmin Sample.library Sample.env Sample.database (Some "root@example.com") 0
    (Some "Bearer alice.access") Sample.aliceStore
  = mkGuardResult
      (Some (mkResponse 403 false "Admin privileges required"
               (Some "INSUFFICIENT_PERMISSIONS") []))
      None.
Proof.
  apply (proj1 (proj2 (proj2 (requireAdmin_outcomes Sample.library Sample.env
           Sample.database (Some "root@example.com") 0 (Some "Bearer alice.access")
           Sample.aliceStore)))
         Sample.aliceDoc); [reflexivity | discriminate].
Defined.

(** X17: The guards resolve identities among the users only.  A token
    that the library verifies for an identifier that no user document
    has gets through no guard, whatever administrators are stored: the
    request gate answers USER_NOT_FOUND when the lookup answers, and
    otherwise does with the error of the lookup what its [catch] clause
    does with any error; [optionalAuth] attaches no user; [requireAdmin]
    hands a TypeError to [next] and never calls [next()]. *)
Theorem guards_read_users_only (L : Library) (env : Env) (db : Database)
    (adminEmail : option string) (now : Z) (tok : string) (d : Payload) (st : Store) :
  jwt_verify L now tok (JWT_ACCESS_SECRET env) None = Returned d ->
  users st !! p_id d = None ->
  let h := Some ("Bearer " ++ tok) in
  Middleware.authenticateToken L env db now h st
  = match findFault db User (ById (p_id d)) with
    | Some e => Middleware.caught e
    | None => Reject 401 "USER_NOT_FOUND" "User not found"
    end /\
  (forall u, Middleware.authenticateToken L env db now h st <> Proceed u) /\
  optionalAuth L env db now h st = None /\
  nextCall (requireAdmin L env db adminEmail now h st) = Some (Some undefinedUser).
Proof.
  intros Hv Hu h. subst h.
  assert (Hg : Middleware.authenticateToken L env db now (Some ("Bearer " ++ tok)) st
               = match findFault db User (ById (p_id d)) with
                 | Some e => Middleware.caught e
                 | None => Reject 401 "USER_NOT_FOUND" "User not found"
                 end).
  { rewrite SessionFacts.gate_bearer, Hv. unfold Mongoose.findById.
    cbn [collection]. rewrite Hu. now destruct (findFault db User (ById (p_id d))). }
  assert (Hn : forall u, Middleware.authenticateToken L env db now
                           (Some ("Bearer " ++ tok)) st <> Proceed u).
  { intros u. rewrite Hg. destruct (findFault db User (ById (p_id d))) as [e |];
      [| discriminate].
    destruct (SessionFacts.caught_cases e) as [[_ ->] | [[_ ->] | (_ & _ & ->)]];
      discriminate. }
  split; [exact Hg |]. split; [exact Hn |]. split.
  - destruct (optionalAuth L env db now (Some ("Bearer " ++ tok)) st) as [u |] eqn:Ho;
      [| reflexivity].
    exfalso. apply (Hn u). unfold optionalAuth, Middleware.authenticateToken in *.
    destruct (String.eqb ("Bearer " ++ tok) "" || negb (startsWith ("Bearer " ++ tok) "Bearer "));
      [discriminate |].
    cbv zeta in *.
    destruct (jwt_verify L now (substringFrom 7 ("Bearer " ++ tok)) (JWT_ACCESS_SECRET env) None)
      as [d' | e]; [| discriminate].
    destruct (Mongoose.findById db User (p_id d') st) as [[u' |] | e]; try discriminate.
    destruct (bool_decide (sessionId (fields u') = p_sessionId d')); cbn [negb];
      congruence.
  - unfold requireAdmin.
    destruct (Middleware.authenticateToken L env db now (Some ("Bearer " ++ tok)) st)
      as [s c m | u | e] eqn:Hgate; try reflexivity.
    exfalso. exact (Hn u eq_refl).
Qed.

Lemma guards_read_users_only_witness :
  Middleware.authenticateToken Sample.library Sample.env Sample.database 0
    (Some "Bearer root.access") Sample.rootStore
  = Reject 401 "USER_NOT_FOUND" "User not found" /\
  Middleware.authenticateToken Sample.library Sample.env Sample.database 0
    (Some "Bearer test.access") Sample.aliceStore
  = Forward (Sample.castError User "test123").
Proof.
  split.
  - apply (proj1 (guards_read_users_only Sample.library Sample.env Sample.database None 0
                    "root.access" (AuthService.tokenPayload Sample.rootDoc)
                    Sample.rootStore eq_refl eq_refl)).
  - apply (proj1 (guards_read_users_only Sample.library Sample.env Sample.database None 0
                    "test.access" (AuthService.tokenPayload Sample.scriptUser)
                    Sample.aliceStore eq_refl eq_refl)).
Defined.

End GuardFacts.

(* --------------------------------------------------------------------- *)
(** ** Looking an account up and logging in *)
(* --------------------------------------------------------------------- *)

Module AccountFacts.

Lemma lowerChar_idem c : lowerChar (lowerChar c) = lowerChar c.
Proof. destruct c as [[] [] [] [] [] [] [] []]; reflexivity. Qed.

Lemma toLowerCase_idem s : toLowerCase (toLowerCase s) = toLowerCase s.
Proof.
  unfold toLowerCase. rewrite PasswordFacts.chars_join, map_map. f_equal.
  apply map_ext. intros c. apply lowerChar_idem.
Qed.

Lemma findOneByEmail_Thrown db m e st err :
  Mongoose.findOneByEmail db m e st = Thrown err <-> findFault db m (ByEmail e) = Some err.
Proof.
  unfold Mongoose.findOneByEmail. destruct (findFault db m (ByEmail e)) as [err' |].
  - split; intros [= ->]; reflexivity.
  - split; discriminate.
Qed.

Lemma findOneByEmail_Some db m e st d :
  Mongoose.findOneByEmail db m e st = Returned (Some d) ->
  collection m st !! _id d = Some (fields d) /\ email (fields d) = e /\
  modelOf d = m /\ modifiedPaths d = [].
Proof.
  unfold Mongoose.findOneByEmail.
  destruct (findFault db m (ByEmail e)); [discriminate |].
  destruct (List.find _ _) as [[k a] |] eqn:Hf; [| discriminate].
  intros [= <-]. apply find_some in Hf as [Hin He]. cbn [fst snd] in *.
  apply list_elem_of_In, elem_of_map_to_list in Hin. apply String.eqb_eq in He. auto.
Qed.

Lemma findOneByEmail_None db m e st :
  Mongoose.findOneByEmail db m e st = Returned None <->
  findFault db m (ByEmail e) = None /\
  forall id a, collection m st !! id = Some a -> email a <> e.
Proof.
  unfold Mongoose.findOneByEmail.
  destruct (findFault db m (ByEmail e)); [split; [discriminate | intros [H _]; discriminate H] |].
  split.
  - destruct (List.find _ _) as [kv |] eqn:Hf; [discriminate |].
    intros _. split; [reflexivity |]. intros id a Ha He.
    assert (Hin : In (id, a) (map_to_list (collection m st)))
      by now apply list_elem_of_In, elem_of_map_to_list.
    apply (find_none _ _ Hf) in Hin. cbn [snd] in Hin.
    apply String.eqb_neq in Hin. contradiction.
  - intros [_ H]. destruct (List.find _ _) as [[k a] |] eqn:Hf; [| reflexivity].
    apply find_some in Hf as [Hin He]. cbn [fst snd] in *.
    apply list_elem_of_In, elem_of_map_to_list in Hin. apply String.eqb_eq in He.
    now apply H in Hin.
Qed.

(** X18: [findByEmail] looks the address up in lower case and without
    surrounding white space.  What it returns is a stored user account
    with that normalised address, as an unmodified document; it returns
    nothing exactly when the query is answered and no stored user has
    it; it throws exactly the error with which the query is rejected;
    and the case of the letters in the query makes no difference. *)
Theorem findByEmail_spec (db : Database) (e : string) (st : Store) :
  (forall d, UserModel.findByEmail db e st = Returned (Some d) ->
     modelOf d = User /\ users st !! _id d = Some (fields d) /\
     email (fields d) = trim (toLowerCase e) /\ modifiedPaths d = []) /\
  (UserModel.findByEmail db e st = Returned None <->
   findFault db User (ByEmail (trim (toLowerCase e))) = None /\
   forall id a, users st !! id = Some a -> email a <> trim (toLowerCase e)) /\
  (forall err, UserModel.findByEmail db e st = Thrown err <->
               findFault db User (ByEmail (trim (toLowerCase e))) = Some err) /\
  UserModel.findByEmail db (toLowerCase e) st = UserModel.findByEmail db e st.
Proof.
  unfold UserModel.findByEmail. split; [| split; [| split]].
  - intros d Hd. apply findOneByEmail_Some in Hd as (H1 & H2 & H3 & H4). auto.
  - apply findOneByEmail_None.
  - intros err. apply findOneByEmail_Thrown.
  - now rewrite toLowerCase_idem.
Qed.

Lemma findByEmail_spec_witness :
  users Sample.aliceStore !! _id Sample.aliceDoc = Some (fields Sample.aliceDoc).
Proof.
  apply (proj1 (findByEmail_spec Sample.database " Alice@Example.com " Sample.aliceStore)
           Sample.aliceDoc).
  vm_compute. reflexivity.
Defined.

(** The document that reaches the write when a user document just loaded
    was given a new session identifier and the time of the login. *)
Lemma hooks_after_login now id a v :
  let d := UserModel.preSaveSecond now
             (Mongoose.timestamps now
                (Mongoose.setLastLoginAt now
                   (Mongoose.setSessionId v (mkDocument User id a [])))) in
  modelOf d = User /\ _id d = id /\ fields d = UserModel.loginWrite now v a.
Proof.
  unfold UserModel.loginWrite, UserModel.afterHooks, Mongoose.setLastLoginAt,
    Mongoose.setSessionId, Mongoose.timestamps, Mongoose.assign, anyModified.
  cbn [fields modifiedPaths modelOf _id withSessionId lastLoginAt].
  destruct (bool_decide (sessionId a = v)), (lastLoginAt a =? now);
    cbn [negb orb]; repeat split;
    match goal with
    | |- context [negb (?x =? now)] => destruct (x =? now); reflexivity
    | _ => reflexivity
    end.
Qed.

Lemma login_unhashed now v id a :
  isModified "passwordHash"
    (Mongoose.setLastLoginAt now (Mongoose.setSessionId v (mkDocument User id a [])))
  = false.
Proof.
  unfold Mongoose.setLastLoginAt, Mongoose.setSessionId, Mongoose.assign, isModified.
  cbn [fields modifiedPaths withSessionId lastLoginAt sessionId].
  destruct (bool_decide (sessionId a = v)), (lastLoginAt a =? now); reflexivity.
Qed.

(** Saving a user document on which only the session and the login time
    were assigned: rejected by the validation or by the write, with the
    store as it was, or the fields of [loginWrite] written. *)
Lemma save_login L env db now id a v st :
  (exists e d, UserModel.updateLastLogin L env db now
                 (Mongoose.setSessionId v (mkDocument User id a [])) st = Thrown e /\
               (validationFault db d = Some e \/ writeFault db d = Some e)) \/
  UserModel.updateLastLogin L env db now
    (Mongoose.setSessionId v (mkDocument User id a [])) st =
  Returned (mkDocument User id (UserModel.loginWrite now v a) [],
            mkStore (<[id := UserModel.loginWrite now v a]> (users st)) (admins st)).
Proof.
  unfold UserModel.updateLastLogin.
  rewrite SessionFacts.save_unhashed by apply login_unhashed.
  destruct (hooks_after_login now id a v) as (Hm & Hi & Hf). cbv zeta in *.
  destruct (validationFault db _) as [e |] eqn:Hv; [left; eauto |].
  destruct (writeFault db _) as [e |] eqn:Hw; [left; eauto |].
  right. rewrite Hm, Hi, Hf. reflexivity.
Qed.

(** What [loginWrite] writes, path by path. *)
Lemma loginWrite_paths now v a :
  let a' := UserModel.loginWrite now v a in
  email a' = email a /\
  (email a', passwordHash a', lastPasswordChange a', passwordExpiresAt a', profile a',
   lastActiveAt a')
  = (email a, passwordHash a, lastPasswordChange a, passwordExpiresAt a, profile a,
     lastActiveAt a) /\
  sessionId a' = v /\
  lastLoginAt a' = now /\
  updatedAt a' = (if bool_decide (sessionId a = v) && (lastLoginAt a =? now)
                  then updatedAt a else now) /\
  profileCompletionStatus a'
  = ProfileCompletion.calculateProfileCompletion (profile a) (profileCompletionStatus a).
Proof.
  unfold UserModel.loginWrite, UserModel.afterHooks.
  destruct (bool_decide (sessionId a = v)), (lastLoginAt a =? now); repeat split.
Qed.

(** What a successful login found and stored. *)
Lemma login_inv (L : Library) (env : Env) (db : Database) (now : Z) (src : nat -> ascii)
    (c : Credentials) (st st' : Store) (r : LoginResult) :
  UserService.authenticateUser L env db now src c st = (Returned r, st') ->
  exists id a,
    users st !! id = Some a /\
    email a = trim (toLowerCase (cred_email c)) /\
    bcrypt_compare L (cred_password c) (JsString (passwordHash a)) = Returned true /\
    let a' := UserModel.loginWrite now (Some (freshId src)) a in
    st' = mkStore (<[id := a']> (users st)) (admins st) /\
    lr_user r = mkSanitized id (email a) now /\
    AuthService.generateTokens L env now (mkDocument User id a' []) (cred_rememberMe c)
    = Returned (lr_tokens r).
Proof.
  unfold UserService.authenticateUser, UserService.authenticate.
  destruct (String.eqb (cred_email c) "" || negb (truthy (cred_password c)));
    [discriminate |].
  destruct (UserModel.findByEmail db (cred_email c) st) as [[d |] | e] eqn:Hf;
    try discriminate.
  apply findOneByEmail_Some in Hf as (Hd & He & Hm & Hp).
  destruct d as [m id a paths]. cbn [modelOf _id fields modifiedPaths] in *. subst m paths.
  unfold UserModel.verifyPassword. cbn [fields].
  destruct (negb (truthy (cred_password c)) || negb (truthy (JsString (passwordHash a))));
    [discriminate |].
  destruct (bcrypt_compare L (cred_password c) (JsString (passwordHash a)))
    as [[|] | e] eqn:Hc; try discriminate.
  unfold UserModel.generateSessionId.
  destruct (save_login L env db now id a (Some (freshId src)) st)
    as [(e & d & -> & _) | ->]; [discriminate |].
  destruct (AuthService.generateTokens L env now _ (cred_rememberMe c)) as [t | e] eqn:Hg;
    [| discriminate].
  intros [= <- <-]. exists id, a. cbv zeta.
  destruct (loginWrite_paths now (Some (freshId src)) a) as (P1 & _ & _ & P3 & _).
  cbv zeta in P1, P3.
  repeat split; auto.
  unfold UserService.sanitizeUserForResponse. cbn [lr_user _id fields].
  now rewrite P1, P3.
Qed.

(** X19: A login succeeds only for a stored user whose normalised
    address is the one given and whose stored hash the library accepts
    for the password.  It then writes that account and no other: every
    other user and every administrator stays.  On the account it stores
    a newly drawn session identifier and the time of the login; the
    save also sets [updatedAt] to the time of the login (unless neither
    assignment changed a value) and recomputes the profile completion;
    the e-mail address, the password hash, the password dates, the
    profile and [lastActiveAt] stay.  The tokens returned are the ones
    generated for the updated document. *)
Theorem login_success (L : Library) (env : Env) (db : Database) (now : Z)
    (src : nat -> ascii) (c : Credentials) (st st' : Store) (r : LoginResult) :
  UserService.authenticateUser L env db now src c st = (Returned r, st') ->
  exists id a,
    users st !! id = Some a /\
    email a = trim (toLowerCase (cred_email c)) /\
    bcrypt_compare L (cred_password c) (JsString (passwordHash a)) = Returned true /\
    let a' := UserModel.loginWrite now (Some (freshId src)) a in
    st' = mkStore (<[id := a']> (users st)) (admins st) /\
    (email a', passwordHash a', lastPasswordChange a', passwordExpiresAt a', profile a',
     lastActiveAt a')
    = (email a, passwordHash a, lastPasswordChange a, passwordExpiresAt a, profile a,
       lastActiveAt a) /\
    sessionId a' = Some (freshId src) /\
    lastLoginAt a' = now /\
    updatedAt a' = (if bool_decide (sessionId a = Some (freshId src)) && (lastLoginAt a =? now)
                    then updatedAt a else now) /\
    profileCompletionStatus a'
    = ProfileCompletion.calculateProfileCompletion (profile a) (profileCompletionStatus a) /\
    lr_user r = mkSanitized id (email a) now /\
    AuthService.generateTokens L env now (mkDocument User id a' []) (cred_rememberMe c)
    = Returned (lr_tokens r).
Proof.
  intros H. apply login_inv in H as (id & a & H1 & H2 & H3 & H4).
  cbv zeta in H4. destruct H4 as (H4 & H5 & H6).
  exists id, a. cbv zeta.
  destruct (loginWrite_paths now (Some (freshId src)) a) as (_ & P1 & P2 & P3 & P4 & P5).
  cbv zeta in *. repeat split; assumption.
Qed.

Lemma login_success_witness :
  exists id a,
    users Fixture.store !! id = Some a /\
    email a = trim (toLowerCase "Alice@example.com") /\
    bcrypt_compare Fixture.library (JsString Fixture.alicePassword)
      (JsString (passwordHash a)) = Returned true.
Proof.
  edestruct (login_success Fixture.library Sample.env Sample.database 5 Sample.bytes
               (mkCredentials "Alice@example.com" (JsString Fixture.alicePassword) false)
               Fixture.store)
    as (id & a & H1 & H2 & H3 & _).
  - vm_compute. reflexivity.
  - exists id, a. auto.
Defined.

(** X20: After a successful login the request gate goes by the new
    session of the account: a token that the library verifies to a
    payload of this account with another session identifier -- the
    access token of an earlier login -- is rejected as SESSION_INVALID,
    and a token verified to a payload with the new identifier is let
    through as the updated account; a lookup that is rejected ends
    either request as the [catch] clause of the gate decides. *)
Theorem login_replaces_session (L : Library) (env : Env) (db db' : Database) (now now' : Z)
    (src : nat -> ascii) (c : Credentials) (st st' : Store) (r : LoginResult)
    (tok : string) (d : Payload) :
  UserService.authenticateUser L env db now src c st = (Returned r, st') ->
  jwt_verify L now' tok (JWT_ACCESS_SECRET env) None = Returned d ->
  p_id d = su_id (lr_user r) ->
  let gate := Middleware.authenticateToken L env db' now' (Some ("Bearer " ++ tok)) st' in
  (p_sessionId d <> Some (freshId src) ->
   gate = match findFault db' User (ById (p_id d)) with
          | Some e => Middleware.caught e
          | None => Reject 401 "SESSION_INVALID" "Session has been invalidated"
          end) /\
  (p_sessionId d = Some (freshId src) ->
   exists user,
     gate = match findFault db' User (ById (p_id d)) with
            | Some e => Middleware.caught e
            | None => Proceed user
            end /\
     _id user = su_id (lr_user r) /\
     sessionId (fields user) = Some (freshId src) /\
     lastLoginAt (fields user) = now).
Proof.
  intros Hlogin Hv Hid gate. subst gate.
  apply login_inv in Hlogin as (id & a & Ha & _ & _ & Hst).
  cbv zeta in Hst. destruct Hst as (-> & Hu & _).
  rewrite Hu in Hid. cbn [su_id] in Hid.
  destruct (loginWrite_paths now (Some (freshId src)) a) as (_ & _ & P2 & P3 & _).
  cbv zeta in P2, P3.
  rewrite SessionFacts.gate_bearer, Hv. unfold Mongoose.findById.
  cbn [collection users]. rewrite Hid, lookup_insert_eq. cbn [fields].
  split; intros Hs.
  - destruct (findFault db' User (ById id)); [reflexivity |].
    cbn [fields]. rewrite P2, bool_decide_eq_false_2 by congruence. reflexivity.
  - exists (mkDocument User id (UserModel.loginWrite now (Some (freshId src)) a) []).
    split; [| rewrite Hu; cbn [_id fields su_id]; auto].
    destruct (findFault db' User (ById id)); [reflexivity |].
    cbn [fields]. rewrite P2, bool_decide_eq_true_2 by congruence. reflexivity.
Qed.

Lemma login_replaces_session_witness :
  Middleware.authenticateToken Fixture.library Sample.env Sample.database 9
    (Some ("Bearer " ++ "alice/earlier"))
    (snd (UserService.authenticateUser Fixture.library Sample.env Sample.database 5
            Sample.bytes
            (mkCredentials "Alice@example.com" (JsString Fixture.alicePassword) false)
            Fixture.store))
  = Reject 401 "SESSION_INVALID" "Session has been invalidated".
Proof.
  unshelve eapply
    (proj1 (login_replaces_session Fixture.library Sample.env Sample.database
              Sample.database 5 9 Sample.bytes
              (mkCredentials "Alice@example.com" (JsString Fixture.alicePassword) false)
              Fixture.store _ _ "alice/earlier" (AuthService.tokenPayload Sample.aliceDoc)
              _ _ _)).
  1: shelve.
  - vm_compute. reflexivity.
  - reflexivity.
  - reflexivity.
  - vm_compute. discriminate.
Defined.

End AccountFacts.

(* --------------------------------------------------------------------- *)
(** ** The refresh and logout routes *)
(* --------------------------------------------------------------------- *)

Module AuthRouteFacts.
Import AuthRoutes.

Lemma verifyRefreshToken_thrown L env now tok e :
  AuthService.verifyRefreshToken L env now tok = Thrown e ->
  e = Error "REFRESH_TOKEN_EXPIRED" \/ e = Error "INVALID_REFRESH_TOKEN" \/
  e = Error "TOKEN_VERIFICATION_FAILED".
Proof.
  unfold AuthService.verifyRefreshToken.
  destruct (jwt_verify L now tok _ _) as [d | e'].
  - destruct (negb (bool_decide (p_tokenType d = Some "refresh"))); [| discriminate].
    intros [= <-]. right. right. reflexivity.
  - intros [= <-]. unfold AuthService.translate.
    destruct (String.eqb (err_name e') "TokenExpiredError"); [auto |].
    destruct (String.eqb (err_name e') "JsonWebTokenError"); auto.
Qed.

(** Each error with which the token verifier refuses a token is
    answered by the [catch] clause of the refresh route. *)
Lemma verifyRefreshToken_mentions L env now tok e :
  AuthService.verifyRefreshToken L env now tok = Thrown e -> mentionsToken e = true.
Proof.
  intros H. apply verifyRefreshToken_thrown in H as [-> | [-> | ->]]; reflexivity.
Qed.

(** X21: The refresh route.  Without a token in the body or the cookie
    it answers 401 REFRESH_TOKEN_REQUIRED.  With a token it answers with
    one and the same 401 INVALID_TOKEN response when the service refuses
    the token -- an expired, invalid or wrongly typed token, an unknown
    account, a replaced session -- and leaves the store as it was.
    When the lookup, the save or the signing of the new tokens throws,
    the route answers with that same response if the message of the
    error contains TOKEN, USER or SESSION and hands the error to [next]
    otherwise; the store is then as it was, except after a failed
    signing, which comes after the save of the new session.  Otherwise
    it returns the tokens of the service, which has then stored the new
    session.  The outbox and the console are never touched. *)
Theorem refresh_route_outcomes (L : Library) (env : Env) (db : Database) (now : Z)
    (src : nat -> ascii) (bodyToken cookieToken : option string) (w : World) :
  let result := refresh L env db now src bodyToken cookieToken w in
  let refused := (NotRefreshed (Replied refreshRefused),
                  mkWorld (store w) (outbox w) (console w)) in
  let thrown (e : JsError) (st' : Store) :=
    (NotRefreshed (if mentionsToken e then Replied refreshRefused else Forwarded e),
     mkWorld st' (outbox w) (console w)) in
  outbox (snd result) = outbox w /\ console (snd result) = console w /\
  match orElse bodyToken cookieToken with
  | None | Some EmptyString => result = (NotRefreshed (Replied refreshRequired), w)
  | Some token =>
      match AuthService.verifyRefreshToken L env now token with
      | Thrown _ => result = refused
      | Returned d =>
          match Mongoose.findById db (AuthService.modelFor (p_type d)) (p_id d)
                  (store w) with
          | Thrown e => result = thrown e (store w)
          | Returned None => result = refused
          | Returned (Some user) =>
              if bool_decide (sessionId (fields user) = p_sessionId d)
              then
                match UserModel.save L env db now
                        (UserModel.generateSessionId src user) (store w) with
                | Thrown e => result = thrown e (store w)
                | Returned (user', st') =>
                    match AuthService.generateTokens L env now user' false with
                    | Thrown e => result = thrown e st'
                    | Returned tokens =>
                        result = (Refreshed tokens, mkWorld st' (outbox w) (console w))
                    end
                end
              else result = refused
          end
      end
  end.
Proof.
  cbv zeta. unfold refresh.
  destruct (orElse bodyToken cookieToken) as [[| c token] |];
    [repeat split | | repeat split].
  unfold AuthService.refreshTokens.
  destruct (AuthService.verifyRefreshToken L env now (String c token)) as [d | e] eqn:Hv.
  2:{ rewrite (verifyRefreshToken_mentions _ _ _ _ _ Hv). repeat split. }
  destruct (Mongoose.findById db _ (p_id d) (store w)) as [[user |] | e].
  - destruct (bool_decide (sessionId (fields user) = p_sessionId d)); cbn [negb].
    + destruct (UserModel.save L env db now _ (store w)) as [[user' st'] | e].
      * destruct (AuthService.generateTokens L env now user' false) as [tokens | e];
          [repeat split |].
        destruct (mentionsToken e); repeat split.
      * destruct (mentionsToken e); repeat split.
    + repeat split.
  - repeat split.
  - destruct (mentionsToken e); repeat split.
Qed.

Lemma refresh_route_outcomes_witness :
  refresh Sample.library Sample.env Sample.database 0 Sample.bytes (Some "stale") None
    Sample.world
  = (NotRefreshed (Replied refreshRefused),
     mkWorld (store Sample.world) (outbox Sample.world) (console Sample.world)) /\
  refresh Sample.library Sample.env Sample.offline 0 Sample.bytes (Some "alice.refresh")
    None Sample.world
  = (NotRefreshed
       (Forwarded (mkError "MongoNetworkError" "connection closed" None None None)),
     mkWorld (store Sample.world) (outbox Sample.world) (console Sample.world)).
Proof.
  split.
  - exact (proj2 (proj2 (refresh_route_outcomes Sample.library Sample.env Sample.database
                           0 Sample.bytes (Some "stale") None Sample.world))).
  - exact (proj2 (proj2 (refresh_route_outcomes Sample.library Sample.env Sample.offline
                           0 Sample.bytes (Some "alice.refresh") None Sample.world))).
Defined.

(** X22: The logout route never logs anybody out.  A request without a
    bearer token is answered 401 UNAUTHORIZED; for every other request
    the handler stops at the identifier [jwt], which the module does not
    bind, and hands a ReferenceError on.  The store, the outbox and the
    console stay as they were and no success body is ever sent. *)
Theorem logout_route_never_logs_out (L : Library) (env : Env) (db : Database) (now : Z)
    (authHeader : option string) (w : World) :
  let result := logout L env db now authHeader w in
  snd result = w /\
  succeeded (fst result) = false /\
  match bearerToken authHeader with
  | None =>
      fst result = Replied (mkResponse 401 false "Authentication token required"
                              (Some "UNAUTHORIZED") [])
  | Some _ =>
      fst result = Forwarded (mkError "ReferenceError" "jwt is not defined" None None None)
  end.
Proof.
  cbv zeta. unfold logout, bearerToken.
  destruct authHeader as [h |]; [| repeat split].
  destruct (startsWith h "Bearer ") eqn:Hs.
  - assert (Hne : String.eqb h "" = false).
    { destruct h; [discriminate Hs | reflexivity]. }
    rewrite Hne. cbn [negb orb]. cbv zeta. repeat split.
  - rewrite orb_true_r. repeat split.
Qed.

End AuthRouteFacts.

(* --------------------------------------------------------------------- *)
(** ** Saving, revoking and the profile completion *)
(* --------------------------------------------------------------------- *)

Module ModelFacts.
Import ProfileCompletion.

(** X23: [calculateProfileCompletion] yields a percentage that is the
    sum of the weights 30, 25, 25 and 20 of the completed sections: it
    lies between 0 and 100, is 100 exactly when all four sections are
    complete and 0 exactly when none is.  The documents flag is taken
    over as it was, and computing the completion again changes nothing. *)
Theorem completion_is_weighted_sum (profile : Profile) (completion : Completion) :
  let c := calculateProfileCompletion profile completion in
  overallCompletion c =
    (if c_personalInfo c then 30 else 0) + (if c_academicBackground c then 25 else 0) +
    (if c_documents c then 25 else 0) + (if c_contactPreferences c then 20 else 0) /\
  0 <= overallCompletion c <= 100 /\
  (overallCompletion c = 100 <->
   c_personalInfo c && c_academicBackground c && c_documents c
     && c_contactPreferences c = true) /\
  (overallCompletion c = 0 <->
   c_personalInfo c || c_academicBackground c || c_documents c
     || c_contactPreferences c = false) /\
  c_documents c = c_documents completion /\
  calculateProfileCompletion profile c = c.
Proof.
  cbv zeta. unfold calculateProfileCompletion. cbv zeta.
  cbn [overallCompletion c_personalInfo c_academicBackground c_documents
       c_contactPreferences].
  set (p := _ && present (nationality (personalInfo profile))).
  set (a := Nat.ltb 0 _).
  set (k := _ && isBoolean (marketingEmails (contactPreferences profile))).
  destruct p, a, (c_documents completion), k; vm_compute; repeat split;
    try discriminate; try reflexivity; intros H; discriminate H.
Qed.

Lemma completion_idem (profile : Profile) (completion : Completion) :
  calculateProfileCompletion profile (calculateProfileCompletion profile completion)
  = calculateProfileCompletion profile completion.
Proof. reflexivity. Qed.

(** Clearing the session of an account whose session was just cleared
    writes the fields that are stored already. *)
Lemma sessionWrite_cleared m now now' a :
  UserModel.sessionWrite m now' None (UserModel.sessionWrite m now None a)
  = UserModel.sessionWrite m now None a.
Proof.
  unfold UserModel.sessionWrite at 1.
  rewrite SessionFacts.sessionWrite_sessionId.
  rewrite bool_decide_eq_true_2 by reflexivity. cbn [negb].
  unfold UserModel.sessionWrite, UserModel.afterHooks.
  destruct m, (negb (bool_decide (sessionId a = None))); reflexivity.
Qed.

(** X24: [revokeSession] never throws.  It reports failure exactly when
    the lookup is rejected or the account is found and its save is
    rejected, and the store is then as it was.  When it reports success
    the account, if there is one, has no session afterwards -- for an
    unknown identifier the store is as it was -- and it is idempotent:
    revoking again changes nothing more, and reports success again when
    the database rejects nothing. *)
Theorem revokeSession_idempotent (L : Library) (env : Env) (db db' : Database)
    (now now' : Z) (userId userType : string) (st : Store) :
  let model := if String.eqb userType "admin" then Admin else User in
  let first := AuthService.revokeSession L env db now userId userType st in
  let second := AuthService.revokeSession L env db' now' userId userType (snd first) in
  (fst first = false <->
   findFault db model (ById userId) <> None \/
   exists a e,
     collection model st !! userId = Some a /\
     UserModel.save L env db now
       (Mongoose.setSessionId None (mkDocument model userId a [])) st = Thrown e) /\
  (fst first = false -> snd first = st) /\
  (fst first = true -> collection model st !! userId = None -> snd first = st) /\
  (fst first = true ->
   forall a, collection model (snd first) !! userId = Some a -> sessionId a = None) /\
  (fst first = true -> snd second = snd first) /\
  (fst first = true ->
   findFault db' model (ById userId) = None ->
   (forall d, validationFault db' d = None) ->
   (forall d, writeFault db' d = None) ->
   fst second = true).
Proof.
  cbv zeta. set (m := if String.eqb userType "admin" then Admin else User).
  assert (Hiff :
    fst (AuthService.revokeSession L env db now userId userType st) = false <->
    findFault db m (ById userId) <> None \/
    exists a e,
      collection m st !! userId = Some a /\
      UserModel.save L env db now
        (Mongoose.setSessionId None (mkDocument m userId a [])) st = Thrown e).
  { unfold AuthService.revokeSession, Mongoose.findById. fold m.
    destruct (findFault db m (ById userId)) as [e |].
    { cbn [fst]. split; [intros _; left; discriminate | reflexivity]. }
    destruct (collection m st !! userId) as [a |].
    - destruct (UserModel.save L env db now _ st) as [[u st'] | e] eqn:Hs; cbn [fst].
      + split; [discriminate |].
        intros [H | (a' & e & [= <-] & He)]; [now contradiction H | congruence].
      + split; [| reflexivity]. intros _. right. eauto.
    - cbn [fst]. split; [discriminate |].
      intros [H | (a' & e & Ha & _)]; [now contradiction H | discriminate Ha]. }
  split; [exact Hiff |]. clear Hiff.
  pose proof (SessionFacts.revokeSession_cases L env db now userId userType st) as Hc.
  cbv zeta in Hc. fold m in Hc.
  assert (Hfirst :
    AuthService.revokeSession L env db now userId userType st = (false, st) \/
    (AuthService.revokeSession L env db now userId userType st = (true, st) /\
     collection m st !! userId = None) \/
    (exists a, collection m st !! userId = Some a /\
       AuthService.revokeSession L env db now userId userType st
       = (true, setCollection m
                  (<[userId := UserModel.sessionWrite m now None a]> (collection m st))
                  st))).
  { destruct (findFault db m (ById userId)); [now left |].
    destruct (collection m st !! userId) as [a |]; [| right; left; now split].
    destruct Hc as [Hc | Hc]; [now left | right; right; eauto]. }
  clear Hc. destruct Hfirst as [-> | [[-> Hn] | (a & Ha & ->)]]; cbn [fst snd].
  - repeat split; try discriminate.
  - split; [discriminate |]. split; [reflexivity |].
    split; [intros _ a Ha; congruence |].
    pose proof (SessionFacts.revokeSession_cases L env db' now' userId userType st) as Hc.
    cbv zeta in Hc. fold m in Hc. rewrite Hn in Hc.
    split.
    + intros _. destruct (findFault db' m (ById userId)); now rewrite Hc.
    + intros _ Hf _ _. rewrite Hf in Hc. now rewrite Hc.
  - split; [discriminate |]. split; [intros _ Hn; congruence |].
    set (st1 := setCollection m
                  (<[userId := UserModel.sessionWrite m now None a]> (collection m st)) st).
    assert (H1 : collection m st1 !! userId = Some (UserModel.sessionWrite m now None a)).
    { subst st1. rewrite SessionFacts.collection_setCollection. apply lookup_insert_eq. }
    split.
    { intros _ a'. rewrite H1. intros [= <-]. apply SessionFacts.sessionWrite_sessionId. }
    assert (Hsame : setCollection m
                      (<[userId := UserModel.sessionWrite m now' None
                                     (UserModel.sessionWrite m now None a)]>
                         (collection m st1)) st1 = st1).
    { rewrite sessionWrite_cleared. subst st1.
      rewrite SessionFacts.collection_setCollection.
      destruct st as [us ads], m; cbn [setCollection collection users admins];
        f_equal; now rewrite insert_insert_eq. }
    pose proof (SessionFacts.revokeSession_cases L env db' now' userId userType st1) as Hc.
    cbv zeta in Hc. fold m in Hc. rewrite H1, Hsame in Hc.
    split.
    + intros _. destruct (findFault db' m (ById userId)); [now rewrite Hc |].
      destruct Hc as [-> | ->]; reflexivity.
    + intros _ Hf Hv Hw. unfold AuthService.revokeSession, Mongoose.findById.
      fold m. rewrite Hf, H1.
      rewrite (SessionFacts.save_session_ok L env db' now' m userId _ None st1 Hv Hw).
      reflexivity.
Qed.

(** Witness of X24: an identifier that cannot be cast is reported as a
    failure; Alice's second logout changes nothing. *)
Lemma revokeSession_idempotent_witness :
  AuthService.revokeSession Sample.library Sample.env Sample.database 0 "nobody" "user"
    Sample.aliceStore = (false, Sample.aliceStore) /\
  snd (AuthService.revokeSession Sample.library Sample.env Sample.database 9
         Sample.aliceId "user"
         (snd (AuthService.revokeSession Sample.library Sample.env Sample.database 5
                 Sample.aliceId "user" Sample.aliceStore)))
  = snd (AuthService.revokeSession Sample.library Sample.env Sample.database 5
           Sample.aliceId "user" Sample.aliceStore).
Proof.
  split.
  - pose proof (revokeSession_idempotent Sample.library Sample.env Sample.database
                  Sample.database 0 0 "nobody" "user" Sample.aliceStore) as H.
    cbv zeta in H. destruct H as (H1 & H2 & _).
    assert (Hf : fst (AuthService.revokeSession Sample.library Sample.env Sample.database
                        0 "nobody" "user" Sample.aliceStore) = false).
    { apply H1. left. discriminate. }
    specialize (H2 Hf).
    destruct (AuthService.revokeSession Sample.library Sample.env Sample.database
                0 "nobody" "user" Sample.aliceStore) as [b s].
    cbn [fst snd] in *. now subst.
  - apply (proj1 (proj2 (proj2 (proj2 (proj2
             (revokeSession_idempotent Sample.library Sample.env Sample.database
                Sample.database 5 9 Sample.aliceId "user" Sample.aliceStore)))))).
    reflexivity.
Defined.

End ModelFacts.

(* --------------------------------------------------------------------- *)
(** ** Session identifiers, login errors and the route's password pattern *)
(* --------------------------------------------------------------------- *)

Module ServiceFacts.

(** X25: Whatever the random source yields, a generated session
    identifier consists of exactly 64 characters, each a digit or a
    letter from a to f; in particular it is never empty. *)
Theorem freshId_format (src : nat -> ascii) :
  String.length (freshId src) = 64%nat /\
  (forall c, c ∈ chars (freshId src) -> c ∈ chars "0123456789abcdef") /\
  freshId src <> "".
Proof.
  unfold freshId. split; [| split].
  - rewrite HexFacts.toHex_length. unfold randomBytes. now rewrite length_map, length_seq.
  - intros c. apply HexFacts.toHex_elem.
  - intros H. apply (f_equal String.length) in H.
    rewrite HexFacts.toHex_length in H. unfold randomBytes in H.
    rewrite length_map, length_seq in H. discriminate H.
Qed.

(** Every error that leaves [handleServiceError] carries one of three
    codes. *)
Lemma handleServiceError_code e context :
  err_code (UserService.handleServiceError e context)
  ∈ [Some (CodeStr "VALIDATION_ERROR"); Some (CodeStr "DUPLICATE_ERROR");
     Some (CodeStr "SERVICE_ERROR")].
Proof.
  unfold UserService.handleServiceError.
  destruct (String.eqb (err_name e) "ValidationError"); [set_solver |].
  destruct (match err_code e with Some (CodeNum n) => n =? 11000 | _ => false end);
    [set_solver |].
  destruct (err_validationErrors e); set_solver.
Qed.

(** The error for missing credentials, as a caller sees it. *)
Lemma missingCredentials_handled :
  UserService.handleServiceError (Error "Email and password are required")
    "Authentication failed"
  = mkError "Error" "Authentication failed: Email and password are required"
      (Some (CodeStr "SERVICE_ERROR")) None
      (Some (Error "Email and password are required")).
Proof. reflexivity. Qed.

(** X26: Every error that leaves [authenticateUser] carries the code
    VALIDATION_ERROR, DUPLICATE_ERROR or SERVICE_ERROR.  A login that
    fails leaves the store as it was, unless the failure is that of the
    signing of the tokens, which comes after the save of the new
    session and login time.  When the lookup is answered, the save is
    not rejected and the signing does not throw, the login fails with
    one of two errors only, both with the code SERVICE_ERROR: the one
    for missing credentials, or the one for invalid credentials. *)
Theorem login_failures (L : Library) (env : Env) (db : Database) (now : Z)
    (src : nat -> ascii) (c : Credentials) (st st' : Store) (e : JsError) :
  UserService.authenticateUser L env db now src c st = (Thrown e, st') ->
  let missing :=
    mkError "Error" "Authentication failed: Email and password are required"
      (Some (CodeStr "SERVICE_ERROR")) None
      (Some (Error "Email and password are required")) in
  err_code e ∈ [Some (CodeStr "VALIDATION_ERROR"); Some (CodeStr "DUPLICATE_ERROR");
                Some (CodeStr "SERVICE_ERROR")] /\
  (st' = st \/
   exists id a e0,
     users st !! id = Some a /\
     st' = mkStore (<[id := UserModel.loginWrite now (Some (freshId src)) a]> (users st))
             (admins st) /\
     AuthService.generateTokens L env now
       (mkDocument User id (UserModel.loginWrite now (Some (freshId src)) a) [])
       (cred_rememberMe c) = Thrown e0 /\
     e = UserService.handleServiceError e0 "Authentication failed") /\
  (String.eqb (cred_email c) "" || negb (truthy (cred_password c)) = true ->
   e = missing /\ st' = st) /\
  ((forall q, findFault db User q = None) ->
   (forall d, validationFault db d = None) ->
   (forall d, writeFault db d = None) ->
   (forall t p s o, exists tok, jwt_sign L t p s o = Returned tok) ->
   st' = st /\ (e = UserService.invalidCredentials \/ e = missing)).
Proof.
  intros H missing. subst missing.
  unfold UserService.authenticateUser in H.
  destruct (UserService.authenticate L env db now src c st) as [[r | e0] st0] eqn:Ha;
    [discriminate |].
  injection H as <- <-.
  split; [apply handleServiceError_code |].
  unfold UserService.authenticate in Ha.
  destruct (String.eqb (cred_email c) "" || negb (truthy (cred_password c))) eqn:Hmiss.
  { injection Ha as <- <-. repeat split; auto. }
  split; [| split; [discriminate |]].
  - destruct (UserModel.findByEmail db (cred_email c) st) as [[d |] | e1] eqn:Hf;
      [| injection Ha as <- <-; now left | injection Ha as <- <-; now left].
    apply AccountFacts.findOneByEmail_Some in Hf as (Hd & _ & Hm & Hp).
    destruct d as [m id a paths]. cbn [modelOf _id fields modifiedPaths] in *.
    subst m paths.
    destruct (UserModel.verifyPassword L _ (cred_password c)) as [[|] | e1];
      [| injection Ha as <- <-; now left | injection Ha as <- <-; now left].
    unfold UserModel.generateSessionId in Ha.
    destruct (AccountFacts.save_login L env db now id a (Some (freshId src)) st)
      as [(e1 & d & Hs & _) | Hs]; rewrite Hs in Ha; [injection Ha as <- <-; now left |].
    destruct (AuthService.generateTokens L env now _ (cred_rememberMe c)) as [t | e1] eqn:Hg;
      [discriminate |].
    injection Ha as <- <-. right. exists id, a, e1. repeat split; auto.
  - intros Hfind Hval Hwrite Hsign.
    unfold UserModel.findByEmail, Mongoose.findOneByEmail in Ha. rewrite Hfind in Ha.
    destruct (List.find _ _) as [[id a] |];
      [| injection Ha as <- <-; split; [reflexivity | now left]].
    cbn [fst snd] in Ha.
    destruct (UserModel.verifyPassword L _ (cred_password c)) as [[|] | e1] eqn:Hp;
      [| injection Ha as <- <-; split; [reflexivity | now left] |].
    + exfalso. unfold UserModel.generateSessionId in Ha.
      destruct (AccountFacts.save_login L env db now id a (Some (freshId src)) st)
        as [(e1 & d & _ & [Hs | Hs]) | Hs].
      * rewrite Hval in Hs. discriminate Hs.
      * rewrite Hwrite in Hs. discriminate Hs.
      * rewrite Hs in Ha. unfold AuthService.generateTokens in Ha. cbv zeta in Ha.
        destruct (Hsign now
                    (AuthService.tokenPayload
                       (mkDocument User id
                          (UserModel.loginWrite now (Some (freshId src)) a) []))
                    (AuthService.accessTokenSecret env)
                    (mkSignOptions (AuthService.accessTokenExpiry env) "uniapply-hub"
                       "uniapply-hub-users")) as [t1 Ht1].
        rewrite Ht1 in Ha.
        match type of Ha with
        | context [jwt_sign L ?t ?p ?s ?o] =>
            destruct (Hsign t p s o) as [t2 Ht2]; rewrite Ht2 in Ha
        end.
        discriminate Ha.
    + exfalso. unfold UserModel.verifyPassword in Hp.
      destruct (negb _ || negb _); [discriminate |].
      destruct (bcrypt_compare L _ _); discriminate.
Qed.

Lemma login_failures_witness :
  err_code UserService.invalidCredentials
  ∈ [Some (CodeStr "VALIDATION_ERROR"); Some (CodeStr "DUPLICATE_ERROR");
     Some (CodeStr "SERVICE_ERROR")].
Proof.
  apply (login_failures Sample.library Sample.env Sample.database 0 Sample.bytes
           (mkCredentials "alice@example.com" (JsString "guess") false)
           Sample.aliceStore Sample.aliceStore UserService.invalidCredentials).
  vm_compute. reflexivity.
Defined.




End ServiceFacts.

(* --------------------------------------------------------------------- *)
(** ** Rotation and the request gate *)
(* --------------------------------------------------------------------- *)

Module RotationFacts.

(** X28: After a successful refresh of a user account the request gate
    goes by the new session: an access token that the library verifies
    to a payload of the same account with any other session identifier
    -- the access token issued together with the refresh token just
    used -- is rejected as SESSION_INVALID; when the lookup of the
    account is rejected, the [catch] clause of the gate decides. *)
Theorem refresh_retires_access_token (L : Library) (env : Env) (db db' : Database)
    (now now' : Z) (src : nat -> ascii) (tok access : string) (st st' : Store)
    (pair : TokenPair) (d p : Payload) :
  AuthService.refreshTokens L env db now src tok st = (Returned pair, st') ->
  AuthService.verifyRefreshToken L env now tok = Returned d ->
  AuthService.modelFor (p_type d) = User ->
  jwt_verify L now' access (JWT_ACCESS_SECRET env) None = Returned p ->
  p_id p = p_id d ->
  p_sessionId p <> Some (freshId src) ->
  Middleware.authenticateToken L env db' now' (Some ("Bearer " ++ access)) st'
  = match findFault db' User (ById (p_id d)) with
    | Some e => Middleware.caught e
    | None => Reject 401 "SESSION_INVALID" "Session has been invalidated"
    end.
Proof.
  intros Hr Hd Hm Hv Hid Hs.
  apply SessionFacts.refreshTokens_Returned in Hr
    as (d' & a & Hd' & _ & Ha & _ & -> & _).
  rewrite Hd in Hd'. injection Hd' as <-. rewrite Hm in *.
  rewrite SessionFacts.gate_bearer, Hv. unfold Mongoose.findById.
  rewrite Hid. destruct (findFault db' User (ById (p_id d))); [reflexivity |].
  rewrite SessionFacts.collection_setCollection, lookup_insert_eq.
  cbn [fields]. rewrite SessionFacts.sessionWrite_sessionId.
  rewrite bool_decide_eq_false_2 by congruence. reflexivity.
Qed.

Lemma refresh_retires_access_token_witness :
  Middleware.authenticateToken Sample.library Sample.env Sample.database 1
    (Some ("Bearer " ++ "alice.access"))
    (snd (AuthService.refreshTokens Sample.library Sample.env Sample.database 0
            Sample.bytes "alice.refresh" Sample.aliceStore))
  = Reject 401 "SESSION_INVALID" "Session has been invalidated".
Proof.
  eapply (refresh_retires_access_token Sample.library Sample.env Sample.database
            Sample.database 0 1 Sample.bytes
            "alice.refresh" "alice.access" Sample.aliceStore _ _
            (mkPayload Sample.aliceId "alice@example.com" (Some Sample.session1)
               (Some "user") (Some "refresh") None)
            (AuthService.tokenPayload Sample.aliceDoc)).
  - vm_compute. reflexivity.
  - reflexivity.
  - reflexivity.
  - reflexivity.
  - reflexivity.
  - vm_compute. discriminate.
Defined.

End RotationFacts.
